(** * Activity aggregation, statistics and cache refresh: a shallow embedding

    The Python sources embedded here are
    - [src/schemas/person.py], [src/schemas/notion_cache.py]  (the tables),
    - [src/repositories/activity_repository.py]  (ActivityRepository),
    - [src/repositories/person_repository.py]    (PersonRepository),
    - [src/services/activity_stats_service.py]   (ActivityStatsService),
    - [src/services/activity_sync_service.py]    (the dicts of [sync_tasks]),
    - [src/repositories/cache_repository.py]     (CacheRepository),
    - [src/tasks/notion_cache_tasks.py]          (the Celery refresh tasks).

    Conventions.  A Python [int] is a [Z].  A [date] is the number of days
    since the epoch, a timezone-aware UTC [datetime] the number of
    microseconds since the epoch (the resolution of Python's [datetime] and
    of the [DateTime(timezone=True)] columns).  An [await]ed repository call
    is a function on the rows held by the session; a raised exception is the
    [Raise] constructor of [result]. *)

From stdpp Require Import base numbers list sorting gmap strings fin_maps.
From Equations Require Import Equations.
Local Open Scope Z_scope.

(** ** Exceptions *)

Inductive exn : Type :=
| MultipleResultsFound
| Error (msg : string).

Inductive result (A : Type) : Type :=
| Ok (a : A)
| Raise (e : exn).
Arguments Ok {A} a.
Arguments Raise {A} e.

#[global] Instance result_ret : MRet result := λ A a, Ok a.
#[global] Instance result_bind : MBind result := λ A B f m,
  match m with
  | Ok a => f a
  | Raise e => Raise e
  end.

Definition is_ok {A} (r : result A) : bool :=
  match r with Ok _ => true | Raise _ => false end.

(** [Result.scalar_one_or_none()]: no row gives [None], one row gives that
    row, several rows raise [MultipleResultsFound]. *)
Definition scalar_one_or_none {A} (rows : list A) : result (option A) :=
  match rows with
  | [] => Ok None
  | [x] => Ok (Some x)
  | _ :: _ :: _ => Raise MultipleResultsFound
  end.

(** ** Dates and datetimes *)

Definition MICROSECONDS_PER_DAY : Z := 86400000000.

(** [datetime.combine(d, datetime.min.time()).replace(tzinfo=timezone.utc)]:
    00:00:00.000000 of day [d]. *)
Definition combine_min (d : Z) : Z := d * MICROSECONDS_PER_DAY.

(** [datetime.combine(d, datetime.max.time()).replace(tzinfo=timezone.utc)]:
    23:59:59.999999 of day [d]. *)
Definition combine_max (d : Z) : Z :=
  d * MICROSECONDS_PER_DAY + (MICROSECONDS_PER_DAY - 1).

(** [dt.date()] and SQL [date(dt)], both taken in UTC. *)
Definition datetime_date (dt : Z) : Z := dt `div` MICROSECONDS_PER_DAY.

(** ** Rows (src/schemas/person.py) *)

Definition json : Type := list (string * string).

Record Person : Type := mkPerson {
  person_id : Z;
  person_notion_id : string;
  person_username : string;
  person_avatar_url : option string;
  person_email : option string
}.

Record ConversationActivity : Type := mkConversationActivity {
  conv_id : Z;
  conv_person_id : Z;
  conv_notion_conversation_id : string;
  conv_conversation_title : option string;
  conv_created_at : Z
}.

Record TaskActivity : Type := mkTaskActivity {
  task_id : Z;
  task_person_id : Z;
  task_notion_task_id : string;
  task_task_title : option string;
  task_project_name : option string;
  task_completed_at : Z;
  task_last_status_change : option Z;
  task_last_synced_at : Z;
  task_notion_metadata : option json
}.

Record ActivitySummary : Type := mkActivitySummary {
  sum_person_id : Z;
  sum_date : Z;
  sum_conversations_created : Z;
  sum_tasks_completed : Z;
  sum_total_activity_score : Z
}.

#[global] Instance ActivitySummary_eq_dec : EqDecision ActivitySummary.
Proof. solve_decision. Defined.

(** The rows visible through one [AsyncSession]. *)
Record Session : Type := mkSession {
  persons : list Person;
  conversation_activities : list ConversationActivity;
  task_activities : list TaskActivity;
  activity_summaries : list ActivitySummary
}.

Definition set_activity_summaries (rows : list ActivitySummary) (s : Session)
  : Session :=
  {| persons := persons s;
     conversation_activities := conversation_activities s;
     task_activities := task_activities s;
     activity_summaries := rows |}.

Definition set_task_activities (rows : list TaskActivity) (s : Session)
  : Session :=
  {| persons := persons s;
     conversation_activities := conversation_activities s;
     task_activities := rows;
     activity_summaries := activity_summaries s |}.

Definition set_persons (rows : list Person) (s : Session) : Session :=
  {| persons := rows;
     conversation_activities := conversation_activities s;
     task_activities := task_activities s;
     activity_summaries := activity_summaries s |}.

(** An UPDATE of the rows selected by a WHERE clause: each row satisfying
    [P] is replaced by [new], the others stay. *)
Definition replace_if {A : Type} (P : A → Prop) `{!∀ x, Decision (P x)}
    (new : A) (r : A) : A :=
  if decide (P r) then new else r.

(** Python truthiness of an optional string and of an optional JSON object. *)
Definition truthy_str (o : option string) : bool :=
  match o with
  | Some s => negb (String.eqb s "")
  | None => false
  end.

Definition truthy_json (o : option json) : bool :=
  match o with
  | Some (_ :: _) => true
  | _ => false
  end.

(** ** ActivityRepository: daily summaries *)

Module ActivityRepository.

(** The [where] clause of [create_or_update_summary]:
    [person_id == person_id and func.date(date) == date.date()]. *)
Definition summary_matches (pid date : Z) (s : ActivitySummary) : Prop :=
  sum_person_id s = pid ∧ datetime_date (sum_date s) = datetime_date date.

#[global] Instance summary_matches_dec pid date s :
  Decision (summary_matches pid date s).
Proof. unfold summary_matches. apply _. Defined.

(** [create_or_update_summary]: the row selected by the query is updated in
    place, otherwise a new row is added. *)
Definition create_or_update_summary (s : Session)
    (pid date conversations_created tasks_completed total_activity_score : Z)
  : result (ActivitySummary * Session) :=
  found ← scalar_one_or_none
            (filter (summary_matches pid date) (activity_summaries s));
  match found with
  | Some summary =>
      let summary' :=
        {| sum_person_id := sum_person_id summary;
           sum_date := date;
           sum_conversations_created := conversations_created;
           sum_tasks_completed := tasks_completed;
           sum_total_activity_score := total_activity_score |} in
      Ok (summary',
          set_activity_summaries
            (replace_if (summary_matches pid date) summary'
               <$> activity_summaries s) s)
  | None =>
      let summary :=
        {| sum_person_id := pid;
           sum_date := date;
           sum_conversations_created := conversations_created;
           sum_tasks_completed := tasks_completed;
           sum_total_activity_score := total_activity_score |} in
      Ok (summary,
          set_activity_summaries (activity_summaries s ++ [summary]) s)
  end.

(** [select(func.count(ConversationActivity.id)).where(...)] *)
Definition count_conversations (s : Session) (pid start_dt end_dt : Z) : Z :=
  Z.of_nat (length (filter
    (λ c, conv_person_id c = pid ∧
          start_dt ≤ conv_created_at c ∧ conv_created_at c ≤ end_dt)
    (conversation_activities s))).

(** [select(func.count(TaskActivity.id)).where(...)] *)
Definition count_tasks (s : Session) (pid start_dt end_dt : Z) : Z :=
  Z.of_nat (length (filter
    (λ t, task_person_id t = pid ∧
          start_dt ≤ task_completed_at t ∧ task_completed_at t ≤ end_dt)
    (task_activities s))).

(** [aggregate_daily_activities] *)
Definition aggregate_daily_activities (s : Session) (pid target_date : Z)
  : result (ActivitySummary * Session) :=
  let start_datetime := combine_min target_date in
  let end_datetime := combine_max target_date in
  let conversations_count :=
    count_conversations s pid start_datetime end_datetime in
  let tasks_count := count_tasks s pid start_datetime end_datetime in
  let total_score := conversations_count + tasks_count * 2 in
  create_or_update_summary s pid start_datetime
    conversations_count tasks_count total_score.

(** [order_by(ActivitySummary.date)] *)
Definition by_date (a b : ActivitySummary) : Prop := sum_date a ≤ sum_date b.

#[global] Instance by_date_dec a b : Decision (by_date a b).
Proof. unfold by_date. apply _. Defined.

(** [get_summaries_for_person]: the rows of the person whose [date] column
    lies between the two [date] bounds, ordered by [date].  A [date] bound
    compared with the timestamp column stands for 00:00 of that day. *)
Definition get_summaries_for_person (s : Session) (pid start_date end_date : Z)
  : list ActivitySummary :=
  merge_sort by_date
    (filter (λ r, sum_person_id r = pid ∧
                  combine_min start_date ≤ sum_date r ∧
                  sum_date r ≤ combine_min end_date)
       (activity_summaries s)).

(** *** Task activities *)

(** The dict prepared by [sync_tasks] for one (task, assignee). *)
Record task_dict : Type := mkTaskDict {
  td_person_id : Z;
  td_notion_task_id : string;
  td_task_title : option string;
  td_project_name : option string;
  td_completed_at : Z;
  td_last_status_change : option Z;
  td_notion_metadata : option json
}.

(** [get_task_by_notion_id]: the lookup is by [notion_task_id] alone. *)
Definition get_task_by_notion_id (s : Session) (notion_task_id : string)
  : result (option TaskActivity) :=
  scalar_one_or_none
    (filter (λ t, task_notion_task_id t = notion_task_id) (task_activities s)).

(** [create_task_activity]: a new row; the key comes from the table's
    sequence and [last_synced_at] from the server clock [now]. *)
Definition create_task_activity (s : Session) (now : Z) (task : task_dict)
  : TaskActivity * Session :=
  let activity :=
    {| task_id := Z.of_nat (length (task_activities s)) + 1;
       task_person_id := td_person_id task;
       task_notion_task_id := td_notion_task_id task;
       task_task_title := td_task_title task;
       task_project_name := td_project_name task;
       task_completed_at := td_completed_at task;
       task_last_status_change := td_last_status_change task;
       task_last_synced_at := now;
       task_notion_metadata := td_notion_metadata task |} in
  (activity, set_task_activities (task_activities s ++ [activity]) s).

(** The [else] branch of [bulk_create_tasks]: the fields of the existing row
    that are refreshed from the dict.  [person_id] is not among them.  A
    [datetime] is always truthy, so [task.get("completed_at") and ...] is the
    comparison alone, and [task.get("last_status_change") and ...] asks for a
    value other than [None]. *)
Definition update_existing_task (now : Z) (task : task_dict)
    (existing : TaskActivity) : TaskActivity :=
  {| task_id := task_id existing;
     task_person_id := task_person_id existing;
     task_notion_task_id := task_notion_task_id existing;
     task_task_title :=
       if truthy_str (td_task_title task)
          && bool_decide (task_task_title existing ≠ td_task_title task)
       then td_task_title task else task_task_title existing;
     task_project_name :=
       if bool_decide (td_project_name task ≠ task_project_name existing)
       then td_project_name task else task_project_name existing;
     task_completed_at :=
       if bool_decide (task_completed_at existing ≠ td_completed_at task)
       then td_completed_at task else task_completed_at existing;
     task_last_status_change :=
       if bool_decide (is_Some (td_last_status_change task))
          && bool_decide (task_last_status_change existing
                          ≠ td_last_status_change task)
       then td_last_status_change task else task_last_status_change existing;
     task_last_synced_at := now;
     task_notion_metadata :=
       if truthy_json (td_notion_metadata task)
          && negb (truthy_json (task_notion_metadata existing))
       then td_notion_metadata task else task_notion_metadata existing |}.

(** [bulk_create_tasks]: the loop over the prepared dicts; returns the list
    [created]. *)
Fixpoint bulk_create_tasks_from (now : Z) (tasks : list task_dict)
    (s : Session) (created : list TaskActivity)
  : result (list TaskActivity * Session) :=
  match tasks with
  | [] => Ok (created, s)
  | task :: tasks' =>
      existing ← get_task_by_notion_id s (td_notion_task_id task);
      match existing with
      | None =>
          let '(activity, s') := create_task_activity s now task in
          bulk_create_tasks_from now tasks' s' (created ++ [activity])
      | Some existing =>
          let s' :=
            set_task_activities
              (replace_if
                 (λ t, task_notion_task_id t = td_notion_task_id task)
                 (update_existing_task now task existing)
                 <$> task_activities s) s in
          bulk_create_tasks_from now tasks' s' created
      end
  end.

Definition bulk_create_tasks (s : Session) (now : Z) (tasks : list task_dict)
  : result (list TaskActivity * Session) :=
  bulk_create_tasks_from now tasks s [].

(** *** Streaks *)

Record StreakInfo : Type := mkStreakInfo {
  current_streak : Z;
  longest_streak : Z;
  current_streak_start : option Z;
  longest_streak_start : option Z;
  longest_streak_end : option Z
}.

(** The variables of the forward loop of [calculate_streak]. *)
Record streak_vars : Type := mkStreakVars {
  sv_longest_streak : Z;
  sv_longest_streak_start : option Z;
  sv_longest_streak_end : option Z;
  sv_temp_streak : Z;
  sv_temp_streak_start : Z
}.

(** "Streak broken" and "check final streak": the running streak replaces
    the longest one when it is strictly longer. *)
Definition close_streak (end_date : Z) (v : streak_vars) : streak_vars :=
  if decide (sv_temp_streak v > sv_longest_streak v) then
    {| sv_longest_streak := sv_temp_streak v;
       sv_longest_streak_start := Some (sv_temp_streak_start v);
       sv_longest_streak_end := Some end_date;
       sv_temp_streak := sv_temp_streak v;
       sv_temp_streak_start := sv_temp_streak_start v |}
  else v.

(** One iteration of [for i in range(1, len(activity_dates))], with
    [prev_date = activity_dates[i - 1]] and [curr_date = activity_dates[i]]. *)
Definition streak_step (prev_date curr_date : Z) (v : streak_vars)
  : streak_vars :=
  if decide (curr_date - prev_date = 1) then
    {| sv_longest_streak := sv_longest_streak v;
       sv_longest_streak_start := sv_longest_streak_start v;
       sv_longest_streak_end := sv_longest_streak_end v;
       sv_temp_streak := sv_temp_streak v + 1;
       sv_temp_streak_start := sv_temp_streak_start v |}
  else
    let v' := close_streak prev_date v in
    {| sv_longest_streak := sv_longest_streak v';
       sv_longest_streak_start := sv_longest_streak_start v';
       sv_longest_streak_end := sv_longest_streak_end v';
       sv_temp_streak := 1;
       sv_temp_streak_start := curr_date |}.

Fixpoint streak_loop (prev_date : Z) (rest : list Z) (v : streak_vars)
  : streak_vars :=
  match rest with
  | [] => v
  | curr_date :: rest' =>
      streak_loop curr_date rest' (streak_step prev_date curr_date v)
  end.

(** [for i in range(len(activity_dates) - 2, -1, -1)]: [next_date] is
    [activity_dates[i + 1]] and [earlier] lists [activity_dates[i]],
    [activity_dates[i - 1]], ... down to index 0. *)
Fixpoint count_backwards (next_date : Z) (earlier : list Z)
    (current_streak current_streak_start : Z) : Z * Z :=
  match earlier with
  | [] => (current_streak, current_streak_start)
  | date_i :: earlier' =>
      if decide (next_date - date_i = 1)
      then count_backwards date_i earlier' (current_streak + 1) date_i
      else (current_streak, current_streak_start)
  end.

(** The body of [calculate_streak] after the query, on the list
    [activity_dates] and [today = date.today()]. *)
Definition streak_of_dates (activity_dates : list Z) (today : Z) : StreakInfo :=
  match activity_dates with
  | [] =>
      {| current_streak := 0; longest_streak := 0;
         current_streak_start := None;
         longest_streak_start := None; longest_streak_end := None |}
  | first :: rest =>
      let last_activity := List.last activity_dates first in
      let v :=
        close_streak last_activity
          (streak_loop first rest
             {| sv_longest_streak := 0;
                sv_longest_streak_start := None;
                sv_longest_streak_end := None;
                sv_temp_streak := 1;
                sv_temp_streak_start := first |}) in
      let days_since_last := today - last_activity in
      let current :=
        if decide (days_since_last ≤ 1) then
          let c := count_backwards last_activity
                     (tail (reverse activity_dates)) 1 last_activity in
          (c.1, Some c.2)
        else (0, None) in
      {| current_streak := current.1;
         longest_streak := sv_longest_streak v;
         current_streak_start := current.2;
         longest_streak_start := sv_longest_streak_start v;
         longest_streak_end := sv_longest_streak_end v |}
  end.

(** [calculate_streak]: the days of the person's summaries with a positive
    score, in ascending order of [date]. *)
Definition calculate_streak (s : Session) (pid today : Z) : StreakInfo :=
  let rows :=
    merge_sort by_date
      (filter (λ r, sum_person_id r = pid ∧ sum_total_activity_score r > 0)
         (activity_summaries s)) in
  streak_of_dates ((λ r, datetime_date (sum_date r)) <$> rows) today.

(** *** Leaderboard *)

(** A row of the grouped query of [get_leaderboard]. *)
Record leaderboard_row : Type := mkLeaderboardRow {
  lr_id : Z;
  lr_username : string;
  lr_total_conversations : Z;
  lr_total_tasks : Z;
  lr_total_score : Z
}.

(** An entry of the returned list. *)
Record leaderboard_entry : Type := mkLeaderboardEntry {
  le_rank : Z;
  le_person_id : Z;
  le_username : string;
  le_conversations_created : Z;
  le_tasks_completed : Z;
  le_total_activity_score : Z
}.

(** The summaries of the range joined with one person.  A [date] bound
    compared with the timestamp column stands for 00:00 of that day. *)
Definition summaries_in_range (s : Session) (start_date end_date : Z)
    (p : Person) : list ActivitySummary :=
  filter (λ r, sum_person_id r = person_id p ∧
               combine_min start_date ≤ sum_date r ∧
               sum_date r ≤ combine_min end_date)
    (activity_summaries s).

(** The [join], [where] and [group_by(Person.id, Person.username)]: a person
    with a summary in the range gives one row with the three sums; a person
    without one gives no row. *)
Definition leaderboard_group (s : Session) (start_date end_date : Z)
    (p : Person) : option leaderboard_row :=
  match summaries_in_range s start_date end_date p with
  | [] => None
  | rows =>
      Some {| lr_id := person_id p;
              lr_username := person_username p;
              lr_total_conversations :=
                foldr Z.add 0 (sum_conversations_created <$> rows);
              lr_total_tasks := foldr Z.add 0 (sum_tasks_completed <$> rows);
              lr_total_score :=
                foldr Z.add 0 (sum_total_activity_score <$> rows) |}
  end.

(** [order_by(desc("total_score"))] *)
Definition by_total_score_desc (a b : leaderboard_row) : Prop :=
  lr_total_score b ≤ lr_total_score a.

#[global] Instance by_total_score_desc_dec a b :
  Decision (by_total_score_desc a b).
Proof. unfold by_total_score_desc. apply _. Defined.

(** [for rank, row in enumerate(rows, start=1)] *)
Fixpoint ranked (rank : Z) (rows : list leaderboard_row)
  : list leaderboard_entry :=
  match rows with
  | [] => []
  | row :: rows' =>
      {| le_rank := rank;
         le_person_id := lr_id row;
         le_username := lr_username row;
         le_conversations_created := lr_total_conversations row;
         le_tasks_completed := lr_total_tasks row;
         le_total_activity_score := lr_total_score row |}
      :: ranked (rank + 1) rows'
  end.

Definition get_leaderboard (s : Session) (start_date end_date limit : Z)
  : list leaderboard_entry :=
  let rows :=
    take (Z.to_nat limit)
      (merge_sort by_total_score_desc
         (omap (leaderboard_group s start_date end_date) (persons s))) in
  ranked 1 rows.

End ActivityRepository.

(** ** PersonRepository *)

Module PersonRepository.

(** [order_by(Person.username)] *)
Definition by_username (a b : Person) : Prop :=
  String.leb (person_username a) (person_username b) = true.

#[global] Instance by_username_dec a b : Decision (by_username a b).
Proof. unfold by_username. apply _. Defined.

(** [get_all(skip, limit)] without a search term: the page
    [offset(skip).limit(limit)] of the persons ordered by [username], and the
    total count. *)
Definition get_all (s : Session) (skip limit : Z) : list Person * Z :=
  (take (Z.to_nat limit) (drop (Z.to_nat skip)
     (merge_sort by_username (persons s))),
   Z.of_nat (length (persons s))).

Definition get_by_notion_id (s : Session) (notion_id : string)
  : result (option Person) :=
  scalar_one_or_none
    (filter (λ p, person_notion_id p = notion_id) (persons s)).

Definition create (s : Session) (notion_id username : string)
    (avatar_url : option string) : Person * Session :=
  let person :=
    {| person_id := Z.of_nat (length (persons s)) + 1;
       person_notion_id := notion_id;
       person_username := username;
       person_avatar_url := avatar_url;
       person_email := None |} in
  (person, set_persons (persons s ++ [person]) s).

(** [get_or_create_by_notion_id]: returns the person and the [created]
    flag. *)
Definition get_or_create_by_notion_id (s : Session) (notion_id username : string)
    (avatar_url : option string) : result (Person * bool * Session) :=
  found ← get_by_notion_id s notion_id;
  match found with
  | Some person =>
      if bool_decide (person_username person ≠ username)
         || bool_decide (person_avatar_url person ≠ avatar_url)
      then
        let person' :=
          {| person_id := person_id person;
             person_notion_id := person_notion_id person;
             person_username := username;
             person_avatar_url := avatar_url;
             person_email := person_email person |} in
        Ok (person', false,
            set_persons
              (replace_if (λ p, person_notion_id p = notion_id) person'
                 <$> persons s) s)
      else Ok (person, false, s)
  | None =>
      let '(person, s') := create s notion_id username avatar_url in
      Ok (person, true, s')
  end.

End PersonRepository.

(** ** ActivitySyncService: preparing the task dicts *)

Module ActivitySyncService.

(** One entry of [_extract_people]. *)
Record person_data : Type := mkPersonData {
  pd_id : string;
  pd_name : string;
  pd_avatar_url : option string
}.

(** A page of the Kanban database with status "Done", after its properties
    were read. *)
Record done_page : Type := mkDonePage {
  page_id : string;
  page_title : option string;
  page_project_name : option string;
  page_completed_at : Z;
  page_last_edited_time : Z;
  page_notion_metadata : option json;
  page_assigned_people : list person_data
}.

(** [for person_data in assigned_people:] of [sync_tasks]: one dict per
    assignee, all with [notion_task_id = page_id]. *)
Fixpoint prepare_task_activities (page : done_page)
    (assigned_people : list person_data) (s : Session)
    (task_activities : list ActivityRepository.task_dict)
  : result (list ActivityRepository.task_dict * Session) :=
  match assigned_people with
  | [] => Ok (task_activities, s)
  | pd :: rest =>
      r ← PersonRepository.get_or_create_by_notion_id s
             (pd_id pd) (pd_name pd) (pd_avatar_url pd);
      let '(person, _, s') := r in
      prepare_task_activities page rest s'
        (task_activities ++
           [ {| ActivityRepository.td_person_id := person_id person;
                ActivityRepository.td_notion_task_id := page_id page;
                ActivityRepository.td_task_title := page_title page;
                ActivityRepository.td_project_name := page_project_name page;
                ActivityRepository.td_completed_at := page_completed_at page;
                ActivityRepository.td_last_status_change :=
                  Some (page_last_edited_time page);
                ActivityRepository.td_notion_metadata :=
                  page_notion_metadata page |} ])
  end.

End ActivitySyncService.

(** ** ActivityStatsService *)

Module ActivityStatsService.

Record HeatmapData : Type := mkHeatmapData {
  hd_date : Z;
  hd_count : Z;
  hd_level : Z
}.

Record HeatmapResponse : Type := mkHeatmapResponse {
  hm_person_id : Z;
  hm_start_date : Z;
  hm_end_date : Z;
  hm_total_days : Z;
  hm_active_days : Z;
  hm_max_activity : Z;
  hm_data : list HeatmapData
}.

(** The dict comprehension [{s.date.date(): s.total_activity_score for s in
    summaries}]: a later row overwrites an earlier one of the same day. *)
Definition activity_map_of (summaries : list ActivitySummary) : gmap Z Z :=
  foldl (λ m s, <[datetime_date (sum_date s) := sum_total_activity_score s]> m)
    ∅ summaries.

(** [max(activity_map.values()) if activity_map else 1] *)
Definition max_activity_of (activity_map : gmap Z Z) : Z :=
  match (map_to_list activity_map).*2 with
  | [] => 1
  | v :: vs => foldl Z.max v vs
  end.

(** The level of one day.  The source compares the integer count with the
    products [max_activity * 0.75], [* 0.5] and [* 0.25]; these products are
    exact and Python compares an [int] with a [float] exactly, so
    [count >= max * 0.75] is [3 * max ≤ 4 * count], and likewise for the
    other two. *)
Definition heatmap_level (activity_count max_activity : Z) : Z :=
  if decide (activity_count = 0) then 0
  else if decide (3 * max_activity ≤ 4 * activity_count) then 4
  else if decide (max_activity ≤ 2 * activity_count) then 3
  else if decide (max_activity ≤ 4 * activity_count) then 2
  else 1.

(** [while current_date <= end_date:] of [get_heatmap], with the counter
    [active_days] and the list [heatmap_data]. *)
Equations? heatmap_loop (activity_map : gmap Z Z) (max_activity : Z)
    (current_date end_date : Z) (active_days : Z)
    (heatmap_data : list HeatmapData)
  : Z * list HeatmapData
  by wf (Z.to_nat (end_date + 1 - current_date)) lt :=
  heatmap_loop activity_map max_activity current_date end_date
      active_days heatmap_data
    with decide (current_date ≤ end_date) => {
    | left _ :=
        let activity_count := default 0 (activity_map !! current_date) in
        let active_days' :=
          if decide (activity_count > 0) then active_days + 1
          else active_days in
        let level := heatmap_level activity_count max_activity in
        heatmap_loop activity_map max_activity (current_date + 1) end_date
          active_days'
          (heatmap_data ++ [mkHeatmapData current_date activity_count level]);
    | right _ := (active_days, heatmap_data) }.
Proof. lia. Qed.

(** [get_heatmap], with [today = date.today()]. *)
Definition get_heatmap (s : Session) (pid days today : Z) : HeatmapResponse :=
  let end_date := today in
  let start_date := end_date - (days - 1) in
  let summaries :=
    ActivityRepository.get_summaries_for_person s pid start_date end_date in
  let activity_map := activity_map_of summaries in
  let max_activity := max_activity_of activity_map in
  let r := heatmap_loop activity_map max_activity start_date end_date 0 [] in
  {| hm_person_id := pid;
     hm_start_date := start_date;
     hm_end_date := end_date;
     hm_total_days := days;
     hm_active_days := r.1;
     hm_max_activity := max_activity;
     hm_data := r.2 |}.

(** *** Bulk aggregation *)

(** An entry of [logger.error("aggregation_failed", ...)]. *)
Definition aggregation_failed : Type := Z * Z * exn.

Section bulk_loops.

(** The loops of [bulk_aggregate_daily_activities] over any state [St] and
    any single-day aggregate: the call yields the state it leaves and either
    a summary or the exception it raised. *)
Context {St : Type}.
Variable aggregate : St → Z → Z → St * result ActivitySummary.

(** [for person in persons:] with its [try ... except Exception]. *)
Fixpoint for_persons (persons : list Person) (current_date : Z)
    (st : St) (count : Z) (log : list aggregation_failed)
  : St * Z * list aggregation_failed :=
  match persons with
  | [] => (st, count, log)
  | person :: rest =>
      match aggregate st (person_id person) current_date with
      | (st', Ok _) => for_persons rest current_date st' (count + 1) log
      | (st', Raise e) =>
          for_persons rest current_date st' count
            (log ++ [(person_id person, current_date, e)])
      end
  end.

(** [while current_date <= end_date:] *)
Equations? while_days (persons : list Person) (current_date end_date : Z)
    (st : St) (count : Z) (log : list aggregation_failed)
  : St * Z * list aggregation_failed
  by wf (Z.to_nat (end_date + 1 - current_date)) lt :=
  while_days persons current_date end_date st count log
    with decide (current_date ≤ end_date) => {
    | left _ :=
        let r := for_persons persons current_date st count log in
        while_days persons (current_date + 1) end_date r.1.1 r.1.2 r.2;
    | right _ := (st, count, log) }.
Proof. lia. Qed.

(** The same single-day aggregate, recording each invocation with its
    arguments and whether it returned. *)
Definition traced (st : St * list (Z * Z * bool)) (pid d : Z)
  : (St * list (Z * Z * bool)) * result ActivitySummary :=
  let r := aggregate st.1 pid d in
  ((r.1, st.2 ++ [(pid, d, is_ok r.2)]), r.2).

End bulk_loops.

(** [activity_repo.aggregate_daily_activities] as called in the [try]: an
    exception leaves the session as it was. *)
Definition try_aggregate (s : Session) (pid d : Z)
  : Session * result ActivitySummary :=
  match ActivityRepository.aggregate_daily_activities s pid d with
  | Ok (summary, s') => (s', Ok summary)
  | Raise e => (s, Raise e)
  end.

(** [bulk_aggregate_daily_activities]: the returned count, with the error
    log and the session it leaves. *)
Definition bulk_aggregate_daily_activities (s : Session)
    (start_date end_date : Z) : Session * Z * list aggregation_failed :=
  let persons := (PersonRepository.get_all s 0 10000).1 in
  while_days try_aggregate persons start_date end_date s 0 [].

(** The invocations of the single-day aggregate made by
    [bulk_aggregate_daily_activities], in order. *)
Definition bulk_aggregate_calls (s : Session) (start_date end_date : Z)
  : list (Z * Z * bool) :=
  let persons := (PersonRepository.get_all s 0 10000).1 in
  (while_days (traced try_aggregate) persons start_date end_date
     (s, []) 0 []).1.1.2.

(** *** Statistics of a period (src/models/activity.py) *)

Inductive PeriodType : Type :=
| DAILY
| WEEKLY
| MONTHLY
| YEARLY
| ALL_TIME.

Record DailyActivityStats : Type := mkDailyActivityStats {
  das_date : Z;
  das_conversations_created : Z;
  das_tasks_completed : Z;
  das_total_activity_score : Z
}.

Record ActivityStatsResponse : Type := mkActivityStatsResponse {
  asr_person_id : Z;
  asr_period : PeriodType;
  asr_start_date : Z;
  asr_end_date : Z;
  asr_total_conversations : Z;
  asr_total_tasks_completed : Z;
  asr_total_activity_score : Z;
  asr_daily_breakdown : list DailyActivityStats
}.

(** [sum(... for s in summaries)]: the additions start from 0 and go from
    left to right. *)
Definition sum (xs : list Z) : Z := foldl Z.add 0 xs.

(** [get_person_stats].  [period_range] is what
    [self._calculate_period_range(period)] returns; a [date] is always
    truthy, so [not start_date or not end_date] holds when one of the two is
    [None]. *)
Definition get_person_stats (s : Session) (person_id : Z) (period : PeriodType)
    (period_range : Z * Z) (start_date end_date : option Z)
  : ActivityStatsResponse :=
  let range :=
    match start_date, end_date with
    | Some start_date, Some end_date => (start_date, end_date)
    | _, _ => period_range
    end in
  let start_date := range.1 in
  let end_date := range.2 in
  let summaries :=
    ActivityRepository.get_summaries_for_person s person_id
      start_date end_date in
  let total_conversations := sum (sum_conversations_created <$> summaries) in
  let total_tasks := sum (sum_tasks_completed <$> summaries) in
  let total_score := sum (sum_total_activity_score <$> summaries) in
  let daily_breakdown :=
    (λ s, {| das_date := datetime_date (sum_date s);
             das_conversations_created := sum_conversations_created s;
             das_tasks_completed := sum_tasks_completed s;
             das_total_activity_score := sum_total_activity_score s |})
      <$> summaries in
  {| asr_person_id := person_id;
     asr_period := period;
     asr_start_date := start_date;
     asr_end_date := end_date;
     asr_total_conversations := total_conversations;
     asr_total_tasks_completed := total_tasks;
     asr_total_activity_score := total_score;
     asr_daily_breakdown := daily_breakdown |}.

End ActivityStatsService.


(** ** Specification vocabulary for the daily summary *)

(** A timestamp lies in the half-open UTC day [[d 00:00, d 24:00)]. *)
Definition in_day (d t : Z) : Prop :=
  d * MICROSECONDS_PER_DAY ≤ t ∧ t < (d + 1) * MICROSECONDS_PER_DAY.

#[global] Instance in_day_dec d t : Decision (in_day d t).
Proof. unfold in_day. apply _. Defined.

Definition conversation_events_on (s : Session) (pid d : Z) : Z :=
  Z.of_nat (length (filter
    (λ c, conv_person_id c = pid ∧ in_day d (conv_created_at c))
    (conversation_activities s))).

Definition task_completion_events_on (s : Session) (pid d : Z) : Z :=
  Z.of_nat (length (filter
    (λ t, task_person_id t = pid ∧ in_day d (task_completed_at t))
    (task_activities s))).

(** The rows of the summary table keyed (person, day). *)
Definition summary_key (pid d : Z) (r : ActivitySummary) : Prop :=
  sum_person_id r = pid ∧ datetime_date (sum_date r) = d.

#[global] Instance summary_key_dec pid d r : Decision (summary_key pid d r).
Proof. unfold summary_key. apply _. Defined.

Definition summaries_for (pid d : Z) (rows : list ActivitySummary)
  : list ActivitySummary :=
  filter (summary_key pid d) rows.

(** At most one row per (person, day). *)
Definition one_row_per_day (rows : list ActivitySummary) : Prop :=
  ∀ pid d, (length (summaries_for pid d rows) ≤ 1)%nat.

(** The summary the ledger of [s] determines for (person, day). *)
Definition expected_summary (s : Session) (pid d : Z) : ActivitySummary :=
  {| sum_person_id := pid;
     sum_date := combine_min d;
     sum_conversations_created := conversation_events_on s pid d;
     sum_tasks_completed := task_completion_events_on s pid d;
     sum_total_activity_score :=
       conversation_events_on s pid d + 2 * task_completion_events_on s pid d |}.

(** [n] calls of [aggregate_daily_activities] for the same (person, day), one
    after the other on the same session. *)
Fixpoint aggregate_runs (n : nat) (s : Session) (pid d : Z) : result Session :=
  match n with
  | O => Ok s
  | S n' =>
      r ← ActivityRepository.aggregate_daily_activities s pid d;
      aggregate_runs n' r.2 pid d
  end.

(** Spec test 2: three conversations and two completed tasks on one day. *)
Definition example_day : Z := 19723.

Definition example_session : Session :=
  {| persons := [mkPerson 1 "n-1" "aida" None None];
     conversation_activities :=
       [ mkConversationActivity 1 1 "c-1" (Some "standup") (combine_min example_day);
         mkConversationActivity 2 1 "c-2" (Some "review") (combine_min example_day + 3600000000);
         mkConversationActivity 3 1 "c-3" None (combine_max example_day);
         mkConversationActivity 4 1 "c-4" None (combine_min (example_day + 1));
         mkConversationActivity 5 2 "c-1" (Some "standup") (combine_min example_day) ];
     task_activities :=
       [ mkTaskActivity 1 1 "t-1" (Some "fix login") (Some "web") (combine_min example_day + 5) None 0 None;
         mkTaskActivity 2 1 "t-2" (Some "write docs") None (combine_max example_day) None 0 None;
         mkTaskActivity 3 1 "t-3" (Some "deploy") None (combine_min example_day - 1) None 0 None ];
     activity_summaries := [] |}.

(** ** Specification vocabulary for the heatmap and the bulk aggregation *)

(** The point of day [d], given the score map and [max_activity]. *)
Definition heatmap_point (activity_map : gmap Z Z) (max_activity d : Z)
  : ActivityStatsService.HeatmapData :=
  let c := default 0 (activity_map !! d) in
  ActivityStatsService.mkHeatmapData d c
    (ActivityStatsService.heatmap_level c max_activity).

(** Every (person, day) with the day in [days] and the person in [people],
    day by day. *)
Definition combinations (people : list Person) (days : list Z)
  : list (Z * Z) :=
  days ≫= λ d, (λ p, (person_id p, d)) <$> people.

Definition succeeded (call : Z * Z * bool) : Prop := call.2 = true.

#[global] Instance succeeded_dec call : Decision (succeeded call).
Proof. unfold succeeded. apply _. Defined.

(** Spec test 4: a window whose daily scores are 0, 1, 5 and 10. *)
Definition heatmap_session : Session :=
  {| persons := [mkPerson 1 "n-1" "aida" None None];
     conversation_activities := [];
     task_activities := [];
     activity_summaries :=
       [ mkActivitySummary 1 (combine_min 100) 0 0 0;
         mkActivitySummary 1 (combine_min 101) 1 0 1;
         mkActivitySummary 1 (combine_min 102) 1 2 5;
         mkActivitySummary 1 (combine_min 103) 2 4 10 ] |}.


(** The (person, day) arguments of the invocations that raised. *)
Definition failed_calls (calls : list (Z * Z * bool)) : list (Z * Z) :=
  (filter (λ c, ¬ succeeded c) calls).*1.

(** A person table with 10001 rows: ids 1 to 10001, usernames in the order of
    the ids. *)
Definition crowd_username (i : Z) : string :=
  String (Ascii.ascii_of_N (Z.to_N (i `div` 128)))
    (String (Ascii.ascii_of_N (Z.to_N (i `mod` 128))) EmptyString).

Definition crowd_person (i : Z) : Person :=
  mkPerson (i + 1) (crowd_username i) (crowd_username i) None None.

Definition crowded_session : Session :=
  {| persons := crowd_person <$> seqZ 0 10001;
     conversation_activities := [];
     task_activities := [];
     activity_summaries := [] |}.

(** A table in which person 1 has two rows on day 100 (the primary key
    (person_id, date) is on the timestamp, not on the day). *)
Definition duplicated_session : Session :=
  {| persons := [mkPerson 1 "n-1" "aida" None None;
                 mkPerson 2 "n-2" "bolat" None None];
     conversation_activities := [];
     task_activities := [];
     activity_summaries :=
       [ mkActivitySummary 1 (combine_min 100) 0 0 0;
         mkActivitySummary 1 (combine_min 100 + 1) 0 0 0 ] |}.

(** ** Specification vocabulary for the task ledger *)

(** At most one row per external Notion task id. *)
Definition one_row_per_task (rows : list TaskActivity) : Prop :=
  NoDup (task_notion_task_id <$> rows).

(** The person owning the ledger row of a Notion task, if there is a row. *)
Definition owner (rows : list TaskActivity) (notion_task_id : string)
  : option Z :=
  task_person_id
    <$> head (filter (λ t, task_notion_task_id t = notion_task_id) rows).


(** A sequence of task syncs: each batch of prepared dicts goes through
    [bulk_create_tasks], at its own time. *)
Fixpoint task_syncs (batches : list (Z * list ActivityRepository.task_dict))
    (s : Session) : result Session :=
  match batches with
  | [] => Ok s
  | (now, tasks) :: batches' =>
      r ← ActivityRepository.bulk_create_tasks s now tasks;
      task_syncs batches' r.2
  end.

(** A "Done" page that Notion reports with two assignees. *)
Definition shared_page : ActivitySyncService.done_page :=
  {| ActivitySyncService.page_id := "task-7";
     ActivitySyncService.page_title := Some "Ship release";
     ActivitySyncService.page_project_name := Some "Website";
     ActivitySyncService.page_completed_at := combine_min example_day + 7;
     ActivitySyncService.page_last_edited_time := combine_min example_day + 9;
     ActivitySyncService.page_notion_metadata := Some [("status", "Done")];
     ActivitySyncService.page_assigned_people :=
       [ ActivitySyncService.mkPersonData "n-1" "aida" None;
         ActivitySyncService.mkPersonData "n-2" "bolat" None ] |}.

Definition empty_session : Session :=
  {| persons := []; conversation_activities := [];
     task_activities := []; activity_summaries := [] |}.

(** The dicts [sync_tasks] prepares for [shared_page] on an empty database. *)
Definition shared_page_dicts : list ActivityRepository.task_dict :=
  match ActivitySyncService.prepare_task_activities shared_page
          (ActivitySyncService.page_assigned_people shared_page)
          empty_session [] with
  | Ok r => r.1
  | Raise _ => []
  end.

(** ** Specification vocabulary for streaks *)

(** A run of consecutive days: each day is the day after the one before. *)
Fixpoint consecutive (l : list Z) : Prop :=
  match l with
  | x :: ((y :: _) as l') => y - x = 1 ∧ consecutive l'
  | _ => True
  end.

(** Between the end of [l1] and the start of [l2] the gap is not one day. *)
Definition gap_between (l1 l2 : list Z) : Prop :=
  ∀ z y, last l1 = Some z → head l2 = Some y → y - z ≠ 1.

(** Spec test 5: active on Jan 1, 2, 3, 5, 6, 7, 8. *)
Definition january_days : list Z := [1; 2; 3; 5; 6; 7; 8].

(** One summary with a positive score, dated five days after day 15. *)
Definition future_session : Session :=
  {| persons := [mkPerson 1 "n-1" "aida" None None];
     conversation_activities := [];
     task_activities := [];
     activity_summaries := [mkActivitySummary 1 (combine_min 20) 0 1 2] |}.

(** The longest streak recorded in [v] is a longest run of [days]: no run
    inside [days] is longer, and unless it is still 0 it is the length of a
    run inside [days] that starts and ends at the recorded dates. *)
Definition best_run (days : list Z) (v : ActivityRepository.streak_vars)
  : Prop :=
  (∀ pre run post, days = pre ++ run ++ post → consecutive run →
     Z.of_nat (length run) ≤ ActivityRepository.sv_longest_streak v) ∧
  ((ActivityRepository.sv_longest_streak v = 0 ∧
    ActivityRepository.sv_longest_streak_start v = None ∧
    ActivityRepository.sv_longest_streak_end v = None) ∨
   (∃ pre run post, days = pre ++ run ++ post ∧ consecutive run ∧
      Z.of_nat (length run) = ActivityRepository.sv_longest_streak v ∧
      head run = ActivityRepository.sv_longest_streak_start v ∧
      last run = ActivityRepository.sv_longest_streak_end v)).

(** The invariant of the forward loop: the days seen so far are [closed]
    followed by the running streak [cur], which ends at [prev_date]. *)
Definition running (closed cur : list Z) (prev_date : Z)
    (v : ActivityRepository.streak_vars) : Prop :=
  consecutive cur ∧
  last cur = Some prev_date ∧
  head cur = Some (ActivityRepository.sv_temp_streak_start v) ∧
  Z.of_nat (length cur) = ActivityRepository.sv_temp_streak v ∧
  gap_between closed cur ∧
  best_run closed v.

(** ** Cache store (src/schemas/notion_cache.py) *)

Record CacheMetadata : Type := mkCacheMetadata {
  meta_last_updated : Z;
  meta_is_updating : bool;
  meta_total_records : Z;
  meta_update_duration_seconds : option Z;
  meta_error_message : option string
}.

Record CachedNotionProject : Type := mkCachedNotionProject {
  cp_page_id : string;
  cp_project_name : string;
  cp_health_status : option string;
  cp_health_color : option string;
  cp_status : option string;
  cp_priority : option string;
  cp_priority_color : option string;
  cp_assignees : list string;
  cp_task_count : Z;
  cp_url : string;
  cp_notion_created_time : Z;
  cp_notion_last_edited_time : Z
}.

Record CachedNotionTask : Type := mkCachedNotionTask {
  ct_page_id : string;
  ct_task_name : string;
  ct_status : option string;
  ct_priority : option string;
  ct_effort_level : option string;
  ct_description : option string;
  ct_due_date : option Z;
  ct_task_type : list string;
  ct_assignee : list string;
  ct_notion_created_time : Z;
  ct_notion_last_edited_time : Z
}.

Record CachedTeamMember : Type := mkCachedTeamMember {
  tm_member_name : string;
  tm_position : option string;
  tm_status : option string;
  tm_tg_id : option string;
  tm_start_date : option string
}.

Record CachedNotionTodo : Type := mkCachedNotionTodo {
  todo_todo_id : string;
  todo_member_name : string;
  todo_task_name : string;
  todo_status : option string;
  todo_deadline : option Z;
  todo_date_done : option Z;
  todo_is_overdue : bool;
  todo_project_ids : list string;
  todo_url : string
}.

(** The committed rows of the cache tables.  [cache_type] is unique in
    [cache_metadata], so that table is a map from the cache type. *)
Record CacheDB : Type := mkCacheDB {
  cache_metadata : gmap string CacheMetadata;
  cached_notion_projects : list CachedNotionProject;
  cached_notion_tasks : list CachedNotionTask;
  cached_team_members : list CachedTeamMember;
  cached_notion_todos : list CachedNotionTodo
}.

Definition set_cache_metadata (m : gmap string CacheMetadata) (db : CacheDB)
  : CacheDB :=
  {| cache_metadata := m;
     cached_notion_projects := cached_notion_projects db;
     cached_notion_tasks := cached_notion_tasks db;
     cached_team_members := cached_team_members db;
     cached_notion_todos := cached_notion_todos db |}.

Definition set_cached_projects (rows : list CachedNotionProject) (db : CacheDB)
  : CacheDB :=
  {| cache_metadata := cache_metadata db;
     cached_notion_projects := rows;
     cached_notion_tasks := cached_notion_tasks db;
     cached_team_members := cached_team_members db;
     cached_notion_todos := cached_notion_todos db |}.

Definition set_cached_tasks (rows : list CachedNotionTask) (db : CacheDB)
  : CacheDB :=
  {| cache_metadata := cache_metadata db;
     cached_notion_projects := cached_notion_projects db;
     cached_notion_tasks := rows;
     cached_team_members := cached_team_members db;
     cached_notion_todos := cached_notion_todos db |}.

Definition set_cached_team_members (rows : list CachedTeamMember)
    (db : CacheDB) : CacheDB :=
  {| cache_metadata := cache_metadata db;
     cached_notion_projects := cached_notion_projects db;
     cached_notion_tasks := cached_notion_tasks db;
     cached_team_members := rows;
     cached_notion_todos := cached_notion_todos db |}.

Definition set_cached_todos (rows : list CachedNotionTodo) (db : CacheDB)
  : CacheDB :=
  {| cache_metadata := cache_metadata db;
     cached_notion_projects := cached_notion_projects db;
     cached_notion_tasks := cached_notion_tasks db;
     cached_team_members := cached_team_members db;
     cached_notion_todos := rows |}.

(** ** CacheRepository (src/repositories/cache_repository.py)

    Every method commits, so each one is a step from committed rows to
    committed rows.  [now] is [datetime.utcnow()]. *)

Module CacheRepository.

Definition get_cache_metadata (db : CacheDB) (cache_type : string)
  : option CacheMetadata :=
  cache_metadata db !! cache_type.

Definition update_cache_metadata (now : Z) (db : CacheDB) (cache_type : string)
    (total_records update_duration_seconds : Z)
    (error_message : option string) : CacheDB :=
  let metadata :=
    match get_cache_metadata db cache_type with
    | Some _ =>
        (* the existing row, with these five columns overwritten *)
        {| meta_last_updated := now;
           meta_is_updating := false;
           meta_total_records := total_records;
           meta_update_duration_seconds := Some update_duration_seconds;
           meta_error_message := error_message |}
    | None =>
        {| meta_last_updated := now;
           meta_is_updating := false;
           meta_total_records := total_records;
           meta_update_duration_seconds := Some update_duration_seconds;
           meta_error_message := error_message |}
    end in
  set_cache_metadata (<[cache_type := metadata]> (cache_metadata db)) db.

Definition set_cache_updating (now : Z) (db : CacheDB) (cache_type : string)
    (is_updating : bool) : CacheDB :=
  let metadata :=
    match get_cache_metadata db cache_type with
    | Some metadata =>
        {| meta_last_updated := meta_last_updated metadata;
           meta_is_updating := is_updating;
           meta_total_records := meta_total_records metadata;
           meta_update_duration_seconds :=
             meta_update_duration_seconds metadata;
           meta_error_message := meta_error_message metadata |}
    | None =>
        {| meta_last_updated := now;
           meta_is_updating := is_updating;
           meta_total_records := 0;
           meta_update_duration_seconds := None;
           meta_error_message := None |}
    end in
  set_cache_metadata (<[cache_type := metadata]> (cache_metadata db)) db.

Definition clear_projects_cache (db : CacheDB) : CacheDB :=
  set_cached_projects [] db.

Definition bulk_insert_projects (projects : list CachedNotionProject)
    (db : CacheDB) : CacheDB :=
  set_cached_projects (cached_notion_projects db ++ projects) db.

Definition clear_tasks_cache (db : CacheDB) : CacheDB :=
  set_cached_tasks [] db.

Definition bulk_insert_tasks (tasks : list CachedNotionTask) (db : CacheDB)
  : CacheDB :=
  set_cached_tasks (cached_notion_tasks db ++ tasks) db.

(** [get_or_create_team_member]: the member of that name is created, or its
    fields are overwritten by the keyword arguments. *)
Definition get_or_create_team_member (db : CacheDB) (member : CachedTeamMember)
  : CacheDB :=
  match filter (λ m, tm_member_name m = tm_member_name member)
          (cached_team_members db) with
  | [] => set_cached_team_members (cached_team_members db ++ [member]) db
  | _ :: _ =>
      set_cached_team_members
        (replace_if (λ m, tm_member_name m = tm_member_name member) member
           <$> cached_team_members db) db
  end.

Definition clear_todos_cache (db : CacheDB) : CacheDB :=
  set_cached_todos [] db.

Definition bulk_insert_todos (todos : list CachedNotionTodo) (db : CacheDB)
  : CacheDB :=
  set_cached_todos (cached_notion_todos db ++ todos) db.


End CacheRepository.

(** ** The Celery refresh tasks (src/tasks/notion_cache_tasks.py) *)

(** The objects returned by [NotionService] (src/models/notion.py).
    [created_time] and [last_edited_time] are declared [datetime], so the
    tasks' [isinstance(..., str)] branches are not taken. *)
Record NotionProject : Type := mkNotionProject {
  np_page_id : string;
  np_created_time : Z;
  np_last_edited_time : Z;
  np_url : string;
  np_project_name : string;
  np_health_status : option string;
  np_health_color : option string;
  np_status : option string;
  np_priority : option string;
  np_priority_color : option string;
  np_assignees : list string;
  np_task_count : Z
}.

Record NotionTask : Type := mkNotionTask {
  nt_page_id : string;
  nt_created_time : Z;
  nt_last_edited_time : Z;
  nt_task_name : string;
  nt_status : option string;
  nt_priority : option string;
  nt_effort_level : option string;
  nt_description : option string;
  nt_due_date : option string;
  nt_task_type : list string;
  nt_assignee : list string
}.

Record NotionTodo : Type := mkNotionTodo {
  ntd_id : string;
  ntd_url : string;
  ntd_name : string;
  ntd_status : option string;
  ntd_deadline : option string;
  ntd_date_done : option string;
  ntd_is_overdue : bool;
  ntd_project_ids : list string
}.

Record MemberWithTodos : Type := mkMemberWithTodos {
  mwt_member : CachedTeamMember;
  mwt_todos : list NotionTodo
}.

(** What a task run returns or raises. *)
Inductive task_result : Type :=
| Success (total_records duration_seconds : Z)
| Synced (conversations_synced tasks_synced summaries_created
          duration_seconds : Z)
| Skipped
| Retry (exc : exn).

(** [str(exc)] *)
Definition exn_message (e : exn) : string :=
  match e with
  | MultipleResultsFound => "Multiple rows were found when one or none was required"
  | Error msg => msg
  end.

(** The readings of the clocks during one run: [datetime.utcnow()] and the
    two readings of [time.time()]. *)
Record clock : Type := mkClock {
  utcnow : Z;
  start_time : Z;
  end_time : Z
}.

Module NotionCacheTasks.

Section tasks.

(** [datetime.fromisoformat(s.replace("Z", "+00:00")).date()]; [None] when it
    raises (the tasks catch that and store no date). *)
Variable fromisoformat_date : string → option Z.

Variable clk : clock.

(** The guard at the head of the three cache tasks:
    [metadata and metadata.is_updating]. *)
Definition already_updating (db : CacheDB) (cache_type : string) : bool :=
  match CacheRepository.get_cache_metadata db cache_type with
  | Some metadata => meta_is_updating metadata
  | None => false
  end.

(** The rest of the [try] block once [is_updating] is set, and the [except]
    handler.  [body] is the fetch-and-replace part: it leaves the rows it has
    committed and either the number of cached records or the exception
    raised.  The handler's own metadata write is taken to succeed. *)
Definition finish_refresh (cache_type : string)
    (body : CacheDB → result Z * CacheDB) (db1 : CacheDB)
  : task_result * CacheDB :=
  let duration := end_time clk - start_time clk in
  match body db1 with
  | (Ok total, db2) =>
      (Success total duration,
       CacheRepository.update_cache_metadata (utcnow clk) db2 cache_type
         total duration None)
  | (Raise exc, db2) =>
      (Retry exc,
       CacheRepository.update_cache_metadata (utcnow clk) db2 cache_type
         0 duration (Some (exn_message exc)))
  end.

Definition refresh_after_guard (cache_type : string)
    (body : CacheDB → result Z * CacheDB) (db : CacheDB)
  : task_result * CacheDB :=
  finish_refresh cache_type body
    (CacheRepository.set_cache_updating (utcnow clk) db cache_type true).

(** A whole run of a guarded task ([finally: db.close()] leaves the
    committed rows as they are). *)
Definition guarded_refresh (cache_type : string)
    (body : CacheDB → result Z * CacheDB) (db : CacheDB)
  : task_result * CacheDB :=
  if already_updating db cache_type then (Skipped, db)
  else refresh_after_guard cache_type body db.

(** *** Projects *)

Definition cached_project_of (project : NotionProject) : CachedNotionProject :=
  {| cp_page_id := np_page_id project;
     cp_project_name := np_project_name project;
     cp_health_status := np_health_status project;
     cp_health_color := np_health_color project;
     cp_status := np_status project;
     cp_priority := np_priority project;
     cp_priority_color := np_priority_color project;
     cp_assignees := np_assignees project;
     cp_task_count := np_task_count project;
     cp_url := np_url project;
     cp_notion_created_time := np_created_time project;
     cp_notion_last_edited_time := np_last_edited_time project |}.

(** Fetch, clear, convert, bulk insert.  [fetched] is what
    [notion_service.get_all_projects()] returned or raised; [insert_error] is
    the exception raised by [bulk_insert_projects], if any.  The clear has
    committed before the insert starts. *)
Definition replace_projects (fetched : result (list NotionProject))
    (insert_error : option exn) (db : CacheDB) : result Z * CacheDB :=
  match fetched with
  | Raise exc => (Raise exc, db)
  | Ok projects =>
      let db1 := CacheRepository.clear_projects_cache db in
      let cached_projects := cached_project_of <$> projects in
      match insert_error with
      | Some exc => (Raise exc, db1)
      | None =>
          (Ok (Z.of_nat (length cached_projects)),
           CacheRepository.bulk_insert_projects cached_projects db1)
      end
  end.

Definition update_projects_cache (fetched : result (list NotionProject))
    (insert_error : option exn) (db : CacheDB) : task_result * CacheDB :=
  guarded_refresh "projects" (replace_projects fetched insert_error) db.

(** *** Tasks *)

Definition cached_task_of (task : NotionTask) : CachedNotionTask :=
  {| ct_page_id := nt_page_id task;
     ct_task_name := nt_task_name task;
     ct_status := nt_status task;
     ct_priority := nt_priority task;
     ct_effort_level := nt_effort_level task;
     ct_description := nt_description task;
     ct_due_date :=
       if truthy_str (nt_due_date task)
       then nt_due_date task ≫= fromisoformat_date else None;
     ct_task_type := nt_task_type task;
     ct_assignee := nt_assignee task;
     ct_notion_created_time := nt_created_time task;
     ct_notion_last_edited_time := nt_last_edited_time task |}.

Definition replace_tasks (fetched : result (list NotionTask))
    (insert_error : option exn) (db : CacheDB) : result Z * CacheDB :=
  match fetched with
  | Raise exc => (Raise exc, db)
  | Ok tasks =>
      let db1 := CacheRepository.clear_tasks_cache db in
      let cached_tasks := cached_task_of <$> tasks in
      match insert_error with
      | Some exc => (Raise exc, db1)
      | None =>
          (Ok (Z.of_nat (length cached_tasks)),
           CacheRepository.bulk_insert_tasks cached_tasks db1)
      end
  end.

Definition update_tasks_cache (fetched : result (list NotionTask))
    (insert_error : option exn) (db : CacheDB) : task_result * CacheDB :=
  guarded_refresh "tasks" (replace_tasks fetched insert_error) db.

(** *** Todos *)

(** The date fields of a todo: [None] unless the string is non-empty and
    parses. *)
Definition todo_date (field : option string) : option Z :=
  if truthy_str field then field ≫= fromisoformat_date else None.

(** [for todo in member_with_todos.todos:], where [todos_dict] is kept in
    insertion order and a todo whose id is already in it is skipped. *)
Fixpoint add_member_todos (member_name : string) (todos : list NotionTodo)
    (todos_dict : list CachedNotionTodo) : list CachedNotionTodo :=
  match todos with
  | [] => todos_dict
  | todo :: todos' =>
      if bool_decide (ntd_id todo ∈ todo_todo_id <$> todos_dict)
      then add_member_todos member_name todos' todos_dict
      else
        add_member_todos member_name todos'
          (todos_dict ++
             [ {| todo_todo_id := ntd_id todo;
                  todo_member_name := member_name;
                  todo_task_name := ntd_name todo;
                  todo_status := ntd_status todo;
                  todo_deadline := todo_date (ntd_deadline todo);
                  todo_date_done := todo_date (ntd_date_done todo);
                  todo_is_overdue := ntd_is_overdue todo;
                  todo_project_ids := ntd_project_ids todo;
                  todo_url := ntd_url todo |} ])
  end.

(** [for member_with_todos in todos_response.members:]; each member is
    committed by [get_or_create_team_member] as the loop goes. *)
Fixpoint for_members (members : list MemberWithTodos) (db : CacheDB)
    (todos_dict : list CachedNotionTodo) : CacheDB * list CachedNotionTodo :=
  match members with
  | [] => (db, todos_dict)
  | member_with_todos :: members' =>
      let member_info := mwt_member member_with_todos in
      let db' := CacheRepository.get_or_create_team_member db member_info in
      for_members members' db'
        (add_member_todos (tm_member_name member_info)
           (mwt_todos member_with_todos) todos_dict)
  end.

Definition replace_todos (fetched : result (list MemberWithTodos))
    (insert_error : option exn) (db : CacheDB) : result Z * CacheDB :=
  match fetched with
  | Raise exc => (Raise exc, db)
  | Ok members =>
      let db1 := CacheRepository.clear_todos_cache db in
      let r := for_members members db1 [] in
      let cached_todos := r.2 in
      match insert_error with
      | Some exc => (Raise exc, r.1)
      | None =>
          (Ok (Z.of_nat (length cached_todos)),
           CacheRepository.bulk_insert_todos cached_todos r.1)
      end
  end.

(** The handler of this task first calls [db.rollback()], which leaves the
    committed rows as they are. *)
Definition update_todos_cache (fetched : result (list MemberWithTodos))
    (insert_error : option exn) (db : CacheDB) : task_result * CacheDB :=
  guarded_refresh "todos" (replace_todos fetched insert_error) db.

(** *** Activities *)

(** The counters returned by [ActivitySyncService.sync_all]. *)
Record sync_stats : Type := mkSyncStats {
  conversations_synced : Z;
  tasks_synced : Z
}.

(** [update_activities_cache]: sync, then aggregate the summaries from the
    start of the year to today.  [sync_all] is the call to the Notion sync
    with what it returns or raises.  The task neither reads nor writes
    [cache_metadata]. *)
Definition update_activities_cache
    (sync_all : Session → result (sync_stats * Session))
    (start_of_year today : Z) (db : CacheDB) (s : Session)
  : task_result * CacheDB * Session :=
  match sync_all s with
  | Raise exc => (Retry exc, db, s)
  | Ok (stats, s1) =>
      let r := ActivityStatsService.bulk_aggregate_daily_activities
                 s1 start_of_year today in
      (Synced (conversations_synced stats) (tasks_synced stats) r.1.2
         (end_time clk - start_time clk),
       db, r.1.1)
  end.

(** *** Concurrent runs of one task

    A worker runs the task in three steps, each one repository call or more
    on the shared committed rows: the check of [is_updating], the
    [set_cache_updating] that sets it, and the rest of the run. *)
Inductive phase : Type :=
| Checking
| Marking
| Refreshing
| Finished (r : task_result).

Definition worker_step (cache_type : string)
    (body : CacheDB → result Z * CacheDB) (ph : phase) (db : CacheDB)
  : phase * CacheDB :=
  match ph with
  | Checking =>
      if already_updating db cache_type then (Finished Skipped, db)
      else (Marking, db)
  | Marking =>
      (Refreshing,
       CacheRepository.set_cache_updating (utcnow clk) db cache_type true)
  | Refreshing =>
      let r := finish_refresh cache_type body db in (Finished r.1, r.2)
  | Finished r => (Finished r, db)
  end.

(** The workers' phases and the shared rows; [schedule] lists which worker
    takes the next step. *)
Definition system_step (cache_type : string)
    (body : CacheDB → result Z * CacheDB) (st : CacheDB * list phase)
    (i : nat) : CacheDB * list phase :=
  match st.2 !! i with
  | Some ph =>
      let r := worker_step cache_type body ph st.1 in
      (r.2, <[i := r.1]> st.2)
  | None => st
  end.

Definition run_schedule (cache_type : string)
    (body : CacheDB → result Z * CacheDB) (st : CacheDB * list phase)
    (schedule : list nat) : CacheDB * list phase :=
  foldl (system_step cache_type body) st schedule.

End tasks.

End NotionCacheTasks.

(** The refreshes that have passed the guard and set [is_updating] and have
    not finished. *)
Definition refreshing (ph : NotionCacheTasks.phase) : Prop :=
  ph = NotionCacheTasks.Refreshing.

#[global] Instance refreshing_dec ph : Decision (refreshing ph).
Proof. unfold refreshing. destruct ph; (by left) || (right; discriminate). Defined.

Definition refreshes_in_progress (phases : list NotionCacheTasks.phase) : nat :=
  length (filter refreshing phases).

(** The three cache types whose task has the [is_updating] guard. *)
Inductive guarded_cache_type : Type :=
| Projects
| Tasks
| Todos.

Definition cache_type_name (ct : guarded_cache_type) : string :=
  match ct with
  | Projects => "projects"
  | Tasks => "tasks"
  | Todos => "todos"
  end.

(** What one run of a task receives from outside: the snapshots fetched
    from Notion (or the exception raised by the fetch) and the outcome of the
    bulk insert. *)
Record refresh_inputs : Type := mkRefreshInputs {
  fetched_projects : result (list NotionProject);
  fetched_tasks : result (list NotionTask);
  fetched_todos : result (list MemberWithTodos);
  insert_error : option exn
}.

Definition run_refresh (fromisoformat_date : string → option Z) (clk : clock)
    (ct : guarded_cache_type) (inp : refresh_inputs) (db : CacheDB)
  : task_result * CacheDB :=
  match ct with
  | Projects =>
      NotionCacheTasks.update_projects_cache clk
        (fetched_projects inp) (insert_error inp) db
  | Tasks =>
      NotionCacheTasks.update_tasks_cache fromisoformat_date clk
        (fetched_tasks inp) (insert_error inp) db
  | Todos =>
      NotionCacheTasks.update_todos_cache fromisoformat_date clk
        (fetched_todos inp) (insert_error inp) db
  end.

(** The exception a run's fetch-and-replace part raises, if any: that of the
    fetch, else that of the bulk insert. *)
Definition failure_of (ct : guarded_cache_type) (inp : refresh_inputs)
  : option exn :=
  let after_fetch {A} (fetched : result A) :=
    match fetched with
    | Raise exc => Some exc
    | Ok _ => insert_error inp
    end in
  match ct with
  | Projects => after_fetch (fetched_projects inp)
  | Tasks => after_fetch (fetched_tasks inp)
  | Todos => after_fetch (fetched_todos inp)
  end.


(** The cached rows a reader of cache type [ct] sees are the same in [db] and
    [db']. *)
Definition same_rows (ct : guarded_cache_type) (db db' : CacheDB) : Prop :=
  match ct with
  | Projects => cached_notion_projects db' = cached_notion_projects db
  | Tasks => cached_notion_tasks db' = cached_notion_tasks db
  | Todos => cached_notion_todos db' = cached_notion_todos db
  end.


(** Example rows. *)
Definition old_project : CachedNotionProject :=
  mkCachedNotionProject "page-1" "Website" (Some "green") None None None None
    ["aida"] 4 "https://notion.so/page-1" 100 200.

Definition new_project : NotionProject :=
  mkNotionProject "page-2" 300 400 "https://notion.so/page-2" "Mobile app"
    None None None None None [] 0.

Definition idle_metadata : CacheMetadata :=
  mkCacheMetadata 1000 false 1 (Some 3) None.

Definition updating_metadata : CacheMetadata :=
  mkCacheMetadata 1000 true 1 (Some 3) None.

(** A cache holding one project; no refresh is running. *)
Definition idle_db : CacheDB :=
  {| cache_metadata := {[ "projects" := idle_metadata ]};
     cached_notion_projects := [old_project];
     cached_notion_tasks := [];
     cached_team_members := [];
     cached_notion_todos := [] |}.

(** The same cache with [is_updating] set for every cache type, the
    activities included. *)
Definition busy_db : CacheDB :=
  {| cache_metadata :=
       {[ "projects" := updating_metadata; "tasks" := updating_metadata;
          "todos" := updating_metadata; "activities" := updating_metadata ]};
     cached_notion_projects := [old_project];
     cached_notion_tasks := [];
     cached_team_members := [];
     cached_notion_todos := [] |}.

Definition example_clock : clock := mkClock 2000 50 53.

Definition no_dates (s : string) : option Z := None.

(** A run whose fetch succeeds and whose bulk insert raises. *)
Definition insert_fails : refresh_inputs :=
  {| fetched_projects := Ok [new_project];
     fetched_tasks := Ok [];
     fetched_todos := Ok [];
     insert_error := Some (Error "connection lost") |}.

(** A run whose fetch raises. *)
Definition fetch_fails : refresh_inputs :=
  {| fetched_projects := Raise (Error "notion timeout");
     fetched_tasks := Raise (Error "notion timeout");
     fetched_todos := Raise (Error "notion timeout");
     insert_error := None |}.

Definition sync_nothing (s : Session)
  : result (NotionCacheTasks.sync_stats * Session) :=
  Ok (NotionCacheTasks.mkSyncStats 0 0, s).

(** ** Further example data *)

(** Summary rows of two persons; person 2 has only zero-activity rows. *)
Definition mixed_session : Session :=
  {| persons := [mkPerson 1 "n-1" "aida" None None;
                 mkPerson 2 "n-2" "bolat" None None];
     conversation_activities := [];
     task_activities := [];
     activity_summaries :=
       [ mkActivitySummary 1 (combine_min 5) 1 0 1;
         mkActivitySummary 2 (combine_min 5) 0 0 0;
         mkActivitySummary 1 (combine_min 6) 0 1 2;
         mkActivitySummary 2 (combine_min 6) 0 0 0;
         mkActivitySummary 1 (combine_min 8) 2 0 2 ] |}.

(** The list [activity_dates] that [calculate_streak] computes from its
    query: the days of the person's rows with a positive score, in the order
    of the query. *)
Definition active_dates (s : Session) (pid : Z) : list Z :=
  (λ r, datetime_date (sum_date r))
    <$> merge_sort ActivityRepository.by_date
          (filter (λ r, sum_person_id r = pid ∧ sum_total_activity_score r > 0)
             (activity_summaries s)).

(** ** Vocabulary for re-running a task sync *)

(** A ledger row without its [last_synced_at] stamp, which every sync
    rewrites. *)
Definition without_sync_time (t : TaskActivity) : TaskActivity :=
  {| task_id := task_id t;
     task_person_id := task_person_id t;
     task_notion_task_id := task_notion_task_id t;
     task_task_title := task_task_title t;
     task_project_name := task_project_name t;
     task_completed_at := task_completed_at t;
     task_last_status_change := task_last_status_change t;
     task_last_synced_at := 0;
     task_notion_metadata := task_notion_metadata t |}.

(** A batch with two dicts for one task and one dict for another. *)
Definition rerun_batch : list ActivityRepository.task_dict :=
  [ ActivityRepository.mkTaskDict 1 "task-7" (Some "Ship release")
      (Some "Website") 700 (Some 800) (Some [("status", "Done")]);
    ActivityRepository.mkTaskDict 2 "task-7" None
      None 900 None None;
    ActivityRepository.mkTaskDict 2 "task-9" (Some "Fix login")
      None 950 (Some 960) None ].

(** ** Vocabulary for the statistics of a period *)

(** The person's events whose timestamp lies in the days [a] to [b]. *)
Definition conversation_events_between (s : Session) (pid a b : Z) : Z :=
  Z.of_nat (length (filter
    (λ c, conv_person_id c = pid ∧
          combine_min a ≤ conv_created_at c < combine_min (b + 1))
    (conversation_activities s))).

Definition task_completion_events_between (s : Session) (pid a b : Z) : Z :=
  Z.of_nat (length (filter
    (λ t, task_person_id t = pid ∧
          combine_min a ≤ task_completed_at t < combine_min (b + 1))
    (task_activities s))).

(** The entry of the daily breakdown that the ledger of [s] determines. *)
Definition expected_daily_stats (s : Session) (pid d : Z)
  : ActivityStatsService.DailyActivityStats :=
  {| ActivityStatsService.das_date := d;
     ActivityStatsService.das_conversations_created :=
       conversation_events_on s pid d;
     ActivityStatsService.das_tasks_completed :=
       task_completion_events_on s pid d;
     ActivityStatsService.das_total_activity_score :=
       conversation_events_on s pid d + 2 * task_completion_events_on s pid d |}.

(** ** Vocabulary for the leaderboard *)

(** The grouped row an entry of the leaderboard was made from. *)
Definition row_of_entry (e : ActivityRepository.leaderboard_entry)
  : ActivityRepository.leaderboard_row :=
  {| ActivityRepository.lr_id := ActivityRepository.le_person_id e;
     ActivityRepository.lr_username := ActivityRepository.le_username e;
     ActivityRepository.lr_total_conversations :=
       ActivityRepository.le_conversations_created e;
     ActivityRepository.lr_total_tasks :=
       ActivityRepository.le_tasks_completed e;
     ActivityRepository.lr_total_score :=
       ActivityRepository.le_total_activity_score e |}.

(** Three persons, one of them without a summary row. *)
Definition podium_session : Session :=
  {| persons := [mkPerson 1 "n-1" "aida" None None;
                 mkPerson 2 "n-2" "bolat" None None;
                 mkPerson 3 "n-3" "chingiz" None None];
     conversation_activities := [];
     task_activities := [];
     activity_summaries :=
       [ mkActivitySummary 1 (combine_min 5) 1 0 1;
         mkActivitySummary 2 (combine_min 5) 1 2 5;
         mkActivitySummary 1 (combine_min 6) 0 1 2;
         mkActivitySummary 2 (combine_min 9) 3 0 3 ] |}.

(** ** Runs of one refresh task, one after the other *)


(** * Theorems *)

(** ** Daily summary aggregation *)

Section filter_replace.
Context {A : Type} (P Q : A → Prop).
Context `{!∀ x, Decision (P x)} `{!∀ x, Decision (Q x)}.
Variable new : A.

Lemma replace_hit (x : A) : P x → replace_if P new x = new.
Proof. intros Hx. unfold replace_if. by rewrite decide_True. Qed.

Lemma replace_miss (x : A) : ¬ P x → replace_if P new x = x.
Proof. intros Hx. unfold replace_if. by rewrite decide_False. Qed.

Lemma filter_replace_same (l : list A) :
  P new → filter P (replace_if P new <$> l) = (λ _, new) <$> filter P l.
Proof.
  intros Hnew. induction l as [|x l IH]; [done|].
  rewrite fmap_cons. destruct (decide (P x)) as [Hx|Hx].
  - rewrite (replace_hit x Hx), !filter_cons_True by done.
    by rewrite IH.
  - rewrite (replace_miss x Hx), !filter_cons_False by done. done.
Qed.

Lemma filter_replace_other (l : list A) :
  ¬ Q new → (∀ r, P r → ¬ Q r) →
  filter Q (replace_if P new <$> l) = filter Q l.
Proof.
  intros Hnew Hdisj. induction l as [|x l IH]; [done|].
  rewrite fmap_cons. destruct (decide (P x)) as [Hx|Hx].
  - rewrite (replace_hit x Hx), !filter_cons_False by auto. done.
  - rewrite (replace_miss x Hx), !filter_cons, IH. done.
Qed.

Lemma fmap_replace_id (l : list A) :
  (∀ r, r ∈ l → P r → r = new) → replace_if P new <$> l = l.
Proof.
  intros Hall. induction l as [|x l IH]; [done|].
  rewrite fmap_cons, IH.
  - destruct (decide (P x)) as [Hx|Hx].
    + rewrite (replace_hit x Hx). f_equal. symmetry. apply Hall; [left|done].
    + by rewrite (replace_miss x Hx).
  - intros r Hr. apply Hall. by right.
Qed.

End filter_replace.

Lemma datetime_date_combine_min (d : Z) : datetime_date (combine_min d) = d.
Proof.
  unfold datetime_date, combine_min, MICROSECONDS_PER_DAY.
  apply Z.div_mul. lia.
Qed.

(** The closed interval of the query, 00:00:00.000000 to 23:59:59.999999,
    holds the same integer microsecond timestamps as the half-open day. *)
Lemma closed_interval_is_day (d t : Z) :
  combine_min d ≤ t ∧ t ≤ combine_max d ↔ in_day d t.
Proof. unfold in_day, combine_min, combine_max, MICROSECONDS_PER_DAY. lia. Qed.

Lemma count_conversations_day (s : Session) (pid d : Z) :
  ActivityRepository.count_conversations s pid (combine_min d) (combine_max d)
  = conversation_events_on s pid d.
Proof.
  unfold ActivityRepository.count_conversations, conversation_events_on.
  do 2 f_equal. apply list_filter_iff. intros c.
  rewrite <- closed_interval_is_day. tauto.
Qed.

Lemma count_tasks_day (s : Session) (pid d : Z) :
  ActivityRepository.count_tasks s pid (combine_min d) (combine_max d)
  = task_completion_events_on s pid d.
Proof.
  unfold ActivityRepository.count_tasks, task_completion_events_on.
  do 2 f_equal. apply list_filter_iff. intros c.
  rewrite <- closed_interval_is_day. tauto.
Qed.

Lemma summary_matches_key (pid d : Z) (r : ActivitySummary) :
  ActivityRepository.summary_matches pid (combine_min d) r ↔ summary_key pid d r.
Proof.
  unfold ActivityRepository.summary_matches, summary_key.
  by rewrite datetime_date_combine_min.
Qed.

Lemma summary_matches_filter (pid d : Z) (rows : list ActivitySummary) :
  filter (ActivityRepository.summary_matches pid (combine_min d)) rows
  = summaries_for pid d rows.
Proof. apply list_filter_iff. intros r. apply summary_matches_key. Qed.

Lemma expected_summary_key (s : Session) (pid d : Z) :
  summary_key pid d (expected_summary s pid d).
Proof. split; [done|]. simpl. apply datetime_date_combine_min. Qed.

(** What one run does: it succeeds as soon as the key holds at most one row,
    returns the summary the ledger determines, leaves exactly that row under
    the key, and touches neither the rows of other keys nor the ledger. *)
Lemma aggregate_run (s : Session) (pid d : Z) :
  (length (summaries_for pid d (activity_summaries s)) ≤ 1)%nat →
  ∃ s',
    ActivityRepository.aggregate_daily_activities s pid d
      = Ok (expected_summary s pid d, s') ∧
    summaries_for pid d (activity_summaries s') = [expected_summary s pid d] ∧
    (∀ pid' d', (pid', d') ≠ (pid, d) →
       summaries_for pid' d' (activity_summaries s')
       = summaries_for pid' d' (activity_summaries s)) ∧
    persons s' = persons s ∧
    conversation_activities s' = conversation_activities s ∧
    task_activities s' = task_activities s.
Proof.
  intros Hone.
  unfold ActivityRepository.aggregate_daily_activities,
    ActivityRepository.create_or_update_summary.
  rewrite count_conversations_day, count_tasks_day, summary_matches_filter.
  rewrite (Z.mul_comm (task_completion_events_on s pid d) 2).
  destruct (summaries_for pid d (activity_summaries s))
    as [|old [|other rest]] eqn:Hrows; simpl in Hone; [| |lia].
  - (* no row yet: insert *)
    simpl. fold (expected_summary s pid d).
    eexists. split; [reflexivity|].
    simpl. repeat split; try done.
    + unfold summaries_for in *. rewrite filter_app, Hrows. simpl.
      rewrite filter_cons_True by apply expected_summary_key. done.
    + intros pid' d' Hne. unfold summaries_for. rewrite filter_app.
      rewrite filter_cons_False, filter_nil, app_nil_r; [done|].
      intros [? Hd]. simpl in *. rewrite datetime_date_combine_min in Hd.
      congruence.
  - (* one row: update in place *)
    assert (Hold : summary_key pid d old).
    { assert (Hin : old ∈ summaries_for pid d (activity_summaries s))
        by (rewrite Hrows; left).
      by apply list_elem_of_filter in Hin as [? _]. }
    destruct Hold as [Hpid Hday].
    simpl. rewrite Hpid. fold (expected_summary s pid d).
    eexists. split; [reflexivity|]. simpl. repeat split; try done.
    + unfold summaries_for.
      rewrite <- (list_filter_iff _ _ _ (summary_matches_key pid d)).
      rewrite filter_replace_same
        by (apply summary_matches_key, expected_summary_key).
      rewrite summary_matches_filter, Hrows. done.
    + intros pid' d' Hne. unfold summaries_for.
      apply filter_replace_other.
      * intros [? Hd]. simpl in *. rewrite datetime_date_combine_min in Hd.
        congruence.
      * intros r Hr [? ?].
        apply (proj1 (summary_matches_key pid d r)) in Hr as [? ?].
        congruence.
Qed.

Lemma aggregate_keeps_one_row_per_day (s s' : Session) (pid d : Z)
    (summary : ActivitySummary) :
  one_row_per_day (activity_summaries s) →
  ActivityRepository.aggregate_daily_activities s pid d = Ok (summary, s') →
  one_row_per_day (activity_summaries s').
Proof.
  intros Hinv Hrun.
  destruct (aggregate_run s pid d (Hinv pid d))
    as (s2 & Heq & Hkey & Hother & _).
  rewrite Heq in Hrun. injection Hrun as _ <-.
  intros pid' d'. destruct (decide ((pid', d') = (pid, d))) as [Heq'|Hne].
  - injection Heq' as -> ->. by rewrite Hkey.
  - rewrite (Hother _ _ Hne). apply Hinv.
Qed.

(** A run on a table that already holds the recomputed row changes nothing. *)
Lemma aggregate_run_fixpoint (s : Session) (pid d : Z) :
  summaries_for pid d (activity_summaries s) = [expected_summary s pid d] →
  ActivityRepository.aggregate_daily_activities s pid d
  = Ok (expected_summary s pid d, s).
Proof.
  intros Hrows.
  unfold ActivityRepository.aggregate_daily_activities,
    ActivityRepository.create_or_update_summary.
  rewrite count_conversations_day, count_tasks_day, summary_matches_filter.
  rewrite (Z.mul_comm (task_completion_events_on s pid d) 2).
  rewrite Hrows. simpl. fold (expected_summary s pid d).
  f_equal. f_equal.
  rewrite fmap_replace_id.
  - by destruct s.
  - intros r Hr Hm. apply (proj1 (summary_matches_key pid d r)) in Hm.
    assert (Hin : r ∈ summaries_for pid d (activity_summaries s)).
    { apply list_elem_of_filter. done. }
    rewrite Hrows in Hin. by apply list_elem_of_singleton in Hin.
Qed.

Lemma expected_summary_ledger (s s' : Session) (pid d : Z) :
  conversation_activities s' = conversation_activities s →
  task_activities s' = task_activities s →
  expected_summary s' pid d = expected_summary s pid d.
Proof.
  intros Hc Ht.
  unfold expected_summary, conversation_events_on, task_completion_events_on.
  by rewrite Hc, Ht.
Qed.

(** C1. For every person and day, [aggregate_daily_activities] writes a
    summary row whose [conversations_created] is the number of the person's
    conversation events with timestamp in the half-open UTC day
    [[D 00:00, D 24:00)], whose [tasks_completed] is the number of the
    person's task-completion events in that interval, and whose
    [total_activity_score] is [conversations_created + 2 * tasks_completed].
    (The lookup of the existing row raises when the key already holds two
    rows, hence the hypothesis.) *)
Theorem aggregate_daily_activities_counts (s : Session) (pid d : Z) :
  (length (summaries_for pid d (activity_summaries s)) ≤ 1)%nat →
  ∃ summary s',
    ActivityRepository.aggregate_daily_activities s pid d = Ok (summary, s') ∧
    summary ∈ activity_summaries s' ∧
    sum_person_id summary = pid ∧
    datetime_date (sum_date summary) = d ∧
    sum_conversations_created summary = conversation_events_on s pid d ∧
    sum_tasks_completed summary = task_completion_events_on s pid d ∧
    sum_total_activity_score summary
      = sum_conversations_created summary + 2 * sum_tasks_completed summary.
Proof.
  intros Hone.
  destruct (aggregate_run s pid d Hone) as (s' & Heq & Hkey & _).
  exists (expected_summary s pid d), s'. split; [done|].
  split.
  { assert (Hin : expected_summary s pid d
                  ∈ summaries_for pid d (activity_summaries s'))
      by (rewrite Hkey; left).
    by apply list_elem_of_filter in Hin as [_ ?]. }
  repeat split; try done. simpl. apply datetime_date_combine_min.
Qed.

Lemma aggregate_daily_activities_counts_witness :
  ∃ summary s',
    ActivityRepository.aggregate_daily_activities example_session 1 example_day
      = Ok (summary, s') ∧
    summary ∈ activity_summaries s' ∧
    sum_person_id summary = 1 ∧
    datetime_date (sum_date summary) = example_day ∧
    sum_conversations_created summary
      = conversation_events_on example_session 1 example_day ∧
    sum_tasks_completed summary
      = task_completion_events_on example_session 1 example_day ∧
    sum_total_activity_score summary
      = sum_conversations_created summary + 2 * sum_tasks_completed summary.
Proof.
  apply (aggregate_daily_activities_counts example_session 1 example_day).
  vm_compute. lia.
Defined.

(** Spec test 2 on the source: 3 conversations and 2 completed tasks give
    the row (3, 2, 7). *)
Example aggregate_score_example :
  (λ r, (sum_conversations_created r.1, sum_tasks_completed r.1,
         sum_total_activity_score r.1))
    <$> (match ActivityRepository.aggregate_daily_activities
                 example_session 1 example_day with
         | Ok r => Some r | Raise _ => None end)
  = Some (3, 2, 7).
Proof. vm_compute. reflexivity. Qed.

Lemma aggregate_runs_fixpoint (n : nat) (s : Session) (pid d : Z) :
  summaries_for pid d (activity_summaries s) = [expected_summary s pid d] →
  aggregate_runs n s pid d = Ok s.
Proof.
  intros Hrows. induction n as [|n IH]; [done|].
  simpl. rewrite (aggregate_run_fixpoint s pid d Hrows). simpl. exact IH.
Qed.

(** C2. Calling [aggregate_daily_activities] twice for the same (person,
    day) with an unchanged ledger returns the same field values both times
    (and the second call leaves the table as the first one left it); after any
    number of runs the summary table holds exactly one row keyed (person,
    day), and that row is the one recomputed from the ledger, whatever the row
    held before. *)
Theorem aggregate_idempotent (s : Session) (pid d : Z) (n : nat) :
  (length (summaries_for pid d (activity_summaries s)) ≤ 1)%nat →
  ∃ summary s1,
    ActivityRepository.aggregate_daily_activities s pid d = Ok (summary, s1) ∧
    ActivityRepository.aggregate_daily_activities s1 pid d = Ok (summary, s1) ∧
    aggregate_runs (S n) s pid d = Ok s1 ∧
    summaries_for pid d (activity_summaries s1) = [summary] ∧
    summary = expected_summary s pid d.
Proof.
  intros Hone.
  destruct (aggregate_run s pid d Hone)
    as (s1 & Hrun & Hkey & _ & _ & Hconv & Htask).
  assert (Hexp : expected_summary s1 pid d = expected_summary s pid d)
    by (by apply expected_summary_ledger).
  assert (Hkey1 : summaries_for pid d (activity_summaries s1)
                  = [expected_summary s1 pid d]) by (by rewrite Hexp).
  exists (expected_summary s pid d), s1. repeat split; try done.
  - rewrite <- Hexp. by apply aggregate_run_fixpoint.
  - simpl. rewrite Hrun. simpl. by apply aggregate_runs_fixpoint.
Qed.

Lemma aggregate_idempotent_witness :
  ∃ summary s1,
    ActivityRepository.aggregate_daily_activities example_session 1 example_day
      = Ok (summary, s1) ∧
    ActivityRepository.aggregate_daily_activities s1 1 example_day
      = Ok (summary, s1) ∧
    aggregate_runs 3 example_session 1 example_day = Ok s1 ∧
    summaries_for 1 example_day (activity_summaries s1) = [summary] ∧
    summary = expected_summary example_session 1 example_day.
Proof.
  apply (aggregate_idempotent example_session 1 example_day 2).
  vm_compute. lia.
Defined.

(** The invariant behind C2: every table reached from the empty one by
    aggregation runs has at most one row per (person, day). *)
Lemma aggregate_runs_one_row_per_day (n : nat) (s s' : Session) (pid d : Z) :
  one_row_per_day (activity_summaries s) →
  aggregate_runs n s pid d = Ok s' →
  one_row_per_day (activity_summaries s').
Proof.
  revert s. induction n as [|n IH]; intros s Hinv Hrun.
  - by injection Hrun as <-.
  - simpl in Hrun.
    destruct (ActivityRepository.aggregate_daily_activities s pid d)
      as [[summary s1]|e] eqn:Hfirst; [|done].
    simpl in Hrun. eapply IH; [|done].
    by eapply aggregate_keeps_one_row_per_day.
Qed.

(** ** Heatmap *)

Lemma heatmap_loop_spec (m : gmap Z Z) (mx cur e ad : Z)
    (data : list ActivityStatsService.HeatmapData) :
  ActivityStatsService.heatmap_loop m mx cur e ad data
  = (ad + Z.of_nat (length (filter (λ p, ActivityStatsService.hd_count p > 0)
                              (heatmap_point m mx <$> seqZ cur (e + 1 - cur)))),
     data ++ (heatmap_point m mx <$> seqZ cur (e + 1 - cur))).
Proof.
  funelim (ActivityStatsService.heatmap_loop m mx cur e ad data).
  - (* one more day *)
    rewrite H. clear H Heqcall.
    rewrite (seqZ_cons current_date) by lia.
    replace (Z.succ current_date) with (current_date + 1) by lia.
    replace (Z.pred (end_date + 1 - current_date))
      with (end_date + 1 - (current_date + 1)) by lia.
    rewrite fmap_cons, <- app_assoc. simpl.
    f_equal.
    rewrite filter_cons. unfold heatmap_point at 2. simpl.
    destruct (decide (default 0 (activity_map !! current_date) > 0));
      simpl; lia.
  - rewrite seqZ_nil by lia. simpl. rewrite app_nil_r. f_equal. lia.
Qed.

Lemma foldl_max_init (vs : list Z) (v : Z) : v ≤ foldl Z.max v vs.
Proof.
  revert v. induction vs as [|w vs IH]; intros v; simpl; [lia|].
  etrans; [|apply IH]. lia.
Qed.

Lemma foldl_max_ge (vs : list Z) (v x : Z) :
  x ∈ v :: vs → x ≤ foldl Z.max v vs.
Proof.
  intros Hin. apply elem_of_cons in Hin as [->|Hin]; [apply foldl_max_init|].
  revert v. induction vs as [|w vs IH]; intros v; simpl.
  - by apply elem_of_nil in Hin.
  - apply elem_of_cons in Hin as [->|Hin].
    + etrans; [|apply foldl_max_init]. lia.
    + by apply IH.
Qed.

Lemma foldl_max_in (vs : list Z) (v : Z) : foldl Z.max v vs ∈ v :: vs.
Proof.
  revert v. induction vs as [|w vs IH]; intros v; simpl; [left|].
  specialize (IH (Z.max v w)).
  apply elem_of_cons in IH as [Heq|Hin].
  - rewrite Heq. destruct (Z.max_spec v w) as [[_ ->]|[_ ->]];
      [right; left | left].
  - right. by right.
Qed.


Lemma max_activity_of_nonempty (m : gmap Z Z) :
  m ≠ ∅ →
  (∃ d, m !! d = Some (ActivityStatsService.max_activity_of m)) ∧
  (∀ d v, m !! d = Some v → v ≤ ActivityStatsService.max_activity_of m).
Proof.
  intros Hne. unfold ActivityStatsService.max_activity_of.
  destruct ((map_to_list m).*2) as [|v vs] eqn:Hvals.
  { apply fmap_nil_inv in Hvals. by apply map_to_list_empty_iff in Hvals. }
  split.
  - pose proof (foldl_max_in vs v) as Hin. rewrite <- Hvals in Hin.
    apply list_elem_of_fmap in Hin as ([d w] & Heq & Hin). simpl in Heq.
    exists d. apply elem_of_map_to_list in Hin. by rewrite Heq.
  - intros d w Hd. apply foldl_max_ge. rewrite <- Hvals.
    apply list_elem_of_fmap. exists (d, w). split; [done|].
    by apply elem_of_map_to_list.
Qed.

Lemma activity_map_fold_absent (rows : list ActivitySummary) (m0 : gmap Z Z)
    (d : Z) :
  (∀ r, r ∈ rows → datetime_date (sum_date r) ≠ d) →
  foldl (λ m s, <[datetime_date (sum_date s) := sum_total_activity_score s]> m)
    m0 rows !! d = m0 !! d.
Proof.
  revert m0. induction rows as [|r rows IH]; intros m0 Hno; [done|].
  simpl. rewrite IH by (intros; apply Hno; by right).
  apply lookup_insert_ne. apply Hno. left.
Qed.

Lemma get_summaries_for_person_elem (s : Session) (pid a b : Z)
    (r : ActivitySummary) :
  r ∈ ActivityRepository.get_summaries_for_person s pid a b →
  r ∈ activity_summaries s ∧ sum_person_id r = pid ∧
  combine_min a ≤ sum_date r ∧ sum_date r ≤ combine_min b.
Proof.
  unfold ActivityRepository.get_summaries_for_person.
  rewrite merge_sort_Permutation. intros Hin.
  apply list_elem_of_filter in Hin. tauto.
Qed.

(** A day without a summary row of the person has no entry in the map. *)
Lemma activity_map_no_row (s : Session) (pid a b d : Z) :
  (∀ r, r ∈ activity_summaries s → sum_person_id r = pid →
        datetime_date (sum_date r) ≠ d) →
  ActivityStatsService.activity_map_of
    (ActivityRepository.get_summaries_for_person s pid a b) !! d = None.
Proof.
  intros Hno. unfold ActivityStatsService.activity_map_of.
  rewrite activity_map_fold_absent; [apply lookup_empty|].
  intros r Hr. apply get_summaries_for_person_elem in Hr as (? & ? & _).
  by apply Hno.
Qed.

Lemma get_heatmap_data (s : Session) (pid days today : Z) :
  let m := ActivityStatsService.activity_map_of
             (ActivityRepository.get_summaries_for_person s pid
                (today - (days - 1)) today) in
  let r := ActivityStatsService.get_heatmap s pid days today in
  ActivityStatsService.hm_data r
  = heatmap_point m (ActivityStatsService.hm_max_activity r)
      <$> seqZ (today - (days - 1)) days ∧
  ActivityStatsService.hm_active_days r
  = Z.of_nat (length (filter (λ p, ActivityStatsService.hd_count p > 0)
                        (ActivityStatsService.hm_data r))) ∧
  ActivityStatsService.hm_max_activity r
  = ActivityStatsService.max_activity_of m.
Proof.
  intros m r. unfold r, ActivityStatsService.get_heatmap. simpl.
  rewrite heatmap_loop_spec. simpl.
  replace (today + 1 - (today - (days - 1))) with days by lia.
  repeat split.
Qed.

(** C5. For every person and every day count [N ≥ 1], [get_heatmap] returns
    exactly [N] points, one per calendar day of the window that ends today,
    whatever summary rows exist; a day for which the person has no summary
    row is a point with count 0; [active_days] is the number of points with
    a positive count. *)
Theorem get_heatmap_complete (s : Session) (pid days today : Z) :
  1 ≤ days →
  let r := ActivityStatsService.get_heatmap s pid days today in
  Z.of_nat (length (ActivityStatsService.hm_data r)) = days ∧
  ActivityStatsService.hd_date <$> ActivityStatsService.hm_data r
  = seqZ (today - days + 1) days ∧
  (∀ p, p ∈ ActivityStatsService.hm_data r →
     (∀ row, row ∈ activity_summaries s → sum_person_id row = pid →
             datetime_date (sum_date row) ≠ ActivityStatsService.hd_date p) →
     ActivityStatsService.hd_count p = 0) ∧
  ActivityStatsService.hm_active_days r
  = Z.of_nat (length (filter (λ p, ActivityStatsService.hd_count p > 0)
                        (ActivityStatsService.hm_data r))) ∧
  ActivityStatsService.hm_total_days r = days.
Proof.
  intros Hdays r.
  destruct (get_heatmap_data s pid days today) as (Hdata & Hactive & _).
  fold r in Hdata, Hactive.
  split; [|split; [|split; [|split]]]; try done.
  - rewrite Hdata, length_fmap, length_seqZ. lia.
  - rewrite Hdata, <- list_fmap_compose.
    replace (today - days + 1) with (today - (days - 1)) by lia.
    rewrite <- (list_fmap_id (seqZ _ _)) at 2.
    by apply list_fmap_ext.
  - intros p Hp Hno. rewrite Hdata in Hp.
    apply list_elem_of_fmap in Hp as (d & -> & _). simpl.
    by rewrite (activity_map_no_row s pid _ _ d Hno).
Qed.

Lemma get_heatmap_complete_witness :
  let r := ActivityStatsService.get_heatmap heatmap_session 1 10 103 in
  Z.of_nat (length (ActivityStatsService.hm_data r)) = 10 ∧
  ActivityStatsService.hd_date <$> ActivityStatsService.hm_data r
  = seqZ (103 - 10 + 1) 10 ∧
  (∀ p, p ∈ ActivityStatsService.hm_data r →
     (∀ row, row ∈ activity_summaries heatmap_session →
             sum_person_id row = 1 →
             datetime_date (sum_date row) ≠ ActivityStatsService.hd_date p) →
     ActivityStatsService.hd_count p = 0) ∧
  ActivityStatsService.hm_active_days r
  = Z.of_nat (length (filter (λ p, ActivityStatsService.hd_count p > 0)
                        (ActivityStatsService.hm_data r))) ∧
  ActivityStatsService.hm_total_days r = 10.
Proof.
  apply (get_heatmap_complete heatmap_session 1 10 103). lia.
Defined.





(** ** Bulk aggregation *)

Section bulk_facts.
Context {St : Type} (aggregate : St → Z → Z → St * result ActivitySummary).

Local Abbreviation for_persons := (ActivityStatsService.for_persons).
Local Abbreviation while_days := (ActivityStatsService.while_days).
Local Abbreviation traced := (ActivityStatsService.traced).

Lemma while_days_unfold (people : list Person) (cur e : Z) (st : St)
    (count : Z) (log : list ActivityStatsService.aggregation_failed) :
  while_days aggregate people cur e st count log
  = if decide (cur ≤ e) then
      let r := for_persons aggregate people cur st count log in
      while_days aggregate people (cur + 1) e r.1.1 r.1.2 r.2
    else (st, count, log).
Proof.
  rewrite ActivityStatsService.while_days_equation_1.
  destruct (decide (cur ≤ e)); reflexivity.
Qed.

End bulk_facts.

Section bulk_trace.
Context {St : Type} (aggregate : St → Z → Z → St * result ActivitySummary).

Local Abbreviation for_persons := (ActivityStatsService.for_persons).
Local Abbreviation while_days := (ActivityStatsService.while_days).
Local Abbreviation traced := (ActivityStatsService.traced).

(** The traced loop computes what the loop computes, and its trace lists one
    invocation per person, in order, whatever the outcomes. *)
Lemma for_persons_traced (people : list Person) (d : Z) (st : St)
    (tr : list (Z * Z * bool)) (count : Z)
    (log : list ActivityStatsService.aggregation_failed) :
  let R := for_persons aggregate people d st count log in
  ∃ calls,
    for_persons (traced aggregate) people d (st, tr) count log
    = ((R.1.1, tr ++ calls), R.1.2, R.2) ∧
    calls.*1 = (λ p, (person_id p, d)) <$> people ∧
    R.1.2 = count + Z.of_nat (length (filter succeeded calls)) ∧
    R.2.*1 = log.*1 ++ failed_calls calls.
Proof.
  revert st tr count log.
  induction people as [|person rest IH]; intros st tr count log.
  - exists []. simpl. rewrite !app_nil_r. repeat split. lia.
  - cbn [ActivityStatsService.for_persons].
    change (traced aggregate (st, tr) (person_id person) d)
      with ((aggregate st (person_id person) d).1,
            tr ++ [(person_id person, d,
                    is_ok (aggregate st (person_id person) d).2)],
            (aggregate st (person_id person) d).2).
    destruct (aggregate st (person_id person) d) as [st' [summary|e]];
      cbn [fst snd is_ok].
    + destruct (IH st' (tr ++ [(person_id person, d, true)]) (count + 1) log)
        as (calls & Hrun & Hargs & Hcount & Hlog).
      exists ((person_id person, d, true) :: calls).
      rewrite Hrun, <- app_assoc.
      split; [done|]. split; [by rewrite !fmap_cons, Hargs|].
      split.
      * rewrite Hcount, filter_cons_True by done. simpl. lia.
      * rewrite Hlog. unfold failed_calls.
        rewrite filter_cons_False; [done|]. unfold succeeded. simpl. tauto.
    + destruct (IH st' (tr ++ [(person_id person, d, false)]) count
                  (log ++ [(person_id person, d, e)]))
        as (calls & Hrun & Hargs & Hcount & Hlog).
      exists ((person_id person, d, false) :: calls).
      rewrite Hrun, <- app_assoc.
      split; [done|]. split; [by rewrite !fmap_cons, Hargs|].
      split.
      * rewrite Hcount, filter_cons_False by done. done.
      * rewrite Hlog, fmap_app. unfold failed_calls.
        rewrite filter_cons_True by done. simpl. by rewrite <- app_assoc.
Qed.

Lemma combinations_cons (people : list Person) (d : Z) (days : list Z) :
  combinations people (d :: days)
  = ((λ p, (person_id p, d)) <$> people) ++ combinations people days.
Proof. reflexivity. Qed.

Lemma while_days_traced (people : list Person) (cur e : Z) (st : St)
    (tr : list (Z * Z * bool)) (count : Z)
    (log : list ActivityStatsService.aggregation_failed) :
  let R := while_days aggregate people cur e st count log in
  ∃ calls,
    while_days (traced aggregate) people cur e (st, tr) count log
    = ((R.1.1, tr ++ calls), R.1.2, R.2) ∧
    calls.*1 = combinations people (seqZ cur (e + 1 - cur)) ∧
    R.1.2 = count + Z.of_nat (length (filter succeeded calls)) ∧
    R.2.*1 = log.*1 ++ failed_calls calls.
Proof.
  remember (Z.to_nat (e + 1 - cur)) as n eqn:Hn.
  revert cur st tr count log Hn.
  induction n as [|n IH]; intros cur st tr count log Hn; simpl.
  - rewrite (while_days_unfold aggregate),
      (while_days_unfold (traced aggregate)), !decide_False by lia.
    exists []. rewrite seqZ_nil by lia. rewrite !app_nil_r.
    repeat split. rewrite filter_nil. simpl. lia.
  - rewrite (while_days_unfold aggregate),
      (while_days_unfold (traced aggregate)), !decide_True by lia.
    cbv zeta.
    destruct (for_persons_traced people cur st tr count log)
      as (calls1 & Hrun1 & Hargs1 & Hcount1 & Hlog1).
    rewrite Hrun1. simpl.
    set (R1 := for_persons aggregate people cur st count log) in *.
    destruct (IH (cur + 1) R1.1.1 (tr ++ calls1) R1.1.2 R1.2 ltac:(lia))
      as (calls2 & Hrun2 & Hargs2 & Hcount2 & Hlog2).
    exists (calls1 ++ calls2).
    rewrite Hrun2, <- app_assoc. split; [done|].
    split; [|split].
    + rewrite fmap_app, Hargs1, Hargs2.
      rewrite (seqZ_cons cur) by lia. rewrite combinations_cons.
      do 3 f_equal; lia.
    + rewrite Hcount2, Hcount1, filter_app, length_app. lia.
    + rewrite Hlog2, Hlog1. unfold failed_calls.
      by rewrite filter_app, fmap_app, <- app_assoc.
Qed.

End bulk_trace.

(** The (person, day) arguments of the invocations of a bulk run: every
    combination of a fetched person and a day of the range. *)
Lemma bulk_aggregate_trace (s : Session) (start_date end_date : Z) :
  (ActivityStatsService.bulk_aggregate_calls s start_date end_date).*1
  = combinations (PersonRepository.get_all s 0 10000).1
      (seqZ start_date (end_date + 1 - start_date)).
Proof.
  destruct (while_days_traced ActivityStatsService.try_aggregate
              (PersonRepository.get_all s 0 10000).1
              start_date end_date s [] 0 [])
    as (calls & Hrun & Hargs & _).
  unfold ActivityStatsService.bulk_aggregate_calls. by rewrite Hrun.
Qed.

(** C9. In every run of [bulk_aggregate_daily_activities] a failing (person,
    day) aggregation is logged and skipped and the remaining combinations are
    still aggregated: the invocations are all the combinations whatever their
    outcomes, the error log lists exactly the invocations that raised, and
    the returned integer is the number of invocations that succeeded. *)
Theorem bulk_aggregate_counts_successes (s : Session) (start_date end_date : Z) :
  let people := (PersonRepository.get_all s 0 10000).1 in
  let r := ActivityStatsService.bulk_aggregate_daily_activities
             s start_date end_date in
  let calls := ActivityStatsService.bulk_aggregate_calls
                 s start_date end_date in
  ActivityStatsService.while_days
    (ActivityStatsService.traced ActivityStatsService.try_aggregate)
    people start_date end_date (s, []) 0 []
  = ((r.1.1, calls), r.1.2, r.2) ∧
  calls.*1 = combinations people (seqZ start_date (end_date + 1 - start_date)) ∧
  r.1.2 = Z.of_nat (length (filter succeeded calls)) ∧
  r.2.*1 = failed_calls calls.
Proof.
  intros people r calls.
  destruct (while_days_traced ActivityStatsService.try_aggregate
              people start_date end_date s [] 0 [])
    as (calls' & Hrun & Hargs & Hcount & Hlog).
  assert (Hcalls : calls = calls').
  { unfold calls, ActivityStatsService.bulk_aggregate_calls.
    fold people. by rewrite Hrun. }
  rewrite Hcalls. split; [exact Hrun|]. split; [exact Hargs|].
  split; [exact Hcount|exact Hlog].
Qed.

(** A run with a failure: person 1 has two rows on day 100, so the
    aggregation of (1, 100) raises; (2, 100) is aggregated all the same and
    the count is 1. *)
Lemma bulk_aggregate_counts_successes_witness :
  let r := ActivityStatsService.bulk_aggregate_daily_activities
             duplicated_session 100 100 in
  let calls := ActivityStatsService.bulk_aggregate_calls
                 duplicated_session 100 100 in
  calls = [(1, 100, false); (2, 100, true)] ∧
  r.1.2 = 1 ∧
  r.2 = [(1, 100, MultipleResultsFound)] ∧
  r.1.2 = Z.of_nat (length (filter succeeded calls)) ∧
  r.2.*1 = failed_calls calls.
Proof.
  intros r calls.
  destruct (bulk_aggregate_counts_successes duplicated_session 100 100)
    as (_ & _ & Hcount & Hlog).
  split; [vm_compute; reflexivity|].
  split; [vm_compute; reflexivity|].
  split; [vm_compute; reflexivity|].
  split; [exact Hcount|exact Hlog].
Defined.

Lemma get_all_everyone (s : Session) :
  Z.of_nat (length (persons s)) ≤ 10000 →
  (PersonRepository.get_all s 0 10000).1 ≡ₚ persons s.
Proof.
  intros Hlen. unfold PersonRepository.get_all.
  cbn [fst]. change (Z.to_nat 0) with 0%nat. rewrite drop_0, take_ge.
  - apply merge_sort_Permutation.
  - rewrite merge_sort_Permutation. lia.
Qed.

Lemma combinations_Permutation (people people' : list Person) (days : list Z) :
  people ≡ₚ people' → combinations people days ≡ₚ combinations people' days.
Proof.
  intros Hp. unfold combinations.
  induction days as [|d days IH]; [done|].
  rewrite !bind_cons. by rewrite IH, Hp.
Qed.

(** With at most 10000 persons the bulk aggregation invokes the single-day
    aggregate once for every (person, day) of the range. *)
Lemma bulk_aggregate_calls_everyone (s : Session) (start_date end_date : Z) :
  Z.of_nat (length (persons s)) ≤ 10000 →
  (ActivityStatsService.bulk_aggregate_calls s start_date end_date).*1
  ≡ₚ combinations (persons s) (seqZ start_date (end_date + 1 - start_date)).
Proof.
  intros Hlen.
  rewrite bulk_aggregate_trace.
  by apply combinations_Permutation, get_all_everyone.
Qed.

Lemma elem_of_combinations (people : list Person) (days : list Z) (pid d : Z) :
  (pid, d) ∈ combinations people days ↔
  d ∈ days ∧ ∃ p, p ∈ people ∧ person_id p = pid.
Proof.
  unfold combinations. rewrite list_elem_of_bind. split.
  - intros (d' & Hin & Hd'). apply list_elem_of_fmap in Hin as (p & Heq & Hp).
    injection Heq as -> ->. eauto.
  - intros (Hd & p & Hp & <-). exists d. split; [|done].
    apply list_elem_of_fmap. eauto.
Qed.

Lemma aggregate_raises (s : Session) (pid d : Z) :
  (2 ≤ length (summaries_for pid d (activity_summaries s)))%nat →
  ActivityRepository.aggregate_daily_activities s pid d
  = Raise MultipleResultsFound.
Proof.
  intros Htwo.
  unfold ActivityRepository.aggregate_daily_activities,
    ActivityRepository.create_or_update_summary.
  rewrite summary_matches_filter.
  destruct (summaries_for pid d (activity_summaries s)) as [|a [|b rest]];
    simpl in Htwo; [lia|lia|done].
Qed.

(** One aggregation leaves the rows of every other (person, day) alone. *)
Lemma try_aggregate_other_key (s : Session) (pid d pid' d' : Z) :
  (pid', d') ≠ (pid, d) →
  summaries_for pid' d'
    (activity_summaries (ActivityStatsService.try_aggregate s pid d).1)
  = summaries_for pid' d' (activity_summaries s).
Proof.
  intros Hne. unfold ActivityStatsService.try_aggregate.
  destruct (decide ((length (summaries_for pid d (activity_summaries s))
                     ≤ 1)%nat)) as [Hone|Htwo].
  - destruct (aggregate_run s pid d Hone) as (s' & -> & _ & Hother & _).
    simpl. by apply Hother.
  - rewrite aggregate_raises by lia. done.
Qed.

Lemma for_persons_other_person (people : list Person) (d : Z) (s : Session)
    (count : Z) (log : list ActivityStatsService.aggregation_failed)
    (pid' d' : Z) :
  (∀ p, p ∈ people → person_id p ≠ pid') →
  summaries_for pid' d'
    (activity_summaries
       (ActivityStatsService.for_persons ActivityStatsService.try_aggregate
          people d s count log).1.1)
  = summaries_for pid' d' (activity_summaries s).
Proof.
  revert s count log.
  induction people as [|person rest IH]; intros s count log Hnot; [done|].
  cbn [ActivityStatsService.for_persons].
  pose proof (try_aggregate_other_key s (person_id person) d pid' d') as Hstep.
  destruct (ActivityStatsService.try_aggregate s (person_id person) d)
    as [s1 [summary|e]]; simpl in Hstep.
  - rewrite IH by (intros; apply Hnot; by right).
    apply Hstep. intros [= Heq _]. by apply (Hnot person); [left|].
  - rewrite IH by (intros; apply Hnot; by right).
    apply Hstep. intros [= Heq _]. by apply (Hnot person); [left|].
Qed.

Lemma while_days_other_person (people : list Person) (cur e : Z) (s : Session)
    (count : Z) (log : list ActivityStatsService.aggregation_failed)
    (pid' d' : Z) :
  (∀ p, p ∈ people → person_id p ≠ pid') →
  summaries_for pid' d'
    (activity_summaries
       (ActivityStatsService.while_days ActivityStatsService.try_aggregate
          people cur e s count log).1.1)
  = summaries_for pid' d' (activity_summaries s).
Proof.
  intros Hnot.
  remember (Z.to_nat (e + 1 - cur)) as n eqn:Hn.
  revert cur s count log Hn.
  induction n as [|n IH]; intros cur s count log Hn.
  - rewrite while_days_unfold, decide_False by lia. done.
  - rewrite while_days_unfold, decide_True by lia. cbv zeta.
    rewrite IH by lia. by apply for_persons_other_person.
Qed.

Lemma crowd_overflow_not_fetched :
  ∀ p, p ∈ (PersonRepository.get_all crowded_session 0 10000).1 →
       person_id p ≠ 10001.
Proof.
  assert (H : bool_decide
            (10001 ∈ person_id
               <$> (PersonRepository.get_all crowded_session 0 10000).1)
            = false) by (vm_compute; reflexivity).
  apply bool_decide_eq_false in H.
  intros p Hp Hid. apply H. apply list_elem_of_fmap. eauto.
Qed.

(** C8 at the failing input.  With 10001 known persons,
    [person_repo.get_all(limit=10000)] returns the first 10000 in username
    order; the person with id 10001 is in the table, yet in no range of days
    is the single-day aggregate invoked for that person, and the run writes
    no summary row for that person. *)
Theorem bulk_aggregate_misses_a_person :
  crowd_person 10000 ∈ persons crowded_session ∧
  person_id (crowd_person 10000) = 10001 ∧
  ∀ start_date end_date d,
    ((10001, d) ∉ (ActivityStatsService.bulk_aggregate_calls
                     crowded_session start_date end_date).*1) ∧
    summaries_for 10001 d
      (activity_summaries
         (ActivityStatsService.bulk_aggregate_daily_activities
            crowded_session start_date end_date).1.1) = [].
Proof.
  split.
  { change (persons crowded_session) with (crowd_person <$> seqZ 0 10001).
    apply list_elem_of_fmap.
    exists 10000. split; [reflexivity|]. apply elem_of_seqZ. lia. }
  split; [reflexivity|].
  intros start_date end_date d. split.
  - rewrite bulk_aggregate_trace.
    intros Hin. apply elem_of_combinations in Hin as (_ & p & Hp & Hid).
    by apply (crowd_overflow_not_fetched p).
  - unfold ActivityStatsService.bulk_aggregate_daily_activities.
    rewrite while_days_other_person by apply crowd_overflow_not_fetched.
    reflexivity.
Qed.

(** ** Cache refresh *)

Section refresh_facts.
Variable fromisoformat_date : string → option Z.
Variable clk : clock.

Lemma already_updating_true (db : CacheDB) (cache_type : string)
    (m : CacheMetadata) :
  cache_metadata db !! cache_type = Some m →
  meta_is_updating m = true →
  NotionCacheTasks.already_updating db cache_type = true.
Proof.
  intros Hm Hup. unfold NotionCacheTasks.already_updating,
    CacheRepository.get_cache_metadata. by rewrite Hm.
Qed.

Lemma guarded_refresh_skips (db : CacheDB) (cache_type : string)
    (body : CacheDB → result Z * CacheDB) :
  NotionCacheTasks.already_updating db cache_type = true →
  NotionCacheTasks.guarded_refresh clk cache_type body db = (Skipped, db).
Proof. intros H. unfold NotionCacheTasks.guarded_refresh. by rewrite H. Qed.

(** A worker that runs alone goes through its three steps and does what the
    task does. *)
Lemma worker_alone (cache_type : string)
    (body : CacheDB → result Z * CacheDB) (db : CacheDB) :
  let r := NotionCacheTasks.guarded_refresh clk cache_type body db in
  NotionCacheTasks.run_schedule clk cache_type body
    (db, [NotionCacheTasks.Checking]) [0; 0; 0]%nat
  = (r.2, [NotionCacheTasks.Finished r.1]).
Proof.
  unfold NotionCacheTasks.run_schedule, NotionCacheTasks.guarded_refresh,
    NotionCacheTasks.refresh_after_guard, NotionCacheTasks.system_step.
  simpl. destruct (NotionCacheTasks.already_updating db cache_type); simpl.
  - done.
  - by destruct (NotionCacheTasks.finish_refresh clk cache_type body _).
Qed.

(** The activities task has no guard: it never returns "skipped". *)
Lemma update_activities_cache_never_skips
    (sync_all : Session → result (NotionCacheTasks.sync_stats * Session))
    (start_of_year today : Z) (db : CacheDB) (s : Session) :
  (NotionCacheTasks.update_activities_cache clk sync_all start_of_year today
     db s).1.1 ≠ Skipped.
Proof.
  unfold NotionCacheTasks.update_activities_cache.
  by destruct (sync_all s) as [[stats s1]|exc].
Qed.

End refresh_facts.

(** C6, as stated, fails on two counts.  The activities task runs although
    the metadata of "activities" has [is_updating = true]; and two workers
    refreshing "projects" that both check the flag before either sets it both
    pass the guard, so two refreshes of one cache type are in progress. *)
Lemma refresh_guard_not_exclusive :
  (∃ m, cache_metadata busy_db !! "activities" = Some m ∧
        meta_is_updating m = true) ∧
  (NotionCacheTasks.update_activities_cache example_clock sync_nothing
     100 100 busy_db example_session).1.1 = Synced 0 0 1 3 ∧
  refreshes_in_progress
    (NotionCacheTasks.run_schedule example_clock "projects"
       (NotionCacheTasks.replace_projects (Ok [new_project]) None)
       (idle_db, [NotionCacheTasks.Checking; NotionCacheTasks.Checking])
       [0; 1; 0; 1]%nat).2 = 2%nat.
Proof.
  split; [by exists updating_metadata|].
  split; vm_compute; reflexivity.
Qed.

(** C6, amended.  For the projects, tasks and todos cache types, a refresh
    triggered while the type's metadata has [is_updating = true] returns
    "skipped" and leaves every cache row and every metadata field as it was;
    so a worker whose check reads a flag that another refresh has set does
    not start a second refresh.  (The activities task has no such guard, and
    the check and the set are separate steps.) *)
Theorem refresh_skipped_while_updating
    (fromisoformat_date : string → option Z) (clk : clock)
    (ct : guarded_cache_type) (inp : refresh_inputs) (db : CacheDB)
    (m : CacheMetadata) (body : CacheDB → result Z * CacheDB) :
  cache_metadata db !! cache_type_name ct = Some m →
  meta_is_updating m = true →
  run_refresh fromisoformat_date clk ct inp db = (Skipped, db) ∧
  NotionCacheTasks.worker_step clk (cache_type_name ct) body
    NotionCacheTasks.Checking db
  = (NotionCacheTasks.Finished Skipped, db).
Proof.
  intros Hm Hup.
  pose proof (already_updating_true db _ m Hm Hup) as Hguard.
  split.
  - destruct ct; simpl in *;
      unfold NotionCacheTasks.update_projects_cache,
        NotionCacheTasks.update_tasks_cache,
        NotionCacheTasks.update_todos_cache;
      by apply guarded_refresh_skips.
  - simpl. by rewrite Hguard.
Qed.

Lemma refresh_skipped_while_updating_witness :
  run_refresh no_dates example_clock Projects insert_fails busy_db
  = (Skipped, busy_db) ∧
  NotionCacheTasks.worker_step example_clock (cache_type_name Projects)
    (NotionCacheTasks.replace_projects (Ok [new_project]) None)
    NotionCacheTasks.Checking busy_db
  = (NotionCacheTasks.Finished Skipped, busy_db).
Proof.
  apply (refresh_skipped_while_updating no_dates example_clock Projects
           insert_fails busy_db updating_metadata).
  - reflexivity.
  - reflexivity.
Defined.


Section failed_refresh.
Variable fromisoformat_date : string → option Z.
Variable clk : clock.


End failed_refresh.



(** After a fetch failure the old snapshot is still served, while the
    metadata already reports no records. *)
Example fetch_failure_keeps_snapshot :
  let r := run_refresh no_dates example_clock Projects fetch_fails idle_db in
  cached_notion_projects r.2 = [old_project] ∧
  cache_metadata r.2 !! "projects"
  = Some (mkCacheMetadata 2000 false 0 (Some 3) (Some "notion timeout")).
Proof. split; vm_compute; reflexivity. Qed.

(** ** Task ledger *)

Lemma filter_none {A : Type} (P : A → Prop) `{!∀ x, Decision (P x)}
    (l : list A) :
  (∀ x, x ∈ l → ¬ P x) → filter P l = [].
Proof.
  induction l as [|x l IH]; intros Hno; [done|].
  rewrite filter_cons_False by (apply Hno; left).
  apply IH. intros y Hy. apply Hno. by right.
Qed.


Lemma filter_key_NoDup {A K : Type} `{EqDecision K} (f : A → K) (k : K)
    (l : list A) :
  NoDup (f <$> l) → (length (filter (λ x, f x = k) l) ≤ 1)%nat.
Proof.
  induction l as [|x l IH]; intros Hnd; [simpl; lia|].
  rewrite fmap_cons in Hnd. apply NoDup_cons in Hnd as [Hx Hnd].
  destruct (decide (f x = k)) as [Hk|Hk].
  - rewrite filter_cons_True by done. simpl.
    assert (Hnone : filter (λ y, f y = k) l = []).
    { apply filter_none. intros y Hy Hfy.
      apply Hx, list_elem_of_fmap. exists y. split; [congruence|done]. }
    rewrite Hnone. simpl. lia.
  - rewrite filter_cons_False by done. by apply IH.
Qed.


Lemma update_existing_task_keeps (now : Z) (task : ActivityRepository.task_dict)
    (existing : TaskActivity) :
  let t := ActivityRepository.update_existing_task now task existing in
  task_notion_task_id t = task_notion_task_id existing ∧
  task_person_id t = task_person_id existing ∧
  task_id t = task_id existing.
Proof. done. Qed.

Section update_in_place.
Variables (now : Z) (task : ActivityRepository.task_dict).
Variables (existing : TaskActivity) (rows : list TaskActivity).
Hypothesis Hfound :
  filter (λ t, task_notion_task_id t = ActivityRepository.td_notion_task_id task)
    rows = [existing].

Local Abbreviation g :=
  (replace_if
     (λ t, task_notion_task_id t = ActivityRepository.td_notion_task_id task)
     (ActivityRepository.update_existing_task now task existing)).

Lemma existing_id :
  task_notion_task_id existing = ActivityRepository.td_notion_task_id task.
Proof using Hfound.
  assert (Hin : existing ∈ filter
            (λ t, task_notion_task_id t
                  = ActivityRepository.td_notion_task_id task) rows)
    by (rewrite Hfound; left).
  by apply list_elem_of_filter in Hin as [? _].
Qed.

Lemma update_keeps_id (t : TaskActivity) :
  task_notion_task_id (g t) = task_notion_task_id t.
Proof using Hfound.
  unfold replace_if. case_decide as Ht; [|done]. simpl. by rewrite existing_id.
Qed.

Lemma update_keeps_ids : task_notion_task_id <$> (g <$> rows)
                         = task_notion_task_id <$> rows.
Proof using Hfound.
  rewrite <- list_fmap_compose. apply list_fmap_ext.
  intros i t _. apply update_keeps_id.
Qed.


End update_in_place.





(** The dicts prepared for one page all carry the page's id. *)
Lemma prepare_task_activities_ids (page : ActivitySyncService.done_page)
    (people : list ActivitySyncService.person_data) (s s' : Session)
    (acc dicts : list ActivityRepository.task_dict) :
  ActivitySyncService.prepare_task_activities page people s acc
    = Ok (dicts, s') →
  ∃ new, dicts = acc ++ new ∧ length new = length people ∧
         ∀ t, t ∈ new → ActivityRepository.td_notion_task_id t
                         = ActivitySyncService.page_id page.
Proof.
  revert s acc. induction people as [|pd people IH]; intros s acc Hrun.
  - injection Hrun as <- <-. exists []. rewrite app_nil_r.
    split; [done|]. split; [done|]. intros t Ht. by apply elem_of_nil in Ht.
  - cbn [ActivitySyncService.prepare_task_activities] in Hrun.
    destruct (PersonRepository.get_or_create_by_notion_id s _ _ _)
      as [[[person flag] s1]|e]; [|done].
    cbn [mbind result_bind] in Hrun.
    apply IH in Hrun as (new & -> & Hlen & Hids).
    eexists (_ :: new). rewrite <- app_assoc. split; [done|].
    split; [simpl; by rewrite Hlen|].
    intros t Ht. apply elem_of_cons in Ht as [->|Ht]; [done|by apply Hids].
Qed.


Example shared_task_has_one_owner :
  (λ s', (length (task_activities s'), owner (task_activities s') "task-7"))
    <$> (match task_syncs [(10, shared_page_dicts); (20, shared_page_dicts)]
                 empty_session with
         | Ok s' => Some s' | Raise _ => None end)
  = Some (1%nat, Some 1).
Proof. vm_compute. reflexivity. Qed.

(** ** Streaks *)

Lemma consecutive_tail (x : Z) (l : list Z) :
  consecutive (x :: l) → consecutive l.
Proof. destruct l as [|y l]; [done|]. by intros [_ ?]. Qed.

Lemma consecutive_app_l (l1 l2 : list Z) :
  consecutive (l1 ++ l2) → consecutive l1.
Proof.
  induction l1 as [|x l1 IH]; [done|].
  destruct l1 as [|y l1]; [done|].
  intros [Hxy Hrest]. split; [done|]. by apply IH.
Qed.

Lemma consecutive_app_r (l1 l2 : list Z) :
  consecutive (l1 ++ l2) → consecutive l2.
Proof.
  induction l1 as [|x l1 IH]; [done|].
  intros H. apply IH. by apply (consecutive_tail x).
Qed.

(** Inside a run, the day after the end of a prefix is the next day. *)
Lemma consecutive_junction (l1 l2 : list Z) (z y : Z) :
  consecutive (l1 ++ l2) → last l1 = Some z → head l2 = Some y → y - z = 1.
Proof.
  induction l1 as [|x l1 IH]; [done|].
  destruct l1 as [|x' l1].
  - destruct l2 as [|y' l2]; [done|].
    simpl. intros [Hgap _] [= <-] [= <-]. done.
  - intros [_ Hrest] Hlast Hhead. by apply IH.
Qed.

Lemma consecutive_snoc (l : list Z) (z y : Z) :
  consecutive l → last l = Some z → y - z = 1 → consecutive (l ++ [y]).
Proof.
  induction l as [|x l IH]; [done|].
  destruct l as [|x' l].
  - simpl. intros _ [= <-] Hgap. done.
  - intros [Hxx Hrest] Hlast Hgap. split; [done|]. by apply IH.
Qed.

(** A run lying across two lists that do not join lies in one of them. *)
Lemma run_splits (l1 l2 pre run post : list Z) :
  l1 ++ l2 = pre ++ run ++ post →
  consecutive run →
  gap_between l1 l2 →
  (∃ pre' post', l1 = pre' ++ run ++ post') ∨
  (∃ pre' post', l2 = pre' ++ run ++ post').
Proof.
  intros Heq Hrun Hgap.
  apply List.app_eq_app in Heq as [k [[H1 H2]|[H1 H2]]].
  - (* l1 = pre ++ k and run ++ post = k ++ l2 *)
    apply List.app_eq_app in H2 as [k' [[H3 H4]|[H3 H4]]].
    + (* the run is k ++ k', across the junction *)
      subst. destruct k as [|a k].
      * right. by exists [], post.
      * destruct k' as [|b k'].
        { left. exists pre, []. by rewrite !app_nil_r. }
        exfalso. destruct (last (pre ++ a :: k)) as [z|] eqn:Hz.
        -- eapply (Hgap z b); [done|done|].
           eapply (consecutive_junction (a :: k) (b :: k')); [done| |done].
           rewrite last_app in Hz.
           destruct (last (a :: k)) as [y|] eqn:Hl; [done|].
           by apply last_None in Hl.
        -- apply last_None in Hz. by destruct pre.
    + (* the run ends inside l1 *)
      left. exists pre, k'. by rewrite H1, H3.
  - right. exists k, post. by rewrite H2.
Qed.

Lemma segment_length (l pre run post : list Z) :
  l = pre ++ run ++ post → (length run ≤ length l)%nat.
Proof. intros ->. rewrite !length_app. lia. Qed.

(** Closing the running streak: the longest streak is then a longest run of
    all the days seen. *)
Lemma close_streak_best (closed cur : list Z) (prev_date : Z)
    (v : ActivityRepository.streak_vars) :
  running closed cur prev_date v →
  best_run (closed ++ cur) (ActivityRepository.close_streak prev_date v) ∧
  1 ≤ ActivityRepository.sv_longest_streak
        (ActivityRepository.close_streak prev_date v).
Proof.
  intros (Hcons & Hlast & Hhead & Hlen & Hgap & Hbound & Hbest).
  assert (Hpos : 1 ≤ ActivityRepository.sv_temp_streak v).
  { rewrite <- Hlen. destruct cur; [done|]. simpl. lia. }
  unfold ActivityRepository.close_streak.
  destruct (decide (ActivityRepository.sv_temp_streak v
                    > ActivityRepository.sv_longest_streak v)) as [Hgt|Hle].
  - split; [|simpl; lia]. split; simpl.
    + intros pre run post Heq Hrun.
      destruct (run_splits closed cur pre run post Heq Hrun Hgap)
        as [(p & q & Hin)|(p & q & Hin)].
      * specialize (Hbound p run q Hin Hrun). lia.
      * apply segment_length in Hin. lia.
    + right. exists closed, cur, []. by rewrite app_nil_r.
  - assert (Hlong : 1 ≤ ActivityRepository.sv_longest_streak v) by lia.
    split; [|done]. split.
    + intros pre run post Heq Hrun.
      destruct (run_splits closed cur pre run post Heq Hrun Hgap)
        as [(p & q & Hin)|(p & q & Hin)].
      * by apply (Hbound p run q).
      * apply segment_length in Hin. lia.
    + right. destruct Hbest as [(H0 & _)|(pre & run & post & -> & Hb)]; [lia|].
      exists pre, run, (post ++ cur). by rewrite <- !app_assoc.
Qed.

Lemma streak_step_running (closed cur : list Z) (prev_date curr_date : Z)
    (v : ActivityRepository.streak_vars) :
  running closed cur prev_date v →
  ∃ closed' cur',
    closed' ++ cur' = closed ++ cur ++ [curr_date] ∧
    running closed' cur' curr_date
      (ActivityRepository.streak_step prev_date curr_date v).
Proof.
  intros Hrun.
  pose proof Hrun as (Hcons & Hlast & Hhead & Hlen & Hgap & Hbest).
  unfold ActivityRepository.streak_step.
  destruct (decide (curr_date - prev_date = 1)) as [Hnext|Hbreak].
  - exists closed, (cur ++ [curr_date]). split; [done|].
    assert (Hne : cur ≠ []) by (by destruct cur).
    split; [by apply (consecutive_snoc cur prev_date)|].
    split; [by rewrite last_snoc|].
    split; [by destruct cur|].
    split; [rewrite length_app; simpl; lia|].
    split; [|exact Hbest].
    intros z y Hz Hy. apply (Hgap z y Hz). by destruct cur.
  - destruct (close_streak_best closed cur prev_date v Hrun) as [Hclosed _].
    exists (closed ++ cur), [curr_date]. split; [by rewrite <- app_assoc|].
    split; [done|]. split; [done|]. split; [done|]. split; [done|].
    split; [|exact Hclosed].
    intros z y Hz [= <-]. rewrite last_app, Hlast in Hz.
    injection Hz as <-. done.
Qed.

Lemma streak_loop_running (rest closed cur : list Z) (prev_date : Z)
    (v : ActivityRepository.streak_vars) :
  running closed cur prev_date v →
  ∃ closed' cur' last_date,
    closed' ++ cur' = closed ++ cur ++ rest ∧
    last (prev_date :: rest) = Some last_date ∧
    running closed' cur' last_date
      (ActivityRepository.streak_loop prev_date rest v).
Proof.
  revert closed cur prev_date v.
  induction rest as [|curr_date rest IH]; intros closed cur prev_date v Hrun.
  - exists closed, cur, prev_date. by rewrite app_nil_r.
  - destruct (streak_step_running closed cur prev_date curr_date v Hrun)
      as (closed1 & cur1 & Heq1 & Hrun1).
    destruct (IH closed1 cur1 curr_date _ Hrun1)
      as (closed' & cur' & last_date & Heq & Hlast & Hrun').
    exists closed', cur', last_date. split; [|done].
    rewrite Heq, app_assoc, Heq1, <- !app_assoc. done.
Qed.

Lemma last_default (l : list Z) (x d : Z) :
  last l = Some x → List.last l d = x.
Proof.
  induction l as [|a l IH]; [done|].
  destruct l as [|b l]; [by intros [= ->]|].
  intros H. by apply IH.
Qed.

(** The longest streak is the length of a longest run of consecutive days,
    reported with that run's first and last day. *)
Lemma streak_longest_is_longest_run (activity_dates : list Z) (today : Z) :
  activity_dates ≠ [] →
  let r := ActivityRepository.streak_of_dates activity_dates today in
  (∃ pre run post,
     activity_dates = pre ++ run ++ post ∧ consecutive run ∧
     Z.of_nat (length run) = ActivityRepository.longest_streak r ∧
     head run = ActivityRepository.longest_streak_start r ∧
     last run = ActivityRepository.longest_streak_end r) ∧
  (∀ pre run post,
     activity_dates = pre ++ run ++ post → consecutive run →
     Z.of_nat (length run) ≤ ActivityRepository.longest_streak r).
Proof.
  destruct activity_dates as [|first rest]; [done|]. intros _.
  set (v0 := {| ActivityRepository.sv_longest_streak := 0;
                ActivityRepository.sv_longest_streak_start := None;
                ActivityRepository.sv_longest_streak_end := None;
                ActivityRepository.sv_temp_streak := 1;
                ActivityRepository.sv_temp_streak_start := first |}).
  assert (Hinit : running [] [first] first v0).
  { repeat split; try done.
    - intros pre run post Heq _. symmetry in Heq.
      apply app_eq_nil in Heq as [_ Heq]. apply app_eq_nil in Heq as [-> _].
      done.
    - by left. }
  destruct (streak_loop_running rest [] [first] first v0 Hinit)
    as (closed & cur & last_date & Heq & Hlast & Hrun).
  simpl in Heq.
  destruct (close_streak_best closed cur last_date _ Hrun) as [Hbest Hpos].
  rewrite Heq in Hbest.
  unfold ActivityRepository.streak_of_dates. cbv zeta.
  rewrite (last_default (first :: rest) last_date first Hlast).
  fold v0. cbn [ActivityRepository.longest_streak
                ActivityRepository.longest_streak_start
                ActivityRepository.longest_streak_end].
  destruct Hbest as [Hbound [(H0 & _)|Hwit]]; [lia|]. done.
Qed.

Lemma count_backwards_run (earlier : list Z) (next_date c : Z) :
  let r := ActivityRepository.count_backwards next_date earlier c next_date in
  ∃ taken rest,
    earlier = taken ++ rest ∧
    consecutive (reverse taken ++ [next_date]) ∧
    r.1 = c + Z.of_nat (length taken) ∧
    head (reverse taken ++ [next_date]) = Some r.2 ∧
    (∀ x, head rest = Some x → r.2 - x ≠ 1).
Proof.
  revert next_date c.
  induction earlier as [|date_i earlier IH]; intros next_date c.
  - exists [], []. simpl. repeat split; try done. lia.
  - cbn [ActivityRepository.count_backwards].
    destruct (decide (next_date - date_i = 1)) as [Hnext|Hbreak].
    + destruct (IH date_i (c + 1)) as (taken & rest & -> & Hcons & Hc & Hh & Hg).
      exists (date_i :: taken), rest. split; [done|].
      rewrite reverse_cons.
      split; [apply (consecutive_snoc _ date_i); [done| |done];
              by rewrite last_snoc|].
      split; [rewrite Hc; simpl; lia|].
      split; [|done].
      rewrite <- Hh. by destruct (reverse taken).
    + exists [], (date_i :: earlier). simpl. repeat split; try done; [lia|].
      by intros x [= <-].
Qed.

(** The current streak: when the last active day is at most one day before
    today, it is the length of the trailing run of consecutive days, with
    that run's first day; otherwise it is 0 with no start. *)
Lemma streak_current_is_trailing_run (activity_dates : list Z)
    (today last_activity : Z) :
  last activity_dates = Some last_activity →
  let r := ActivityRepository.streak_of_dates activity_dates today in
  (today - last_activity ≤ 1 →
     ∃ pre run,
       activity_dates = pre ++ run ∧ consecutive run ∧
       last run = Some last_activity ∧ gap_between pre run ∧
       ActivityRepository.current_streak r = Z.of_nat (length run) ∧
       ActivityRepository.current_streak_start r = head run) ∧
  (1 < today - last_activity →
     ActivityRepository.current_streak r = 0 ∧
     ActivityRepository.current_streak_start r = None).
Proof.
  intros Hlast.
  destruct activity_dates as [|first rest]; [done|].
  unfold ActivityRepository.streak_of_dates. cbv beta iota zeta.
  rewrite (last_default (first :: rest) last_activity first Hlast).
  cbn [ActivityRepository.current_streak
       ActivityRepository.current_streak_start].
  remember (first :: rest) as activity_dates eqn:Hdates. clear Hdates.
  split.
  - intros Hrecent. rewrite decide_True by done. cbn [fst snd].
    assert (Hrev : reverse activity_dates
                   = last_activity :: tail (reverse activity_dates)).
    { rewrite <- head_reverse in Hlast.
      by destruct (reverse activity_dates) as [|a l]; [|injection Hlast as ->]. }
    destruct (count_backwards_run (tail (reverse activity_dates))
                last_activity 1)
      as (taken & rest' & Htail & Hcons & Hc & Hh & Hg).
    exists (reverse rest'), (reverse taken ++ [last_activity]).
    split.
    { rewrite <- (reverse_involutive activity_dates), Hrev, Htail.
      rewrite reverse_cons, reverse_app, <- app_assoc. done. }
    split; [done|]. split; [by rewrite last_snoc|].
    split.
    { intros z y Hz Hy. rewrite last_reverse in Hz.
      rewrite Hh in Hy. injection Hy as <-. by apply Hg. }
    split; [|by rewrite Hh].
    rewrite Hc, length_app, length_reverse. simpl. lia.
  - intros Hold. by rewrite decide_False by lia.
Qed.

Lemma streak_no_active_days (today : Z) :
  ActivityRepository.streak_of_dates [] today
  = ActivityRepository.mkStreakInfo 0 0 None None None.
Proof. reflexivity. Qed.

(** Spec test 5 on the source: active on Jan 1-3 and 5-8 with today Jan 8
    gives a longest streak of 4 (Jan 5 to Jan 8) and a current streak of 4. *)
Example streak_january :
  ActivityRepository.streak_of_dates january_days 8
  = ActivityRepository.mkStreakInfo 4 4 (Some 5) (Some 5) (Some 8).
Proof. vm_compute. reflexivity. Qed.

(** C3 at the failing input.  The only active day is day 20 and today is
    day 15, so the most recent active day is neither today nor yesterday; the
    source tests [days_since_last <= 1], which holds for the negative gap, and
    reports a current streak of 1 starting on day 20. *)
Theorem current_streak_for_future_day :
  ActivityRepository.calculate_streak future_session 1 15
  = ActivityRepository.mkStreakInfo 1 1 (Some 20) (Some 20) (Some 20) ∧
  ActivityRepository.streak_of_dates [20] 15
  = ActivityRepository.mkStreakInfo 1 1 (Some 20) (Some 20) (Some 20) ∧
  20 ≠ 15 ∧ 20 ≠ 15 - 1.
Proof.
  split; [vm_compute; reflexivity|].
  split; [vm_compute; reflexivity|]. lia.
Qed.

(** * Further properties of the embedded code *)

(** ** Streaks *)

(** X1. Whatever the active days and today, the current streak is never
    longer than the longest streak, and with at least one active day the
    longest streak is at least 1. *)
Theorem current_streak_le_longest (activity_dates : list Z) (today : Z) :
  let r := ActivityRepository.streak_of_dates activity_dates today in
  ActivityRepository.current_streak r ≤ ActivityRepository.longest_streak r ∧
  0 ≤ ActivityRepository.current_streak r ∧
  (activity_dates ≠ [] → 1 ≤ ActivityRepository.longest_streak r).
Proof.
  destruct activity_dates as [|first rest] eqn:Hd; [done|].
  rewrite <- Hd. assert (Hne : activity_dates ≠ []) by (by rewrite Hd).
  clear Hd. cbv zeta.
  destruct (streak_longest_is_longest_run activity_dates today Hne)
    as [(pre & run & post & Heq & Hrun & Hlen & Hhead & Hlast) Hbound].
  destruct (last activity_dates) as [last_activity|] eqn:Hl;
    [|by apply last_None in Hl].
  destruct (streak_current_is_trailing_run activity_dates today
              last_activity Hl) as [Hrecent Hold].
  assert (Hpos : 1 ≤ ActivityRepository.longest_streak
                        (ActivityRepository.streak_of_dates activity_dates today)).
  { destruct activity_dates as [|d ds]; [done|].
    exact (Hbound [] [d] ds eq_refl I). }
  destruct (decide (today - last_activity ≤ 1)) as [Hr|Ho].
  - destruct (Hrecent Hr) as (p & t & Heqt & Hcons & _ & _ & Hc & _).
    rewrite Hc. split; [|split; [lia|done]].
    apply (Hbound p t []); [by rewrite app_nil_r|done].
  - destruct Hold as [-> _]; [lia|]. split; [lia|]. split; [lia|done].
Qed.

Lemma by_date_transitive : Transitive ActivityRepository.by_date.
Proof. unfold ActivityRepository.by_date. intros a b c. lia. Qed.

Lemma by_date_total : Total ActivityRepository.by_date.
Proof. unfold ActivityRepository.by_date. intros a b. lia. Qed.

Lemma datetime_date_mono (a b : Z) :
  a ≤ b → datetime_date a ≤ datetime_date b.
Proof.
  intros H. unfold datetime_date, MICROSECONDS_PER_DAY.
  apply Z.div_le_mono; lia.
Qed.

(** X2. The days [calculate_streak] works on are exactly the days on which
    the person has a summary row with a positive score, in ascending order:
    zero-activity rows and the rows of other persons never count towards a
    streak, and a person without an active day gets zero streaks and no
    dates. *)
Theorem calculate_streak_days (s : Session) (pid today : Z) :
  ActivityRepository.calculate_streak s pid today
  = ActivityRepository.streak_of_dates (active_dates s pid) today ∧
  (∀ d, d ∈ active_dates s pid ↔
        ∃ row, row ∈ activity_summaries s ∧ sum_person_id row = pid ∧
               0 < sum_total_activity_score row ∧
               datetime_date (sum_date row) = d) ∧
  StronglySorted Z.le (active_dates s pid) ∧
  ((∀ row, row ∈ activity_summaries s → sum_person_id row = pid →
           sum_total_activity_score row ≤ 0) →
   ActivityRepository.calculate_streak s pid today
   = ActivityRepository.mkStreakInfo 0 0 None None None).
Proof.
  split; [done|]. split; [|split].
  - intros d. unfold active_dates. rewrite list_elem_of_fmap. split.
    + intros (row & -> & Hin). rewrite merge_sort_Permutation in Hin.
      apply list_elem_of_filter in Hin as [[Hp Hs] Hin].
      exists row. repeat split; try done. lia.
    + intros (row & Hin & Hp & Hs & <-). exists row. split; [done|].
      rewrite merge_sort_Permutation. apply list_elem_of_filter.
      split; [|done]. split; [done|lia].
  - unfold active_dates.
    apply (StronglySorted_fmap _ ActivityRepository.by_date).
    + intros x y Hxy. by apply datetime_date_mono.
    + apply StronglySorted_merge_sort;
        [apply by_date_transitive|apply by_date_total].
  - intros Hzero.
    change (ActivityRepository.calculate_streak s pid today)
      with (ActivityRepository.streak_of_dates (active_dates s pid) today).
    assert (Hnone : active_dates s pid = []).
    { unfold active_dates. rewrite filter_none; [done|].
      intros row Hin [Hp Hs]. specialize (Hzero row Hin Hp). lia. }
    by rewrite Hnone.
Qed.

(** X3. With at least one active day, the longest streak reported for a
    person is the length of a longest run of consecutive active days, and the
    reported start and end are the first and last day of such a run. *)
Theorem calculate_streak_longest (s : Session) (pid today : Z) :
  active_dates s pid ≠ [] →
  let r := ActivityRepository.calculate_streak s pid today in
  (∃ pre run post,
     active_dates s pid = pre ++ run ++ post ∧ consecutive run ∧
     Z.of_nat (length run) = ActivityRepository.longest_streak r ∧
     head run = ActivityRepository.longest_streak_start r ∧
     last run = ActivityRepository.longest_streak_end r) ∧
  (∀ pre run post,
     active_dates s pid = pre ++ run ++ post → consecutive run →
     Z.of_nat (length run) ≤ ActivityRepository.longest_streak r).
Proof.
  intros Hne.
  exact (streak_longest_is_longest_run (active_dates s pid) today Hne).
Qed.

Lemma calculate_streak_longest_witness :
  let r := ActivityRepository.calculate_streak mixed_session 1 8 in
  (∃ pre run post,
     active_dates mixed_session 1 = pre ++ run ++ post ∧ consecutive run ∧
     Z.of_nat (length run) = ActivityRepository.longest_streak r ∧
     head run = ActivityRepository.longest_streak_start r ∧
     last run = ActivityRepository.longest_streak_end r) ∧
  (∀ pre run post,
     active_dates mixed_session 1 = pre ++ run ++ post → consecutive run →
     Z.of_nat (length run) ≤ ActivityRepository.longest_streak r).
Proof.
  apply (calculate_streak_longest mixed_session 1 8).
  vm_compute. discriminate.
Defined.

(** X4. When the person's most recent active day is at most one day before
    today, the current streak is the length of the trailing run of
    consecutive active days and starts on that run's first day; when it is
    two or more days before today, the current streak is 0 with no start. *)
Theorem calculate_streak_current (s : Session) (pid today last_activity : Z) :
  last (active_dates s pid) = Some last_activity →
  let r := ActivityRepository.calculate_streak s pid today in
  (today - last_activity ≤ 1 →
     ∃ pre run,
       active_dates s pid = pre ++ run ∧ consecutive run ∧
       last run = Some last_activity ∧ gap_between pre run ∧
       ActivityRepository.current_streak r = Z.of_nat (length run) ∧
       ActivityRepository.current_streak_start r = head run) ∧
  (1 < today - last_activity →
     ActivityRepository.current_streak r = 0 ∧
     ActivityRepository.current_streak_start r = None).
Proof.
  intros Hlast.
  exact (streak_current_is_trailing_run (active_dates s pid) today
           last_activity Hlast).
Qed.

Lemma calculate_streak_current_witness :
  let r := ActivityRepository.calculate_streak mixed_session 1 8 in
  (8 - 8 ≤ 1 →
     ∃ pre run,
       active_dates mixed_session 1 = pre ++ run ∧ consecutive run ∧
       last run = Some 8 ∧ gap_between pre run ∧
       ActivityRepository.current_streak r = Z.of_nat (length run) ∧
       ActivityRepository.current_streak_start r = head run) ∧
  (1 < 8 - 8 →
     ActivityRepository.current_streak r = 0 ∧
     ActivityRepository.current_streak_start r = None).
Proof.
  apply (calculate_streak_current mixed_session 1 8 8).
  vm_compute. reflexivity.
Defined.

(** ** Aggregation *)


Lemma try_aggregate_ok (s : Session) (pid d : Z) :
  (length (summaries_for pid d (activity_summaries s)) ≤ 1)%nat →
  ∃ s', ActivityStatsService.try_aggregate s pid d
        = (s', Ok (expected_summary s pid d)) ∧
    summaries_for pid d (activity_summaries s') = [expected_summary s pid d] ∧
    (∀ pid' d', (pid', d') ≠ (pid, d) →
       summaries_for pid' d' (activity_summaries s')
       = summaries_for pid' d' (activity_summaries s)) ∧
    conversation_activities s' = conversation_activities s ∧
    task_activities s' = task_activities s.
Proof.
  intros Hone.
  destruct (aggregate_run s pid d Hone) as (s' & Hrun & Hkey & Hoth & _ & Hc & Ht).
  exists s'. unfold ActivityStatsService.try_aggregate. by rewrite Hrun.
Qed.

(** The inner loop on a table with at most one row per (person, day): every
    aggregation succeeds. *)
Lemma for_persons_all_succeed (people : list Person) (d : Z) (s : Session)
    (count : Z) (log : list ActivityStatsService.aggregation_failed) :
  one_row_per_day (activity_summaries s) →
  let R := ActivityStatsService.for_persons ActivityStatsService.try_aggregate
             people d s count log in
  one_row_per_day (activity_summaries R.1.1) ∧
  R.1.2 = count + Z.of_nat (length people) ∧
  R.2 = log ∧
  conversation_activities R.1.1 = conversation_activities s ∧
  task_activities R.1.1 = task_activities s ∧
  (∀ p, p ∈ people →
     summaries_for (person_id p) d (activity_summaries R.1.1)
     = [expected_summary s (person_id p) d]) ∧
  (∀ pid' d', (∀ p, p ∈ people → (person_id p, d) ≠ (pid', d')) →
     summaries_for pid' d' (activity_summaries R.1.1)
     = summaries_for pid' d' (activity_summaries s)).
Proof.
  revert s count log.
  induction people as [|person rest IH]; intros s count log Hinv.
  - simpl. repeat split; try done; [lia|]. intros p Hp. by apply elem_of_nil in Hp.
  - cbn [ActivityStatsService.for_persons].
    destruct (try_aggregate_ok s (person_id person) d (Hinv _ _))
      as (s1 & Hstep & Hkey & Hoth & Hc & Ht).
    rewrite Hstep.
    assert (Hinv1 : one_row_per_day (activity_summaries s1)).
    { intros pid' d'. destruct (decide ((pid', d') = (person_id person, d)))
        as [[= -> ->]|Hne].
      - by rewrite Hkey.
      - rewrite (Hoth _ _ Hne). apply Hinv. }
    destruct (IH s1 (count + 1) log Hinv1)
      as (HinvR & HcountR & HlogR & HcR & HtR & HrowsR & HothR).
    set (R := ActivityStatsService.for_persons _ rest d s1 (count + 1) log) in *.
    assert (Hexp : ∀ pid', expected_summary s1 pid' d = expected_summary s pid' d)
      by (intros; by apply expected_summary_ledger).
    split; [done|]. split; [rewrite HcountR; simpl; lia|]. split; [done|].
    split; [congruence|]. split; [congruence|]. split.
    + intros p Hp.
      destruct (decide (person_id p ∈ person_id <$> rest)) as [Hin|Hnot].
      * apply list_elem_of_fmap in Hin as (q & Hid & Hq).
        rewrite Hid, (HrowsR q Hq). by rewrite Hexp.
      * assert (Hrest : ∀ q, q ∈ rest → person_id q ≠ person_id p).
        { intros q Hq Hid. apply Hnot, list_elem_of_fmap. eauto. }
        apply elem_of_cons in Hp as [->|Hp]; [|by destruct (Hrest p Hp)].
        rewrite HothR; [done|].
        intros q Hq [= Hid]. by apply (Hrest q).
    + intros pid' d' Hno. rewrite HothR.
      * apply Hoth. intros Heq. apply (Hno person); [left|done].
      * intros q Hq. apply Hno. by right.
Qed.

Lemma while_days_all_succeed (people : list Person) (cur e : Z) (s : Session)
    (count : Z) (log : list ActivityStatsService.aggregation_failed) :
  one_row_per_day (activity_summaries s) →
  let R := ActivityStatsService.while_days ActivityStatsService.try_aggregate
             people cur e s count log in
  one_row_per_day (activity_summaries R.1.1) ∧
  R.1.2 = count + Z.of_nat (length people) * Z.max 0 (e + 1 - cur) ∧
  R.2 = log ∧
  conversation_activities R.1.1 = conversation_activities s ∧
  task_activities R.1.1 = task_activities s ∧
  (∀ p d, p ∈ people → cur ≤ d ≤ e →
     summaries_for (person_id p) d (activity_summaries R.1.1)
     = [expected_summary s (person_id p) d]) ∧
  (∀ pid' d', (d' < cur ∨ e < d' ∨ ∀ p, p ∈ people → person_id p ≠ pid') →
     summaries_for pid' d' (activity_summaries R.1.1)
     = summaries_for pid' d' (activity_summaries s)).
Proof.
  remember (Z.to_nat (e + 1 - cur)) as n eqn:Hn.
  revert cur s count log Hn.
  induction n as [|n IH]; intros cur s count log Hn Hinv.
  - rewrite while_days_unfold, decide_False by lia. simpl.
    repeat split; try done; [lia|]. intros p d _ Hd. lia.
  - rewrite while_days_unfold, decide_True by lia. cbv zeta.
    destruct (for_persons_all_succeed people cur s count log Hinv)
      as (Hinv1 & Hcount1 & Hlog1 & Hc1 & Ht1 & Hrows1 & Hoth1).
    set (R1 := ActivityStatsService.for_persons _ people cur s count log) in *.
    destruct (IH (cur + 1) R1.1.1 R1.1.2 R1.2 ltac:(lia) Hinv1)
      as (HinvR & HcountR & HlogR & HcR & HtR & HrowsR & HothR).
    split; [done|]. split; [rewrite HcountR, Hcount1; nia|].
    split; [congruence|]. split; [congruence|]. split; [congruence|]. split.
    + intros p d Hp Hd. destruct (decide (d = cur)) as [->|Hne].
      * rewrite HothR by (left; lia). by apply Hrows1.
      * rewrite (HrowsR p d Hp) by lia.
        by rewrite (expected_summary_ledger s R1.1.1).
    + intros pid' d' Hout. rewrite HothR.
      * apply Hoth1. intros p Hp [= Hid Hd].
        destruct Hout as [Hlt|[Hgt|Hnot]]; [lia|lia|by apply (Hnot p)].
      * destruct Hout as [Hlt|[Hgt|Hnot]]; [left; lia|by right; left|by right; right].
Qed.

(** X6. On a summary table with at most one row per (person, day), a bulk
    aggregation over a range of days never fails: the error log is empty, the
    count is the number of fetched persons times the number of days, the
    ledger is untouched, and afterwards every fetched person has exactly one
    row on every day of the range, holding the counts and score of that day
    (a zero row for a day without activity), so the series has no gap. *)
Theorem bulk_aggregate_gap_free (s : Session) (start_date end_date : Z) :
  one_row_per_day (activity_summaries s) →
  let people := (PersonRepository.get_all s 0 10000).1 in
  let R := ActivityStatsService.bulk_aggregate_daily_activities
             s start_date end_date in
  R.2 = [] ∧
  R.1.2 = Z.of_nat (length people) * Z.max 0 (end_date + 1 - start_date) ∧
  conversation_activities R.1.1 = conversation_activities s ∧
  task_activities R.1.1 = task_activities s ∧
  one_row_per_day (activity_summaries R.1.1) ∧
  (∀ p d, p ∈ people → start_date ≤ d ≤ end_date →
     summaries_for (person_id p) d (activity_summaries R.1.1)
     = [expected_summary s (person_id p) d]).
Proof.
  intros Hinv people R.
  destruct (while_days_all_succeed people start_date end_date s 0 [] Hinv)
    as (HinvR & HcountR & HlogR & HcR & HtR & HrowsR & _).
  fold R in HinvR, HcountR, HlogR, HcR, HtR, HrowsR.
  repeat split; done.
Qed.

Lemma bulk_aggregate_gap_free_witness :
  let people := (PersonRepository.get_all example_session 0 10000).1 in
  let R := ActivityStatsService.bulk_aggregate_daily_activities
             example_session (example_day - 1) (example_day + 1) in
  R.2 = [] ∧
  R.1.2 = Z.of_nat (length people)
          * Z.max 0 (example_day + 1 + 1 - (example_day - 1)) ∧
  conversation_activities R.1.1 = conversation_activities example_session ∧
  task_activities R.1.1 = task_activities example_session ∧
  one_row_per_day (activity_summaries R.1.1) ∧
  (∀ p d, p ∈ people → example_day - 1 ≤ d ≤ example_day + 1 →
     summaries_for (person_id p) d (activity_summaries R.1.1)
     = [expected_summary example_session (person_id p) d]).
Proof.
  apply (bulk_aggregate_gap_free example_session
           (example_day - 1) (example_day + 1)).
  intros pid d. vm_compute. lia.
Defined.

(** *** Pages of persons *)

Lemma string_compare_trans (c : comparison) (s1 s2 s3 : string) :
  String.compare s1 s2 = c → String.compare s2 s3 = c →
  String.compare s1 s3 = c.
Proof.
  revert s2 s3. induction s1 as [|a1 s1 IH]; intros [|a2 s2] [|a3 s3];
    simpl; try congruence.
  unfold Ascii.compare.
  destruct (N.compare_spec (Ascii.N_of_ascii a1) (Ascii.N_of_ascii a2)) as [E12|L12|G12];
    destruct (N.compare_spec (Ascii.N_of_ascii a2) (Ascii.N_of_ascii a3)) as [E23|L23|G23];
    intros H1 H2; subst; try congruence.
  - rewrite E12, E23, N.compare_refl. by eapply IH.
  - rewrite E12. by apply N.compare_lt_iff in L23 as ->.
  - rewrite E12. by apply N.compare_gt_iff in G23 as ->.
  - rewrite <- E23. by apply N.compare_lt_iff in L12 as ->.
  - assert (Ascii.N_of_ascii a1 < Ascii.N_of_ascii a3)%N as Hlt by lia.
    by apply N.compare_lt_iff in Hlt as ->.
  - rewrite <- E23. by apply N.compare_gt_iff in G12 as ->.
  - assert (Ascii.N_of_ascii a3 < Ascii.N_of_ascii a1)%N as Hlt by lia.
    by apply N.compare_gt_iff in Hlt as ->.
Qed.

Lemma by_username_transitive : Transitive PersonRepository.by_username.
Proof.
  intros a b c. unfold PersonRepository.by_username, String.leb.
  destruct (String.compare (person_username a) (person_username b)) eqn:Hab;
    destruct (String.compare (person_username b) (person_username c)) eqn:Hbc;
    try done; intros _ _.
  - by rewrite (string_compare_trans Eq _ _ _ Hab Hbc).
  - apply String.compare_eq_iff in Hab. by rewrite Hab, Hbc.
  - apply String.compare_eq_iff in Hbc. by rewrite <- Hbc, Hab.
  - by rewrite (string_compare_trans Lt _ _ _ Hab Hbc).
Qed.

Lemma by_username_total : Total PersonRepository.by_username.
Proof. intros a b. apply String.leb_total. Qed.

Lemma StronglySorted_sublist {A : Type} (R : relation A) (k l : list A) :
  k `sublist_of` l → StronglySorted R l → StronglySorted R k.
Proof.
  induction 1 as [|x k l Hsub IH|x k l Hsub IH]; intros Hl.
  - constructor.
  - apply StronglySorted_inv in Hl as [Hl Hall]. constructor; [by apply IH|].
    apply Forall_forall. intros y Hy. rewrite Forall_forall in Hall.
    apply Hall. eapply elem_of_submseteq; [exact Hy|by apply sublist_submseteq].
  - apply StronglySorted_inv in Hl as [Hl _]. by apply IH.
Qed.

(** X7. A page of persons: for [skip, limit >= 0], [get_all] returns the
    size of the whole table as total whatever the page, and a page of
    exactly min(limit, max(0, total - skip)) persons, every one a row of the
    table and none returned more often than the table holds it, in
    non-decreasing order of username. *)
Theorem get_all_page (s : Session) (skip limit : Z) :
  0 ≤ skip → 0 ≤ limit →
  let page := (PersonRepository.get_all s skip limit).1 in
  let total := (PersonRepository.get_all s skip limit).2 in
  total = Z.of_nat (length (persons s)) ∧
  Z.of_nat (length page) = Z.min limit (Z.max 0 (total - skip)) ∧
  page ⊆+ persons s ∧
  StronglySorted PersonRepository.by_username page.
Proof.
  intros Hskip Hlimit. unfold PersonRepository.get_all. simpl.
  split; [done|].
  pose proof (merge_sort_Permutation PersonRepository.by_username (persons s))
    as Hperm.
  assert (take (Z.to_nat limit) (drop (Z.to_nat skip)
            (merge_sort PersonRepository.by_username (persons s)))
          `sublist_of` merge_sort PersonRepository.by_username (persons s))
    as Hsub by (etrans; [apply sublist_take|apply sublist_drop]).
  split; [|split].
  - rewrite length_take, length_drop, (Permutation_length Hperm). lia.
  - etrans; [by apply sublist_submseteq|by apply Permutation_submseteq].
  - eapply StronglySorted_sublist; [exact Hsub|].
    apply StronglySorted_merge_sort;
      [apply by_username_transitive|apply by_username_total].
Qed.

Lemma get_all_page_witness :
  let page := (PersonRepository.get_all mixed_session 1 5).1 in
  let total := (PersonRepository.get_all mixed_session 1 5).2 in
  total = Z.of_nat (length (persons mixed_session)) ∧
  Z.of_nat (length page) = Z.min 5 (Z.max 0 (total - 1)) ∧
  page ⊆+ persons mixed_session ∧
  StronglySorted PersonRepository.by_username page.
Proof. apply (get_all_page mixed_session 1 5); lia. Defined.

Lemma filter_key_present {A K : Type} `{EqDecision K} (f : A → K) (k : K)
    (l : list A) :
  filter (λ x, f x = k) l = [] ↔ k ∉ f <$> l.
Proof.
  split.
  - intros Hnone [x [Hk Hx]]%list_elem_of_fmap.
    assert (x ∈ filter (λ x, f x = k) l) as Hin
      by (apply list_elem_of_filter; split; [done|done]).
    rewrite Hnone in Hin. by apply elem_of_nil in Hin.
  - intros Hno. apply filter_none. intros x Hx Hk. apply Hno.
    apply list_elem_of_fmap. by exists x.
Qed.

Lemma get_or_create_found (s : Session) (person : Person)
    (avatar_url : option string) :
  filter (λ p, person_notion_id p = person_notion_id person) (persons s)
  = [person] →
  avatar_url = person_avatar_url person →
  PersonRepository.get_or_create_by_notion_id s (person_notion_id person)
    (person_username person) avatar_url
  = Ok (person, false, s).
Proof.
  intros Hfound ->.
  unfold PersonRepository.get_or_create_by_notion_id,
    PersonRepository.get_by_notion_id.
  rewrite Hfound. simpl.
  by rewrite !bool_decide_eq_false_2 by (intros Hne; by apply Hne).
Qed.

Lemma get_or_create_run (s : Session)
    (notion_id username : string) (avatar_url : option string) :
  NoDup (person_notion_id <$> persons s) →
  ∃ person created s',
    PersonRepository.get_or_create_by_notion_id s notion_id username avatar_url
    = Ok (person, created, s') ∧
    (created = true ↔ notion_id ∉ person_notion_id <$> persons s) ∧
    person_notion_id person = notion_id ∧
    person_username person = username ∧
    person_avatar_url person = avatar_url ∧
    person_notion_id <$> persons s'
    = (person_notion_id <$> persons s) ++ (if created then [notion_id] else []) ∧
    (λ p, (person_notion_id p, person_id p)) <$> persons s'
    = ((λ p, (person_notion_id p, person_id p)) <$> persons s)
      ++ (if created then [(notion_id, person_id person)] else []) ∧
    conversation_activities s' = conversation_activities s ∧
    task_activities s' = task_activities s ∧
    activity_summaries s' = activity_summaries s ∧
    NoDup (person_notion_id <$> persons s') ∧
    filter (λ p, person_notion_id p = notion_id) (persons s') = [person] ∧
    filter (λ p, person_notion_id p ≠ notion_id) (persons s')
    = filter (λ p, person_notion_id p ≠ notion_id) (persons s) ∧
    PersonRepository.get_or_create_by_notion_id s' notion_id username avatar_url
    = Ok (person, false, s').
Proof.
  intros Hnd.
  pose proof (filter_key_NoDup person_notion_id notion_id (persons s) Hnd)
    as Hlen.
  pose proof (filter_key_present person_notion_id notion_id (persons s))
    as Hpresent.
  unfold PersonRepository.get_or_create_by_notion_id at 1,
    PersonRepository.get_by_notion_id at 1.
  destruct (filter (λ p, person_notion_id p = notion_id) (persons s))
    as [|p [|q rest]] eqn:Hfilter; [| |simpl in Hlen; lia].
  - (* no such person: create *)
    assert (Hno : notion_id ∉ person_notion_id <$> persons s)
      by by apply Hpresent.
    simpl.
    set (person := {| person_id := Z.of_nat (length (persons s)) + 1;
                      person_notion_id := notion_id;
                      person_username := username;
                      person_avatar_url := avatar_url;
                      person_email := None |}).
    assert (Hnew : filter (λ p, person_notion_id p = notion_id)
                     (persons s ++ [person]) = [person]).
    { by rewrite filter_app, Hfilter, filter_cons_True by done. }
    exists person, true, (set_persons (persons s ++ [person]) s).
    split; [done|]. split; [done|]. do 3 (split; [done|]).
    split; [simpl; by rewrite fmap_app|].
    split; [simpl; by rewrite fmap_app|]. do 3 (split; [done|]). split.
    { simpl. rewrite fmap_app. apply NoDup_app. split; [done|]. split.
      - intros x Hx [->|[]%elem_of_nil]%elem_of_cons. by apply Hno.
      - apply NoDup_singleton. }
    split; [done|]. split.
    { simpl. rewrite filter_app, filter_cons_False, filter_nil, app_nil_r; [done|].
      intros Hne. by apply Hne. }
    by apply (get_or_create_found (set_persons (persons s ++ [person]) s) person).
  - (* the person exists *)
    assert (Hp : person_notion_id p = notion_id).
    { assert (p ∈ filter (λ p, person_notion_id p = notion_id) (persons s))
        as Hin by (rewrite Hfilter; left).
      by apply list_elem_of_filter in Hin as [? _]. }
    assert (Hyes : ¬ (notion_id ∉ person_notion_id <$> persons s)).
    { intros Hno. apply Hpresent in Hno. congruence. }
    simpl.
    destruct (bool_decide (person_username p ≠ username)
              || bool_decide (person_avatar_url p ≠ avatar_url)) eqn:Hchanged.
    + set (person := {| person_id := person_id p;
                        person_notion_id := person_notion_id p;
                        person_username := username;
                        person_avatar_url := avatar_url;
                        person_email := person_email p |}).
      set (s' := set_persons
                   (replace_if (λ p, person_notion_id p = notion_id) person
                      <$> persons s) s).
      assert (Hids : person_notion_id <$> persons s'
                     = person_notion_id <$> persons s).
      { simpl. rewrite <- list_fmap_compose. apply list_fmap_ext.
        intros i x _. simpl. unfold replace_if.
        destruct (decide (person_notion_id x = notion_id)) as [Hx|Hx];
          [unfold person; simpl; congruence|done]. }
      assert (Hnew : filter (λ p, person_notion_id p = notion_id) (persons s')
                     = [person]).
      { simpl. rewrite filter_replace_same by done. by rewrite Hfilter. }
      exists person, false, s'.
      split; [done|]. split; [split; [done|intros Hno; by destruct Hyes]|].
      do 3 (split; [done|]).
      split; [by rewrite Hids, app_nil_r|].
      split.
      { simpl. rewrite app_nil_r, <- list_fmap_compose. apply list_fmap_ext.
        intros i x Hix. simpl. unfold replace_if.
        destruct (decide (person_notion_id x = notion_id)) as [Hx|Hx]; [|done].
        unfold person. simpl. f_equal; [congruence|].
        assert (x ∈ filter (λ p, person_notion_id p = notion_id) (persons s))
          as Hin.
        { apply list_elem_of_filter. split; [done|].
          by eapply list_elem_of_lookup_2. }
        rewrite Hfilter in Hin. by apply list_elem_of_singleton in Hin as ->. }
      do 3 (split; [done|]). split; [by rewrite Hids|].
      split; [done|]. split.
      { simpl. apply filter_replace_other.
        - intros Hne. by apply Hne.
        - intros r Hr Hne. by apply Hne. }
      rewrite <- Hp in Hnew |- *.
      by apply (get_or_create_found s' person).
    + apply orb_false_iff in Hchanged as [Hu Ha].
      apply bool_decide_eq_false in Hu, Ha.
      apply dec_stable in Hu, Ha.
      exists p, false, s.
      split; [done|]. split; [split; [done|intros Hno; by destruct Hyes]|].
      do 3 (split; [done|]).
      split; [by rewrite app_nil_r|]. split; [by rewrite app_nil_r|].
      do 3 (split; [done|]). split; [done|].
      split; [done|]. split; [done|].
      subst username avatar_url notion_id.
      by apply (get_or_create_found s p).
Qed.

(** X8. On a persons table with distinct Notion ids,
    [get_or_create_by_notion_id] returns; the flag [created] is true exactly
    when no person had the Notion id; the returned person carries the given
    Notion id, username and avatar; afterwards the Notion ids are still
    distinct (one more when created, the same otherwise), the returned
    person is the only row with that Notion id, the rows with other Notion
    ids are untouched, and a second call with the same arguments finds that
    person, creates nothing and changes nothing. *)
Theorem get_or_create_by_notion_id_once (s : Session)
    (notion_id username : string) (avatar_url : option string) :
  NoDup (person_notion_id <$> persons s) →
  ∃ person created s',
    PersonRepository.get_or_create_by_notion_id s notion_id username avatar_url
    = Ok (person, created, s') ∧
    (created = true ↔ notion_id ∉ person_notion_id <$> persons s) ∧
    person_notion_id person = notion_id ∧
    person_username person = username ∧
    person_avatar_url person = avatar_url ∧
    person_notion_id <$> persons s'
    = (person_notion_id <$> persons s) ++ (if created then [notion_id] else []) ∧
    NoDup (person_notion_id <$> persons s') ∧
    filter (λ p, person_notion_id p = notion_id) (persons s') = [person] ∧
    filter (λ p, person_notion_id p ≠ notion_id) (persons s')
    = filter (λ p, person_notion_id p ≠ notion_id) (persons s) ∧
    PersonRepository.get_or_create_by_notion_id s' notion_id username avatar_url
    = Ok (person, false, s').
Proof.
  intros Hnd.
  destruct (get_or_create_run s notion_id username avatar_url Hnd)
    as (person & created & s' & Hrun & Hflag & Hid & Hname & Havatar & Hids
        & _ & _ & _ & _ & Hnd' & Hone & Hothers & Hagain).
  by exists person, created, s'.
Qed.

Lemma get_or_create_by_notion_id_once_witness :
  ∃ person created s',
    PersonRepository.get_or_create_by_notion_id mixed_session
      "notion-new" "dana" None
    = Ok (person, created, s') ∧
    (created = true
     ↔ "notion-new" ∉ person_notion_id <$> persons mixed_session) ∧
    person_notion_id person = "notion-new" ∧
    person_username person = "dana" ∧
    person_avatar_url person = None ∧
    person_notion_id <$> persons s'
    = (person_notion_id <$> persons mixed_session)
      ++ (if created then ["notion-new"] else []) ∧
    NoDup (person_notion_id <$> persons s') ∧
    filter (λ p, person_notion_id p = "notion-new") (persons s') = [person] ∧
    filter (λ p, person_notion_id p ≠ "notion-new") (persons s')
    = filter (λ p, person_notion_id p ≠ "notion-new") (persons mixed_session) ∧
    PersonRepository.get_or_create_by_notion_id s' "notion-new" "dana" None
    = Ok (person, false, s').
Proof.
  apply (get_or_create_by_notion_id_once mixed_session "notion-new" "dana" None).
  apply (bool_decide_unpack _). vm_compute. reflexivity.
Defined.

(** *** The dicts prepared for one page *)

Lemma get_or_create_keeps_persons (s s' : Session) (added : list (string * Z)) :
  (λ p, (person_notion_id p, person_id p)) <$> persons s'
  = ((λ p, (person_notion_id p, person_id p)) <$> persons s) ++ added →
  ∀ p, p ∈ persons s →
       ∃ p', p' ∈ persons s' ∧ person_notion_id p' = person_notion_id p ∧
             person_id p' = person_id p.
Proof.
  intros Hkeys p Hp.
  assert ((person_notion_id p, person_id p)
          ∈ (λ p, (person_notion_id p, person_id p)) <$> persons s') as Hin.
  { rewrite Hkeys. apply elem_of_app. left.
    apply list_elem_of_fmap. by exists p. }
  apply list_elem_of_fmap in Hin as (p' & [= Hn Hi] & Hp').
  by exists p'.
Qed.

(** X9. The loop of [sync_tasks] over the assignees of a done page, on a
    persons table with distinct Notion ids: it does not raise, appends one
    dict per assignee in the assignees' order, each with the page's id,
    title, project and completion time and with the [person_id] of the
    person that holds the assignee's Notion id afterwards; persons keep their
    ids and Notion ids, the Notion ids stay distinct and the activity tables
    are not touched. *)
Theorem prepare_task_activities_assignees (page : ActivitySyncService.done_page)
    (assigned_people : list ActivitySyncService.person_data) (s : Session)
    (task_activities0 : list ActivityRepository.task_dict) :
  NoDup (person_notion_id <$> persons s) →
  ∃ new s',
    ActivitySyncService.prepare_task_activities page assigned_people s
      task_activities0
    = Ok (task_activities0 ++ new, s') ∧
    Forall2
      (λ pd t,
         ActivityRepository.td_notion_task_id t
         = ActivitySyncService.page_id page ∧
         ActivityRepository.td_task_title t
         = ActivitySyncService.page_title page ∧
         ActivityRepository.td_project_name t
         = ActivitySyncService.page_project_name page ∧
         ActivityRepository.td_completed_at t
         = ActivitySyncService.page_completed_at page ∧
         ∃ p, p ∈ persons s' ∧
              person_notion_id p = ActivitySyncService.pd_id pd ∧
              person_id p = ActivityRepository.td_person_id t)
      assigned_people new ∧
    (∀ p, p ∈ persons s →
          ∃ p', p' ∈ persons s' ∧ person_notion_id p' = person_notion_id p ∧
                person_id p' = person_id p) ∧
    NoDup (person_notion_id <$> persons s') ∧
    conversation_activities s' = conversation_activities s ∧
    task_activities s' = task_activities s ∧
    activity_summaries s' = activity_summaries s.
Proof.
  revert s task_activities0.
  induction assigned_people as [|pd people IH]; intros s acc Hnd.
  - exists [], s. rewrite app_nil_r. split; [done|]. split; [constructor|].
    split; [|done]. intros p Hp. by exists p.
  - destruct (get_or_create_run s (ActivitySyncService.pd_id pd)
                (ActivitySyncService.pd_name pd)
                (ActivitySyncService.pd_avatar_url pd) Hnd)
      as (person & created & s1 & Hrun & _ & Hid & _ & _ & _ & Hkeys
          & Hc1 & Ht1 & Hs1 & Hnd1 & Hone & _ & _).
    cbn [ActivitySyncService.prepare_task_activities].
    rewrite Hrun. cbn [mbind result_bind].
    edestruct (IH s1) as (new & s' & Hrest & Hall & Hkeep & Hnd' & Hc & Ht & Hs);
      [exact Hnd1|].
    rewrite Hrest, <- app_assoc.
    eexists (_ :: new), s'. split; [done|].
    pose proof (get_or_create_keeps_persons s s1 _ Hkeys) as Hkeep1.
    split; [|split; [|split; [done|split; [|split]]; congruence]].
    + constructor; [|done]. simpl. do 4 (split; [done|]).
      assert (person ∈ persons s1) as Hin.
      { assert (person ∈ filter (λ p, person_notion_id p
                                      = ActivitySyncService.pd_id pd)
                           (persons s1)) as Hin by (rewrite Hone; left).
        by apply list_elem_of_filter in Hin as [_ ?]. }
      destruct (Hkeep person Hin) as (p' & Hp' & Hn & Hi).
      exists p'. split; [done|]. split; congruence.
    + intros p Hp. destruct (Hkeep1 p Hp) as (p1 & Hp1 & Hn1 & Hi1).
      destruct (Hkeep p1 Hp1) as (p' & Hp' & Hn & Hi).
      exists p'. split; [done|]. split; congruence.
Qed.

Lemma prepare_task_activities_assignees_witness :
  ∃ new s',
    ActivitySyncService.prepare_task_activities shared_page
      (ActivitySyncService.page_assigned_people shared_page) mixed_session []
    = Ok ([] ++ new, s') ∧
    Forall2
      (λ pd t,
         ActivityRepository.td_notion_task_id t
         = ActivitySyncService.page_id shared_page ∧
         ActivityRepository.td_task_title t
         = ActivitySyncService.page_title shared_page ∧
         ActivityRepository.td_project_name t
         = ActivitySyncService.page_project_name shared_page ∧
         ActivityRepository.td_completed_at t
         = ActivitySyncService.page_completed_at shared_page ∧
         ∃ p, p ∈ persons s' ∧
              person_notion_id p = ActivitySyncService.pd_id pd ∧
              person_id p = ActivityRepository.td_person_id t)
      (ActivitySyncService.page_assigned_people shared_page) new ∧
    (∀ p, p ∈ persons mixed_session →
          ∃ p', p' ∈ persons s' ∧ person_notion_id p' = person_notion_id p ∧
                person_id p' = person_id p) ∧
    NoDup (person_notion_id <$> persons s') ∧
    conversation_activities s' = conversation_activities mixed_session ∧
    task_activities s' = task_activities mixed_session ∧
    activity_summaries s' = activity_summaries mixed_session.
Proof.
  apply (prepare_task_activities_assignees shared_page
           (ActivitySyncService.page_assigned_people shared_page)
           mixed_session []).
  apply (bool_decide_unpack _). vm_compute. reflexivity.
Defined.

(** *** Re-running a task sync *)

Lemma bulk_create_tasks_from_app (now : Z)
    (tasks1 tasks2 : list ActivityRepository.task_dict) (s : Session)
    (created : list TaskActivity) :
  ActivityRepository.bulk_create_tasks_from now (tasks1 ++ tasks2) s created
  = r ← ActivityRepository.bulk_create_tasks_from now tasks1 s created;
    ActivityRepository.bulk_create_tasks_from now tasks2 r.2 r.1.
Proof.
  revert s created. induction tasks1 as [|d tasks1 IH]; intros s created.
  - done.
  - rewrite <- app_comm_cons.
    cbn [ActivityRepository.bulk_create_tasks_from].
    destruct (ActivityRepository.get_task_by_notion_id s _) as [[e|]|err];
      cbn [mbind result_bind]; [apply IH| |done].
    cbn [ActivityRepository.create_task_activity]. apply IH.
Qed.

Lemma update_existing_task_fields (now : Z) (d : ActivityRepository.task_dict)
    (t : TaskActivity) :
  ActivityRepository.update_existing_task now d t
  = {| task_id := task_id t;
       task_person_id := task_person_id t;
       task_notion_task_id := task_notion_task_id t;
       task_task_title :=
         if truthy_str (ActivityRepository.td_task_title d)
         then ActivityRepository.td_task_title d else task_task_title t;
       task_project_name := ActivityRepository.td_project_name d;
       task_completed_at := ActivityRepository.td_completed_at d;
       task_last_status_change :=
         if bool_decide (is_Some (ActivityRepository.td_last_status_change d))
         then ActivityRepository.td_last_status_change d
         else task_last_status_change t;
       task_last_synced_at := now;
       task_notion_metadata :=
         if truthy_json (ActivityRepository.td_notion_metadata d)
            && negb (truthy_json (task_notion_metadata t))
         then ActivityRepository.td_notion_metadata d
         else task_notion_metadata t |}.
Proof.
  unfold ActivityRepository.update_existing_task. f_equal.
  - destruct (truthy_str _); [|done]. simpl.
    case_bool_decide as Hne; [done|]. first [congruence|by apply dec_stable in Hne].
  - case_bool_decide as Hne; [done|]. first [congruence|by apply dec_stable in Hne].
  - case_bool_decide as Hne; [done|]. first [congruence|by apply dec_stable in Hne].
  - destruct (bool_decide (is_Some _)); [|done]. simpl.
    case_bool_decide as Hne; [done|]. first [congruence|by apply dec_stable in Hne].
Qed.

Lemma update_without_sync_time (now : Z) (d : ActivityRepository.task_dict)
    (t : TaskActivity) :
  without_sync_time (ActivityRepository.update_existing_task now d t)
  = ActivityRepository.update_existing_task 0 d (without_sync_time t).
Proof. done. Qed.

Lemma update_fixes_created (n now : Z) (d : ActivityRepository.task_dict)
    (s : Session) :
  ActivityRepository.update_existing_task 0 d
    (without_sync_time (ActivityRepository.create_task_activity s now d).1)
  = without_sync_time (ActivityRepository.create_task_activity s now d).1.
Proof.
  rewrite update_existing_task_fields. simpl.
  unfold without_sync_time. simpl. f_equal.
  - by destruct (truthy_str _).
  - by destruct (bool_decide _).
  - by destruct (truthy_json _).
Qed.

Lemma foldl_overwrite_idem {A B : Type} (c : B → bool) (v : B → A)
    (l : list B) (x : A) :
  foldl (λ x d, if c d then v d else x)
    (foldl (λ x d, if c d then v d else x) x l) l
  = foldl (λ x d, if c d then v d else x) x l.
Proof.
  revert x. induction l as [|d l IH] using rev_ind; intros x; [done|].
  rewrite !foldl_app. simpl. destruct (c d); [done|]. apply IH.
Qed.

Lemma foldl_fill_fixed (l : list ActivityRepository.task_dict) (x : option json) :
  truthy_json x = true →
  foldl (λ x d, if truthy_json (ActivityRepository.td_notion_metadata d)
                   && negb (truthy_json x)
                then ActivityRepository.td_notion_metadata d else x) x l = x.
Proof.
  intros Hx. induction l as [|d l IH]; [done|].
  simpl. by rewrite Hx, andb_false_r.
Qed.

Lemma foldl_fill_idem (l : list ActivityRepository.task_dict) (x : option json) :
  let G := λ x d, if truthy_json (ActivityRepository.td_notion_metadata d)
                     && negb (truthy_json x)
                  then ActivityRepository.td_notion_metadata d else x in
  foldl G (foldl G x l) l = foldl G x l.
Proof.
  intros G.
  assert (Hcases : ∀ l x, foldl G x l = x ∨ truthy_json (foldl G x l) = true).
  { clear. intros l. induction l as [|d l IH]; intros x; [by left|].
    simpl. unfold G at 2 4.
    destruct (truthy_json (ActivityRepository.td_notion_metadata d)) eqn:Hd;
      destruct (truthy_json x) eqn:Hx; simpl; try apply IH.
    right. unfold G. by rewrite foldl_fill_fixed. }
  destruct (Hcases l x) as [Heq|Htrue]; [by rewrite !Heq|].
  unfold G. by apply foldl_fill_fixed.
Qed.

Lemma foldl_update_fields (l : list ActivityRepository.task_dict)
    (t : TaskActivity) :
  foldl (λ c d, ActivityRepository.update_existing_task 0 d c)
    (without_sync_time t) l
  = {| task_id := task_id t;
       task_person_id := task_person_id t;
       task_notion_task_id := task_notion_task_id t;
       task_task_title :=
         foldl (λ x d, if truthy_str (ActivityRepository.td_task_title d)
                       then ActivityRepository.td_task_title d else x)
           (task_task_title t) l;
       task_project_name :=
         foldl (λ x d, if true then ActivityRepository.td_project_name d else x)
           (task_project_name t) l;
       task_completed_at :=
         foldl (λ x d, if true then ActivityRepository.td_completed_at d else x)
           (task_completed_at t) l;
       task_last_status_change :=
         foldl (λ x d,
                  if bool_decide
                       (is_Some (ActivityRepository.td_last_status_change d))
                  then ActivityRepository.td_last_status_change d else x)
           (task_last_status_change t) l;
       task_last_synced_at := 0;
       task_notion_metadata :=
         foldl (λ x d, if truthy_json (ActivityRepository.td_notion_metadata d)
                          && negb (truthy_json x)
                       then ActivityRepository.td_notion_metadata d else x)
           (task_notion_metadata t) l |}.
Proof.
  revert t. induction l as [|d l IH]; intros t; [done|].
  cbn [foldl]. rewrite <- update_without_sync_time with (now := 0).
  rewrite IH, update_existing_task_fields. done.
Qed.

(** Applying a list of dicts to a row a second time changes nothing. *)
Lemma foldl_update_idem (l : list ActivityRepository.task_dict)
    (t : TaskActivity) :
  foldl (λ c d, ActivityRepository.update_existing_task 0 d c)
    (foldl (λ c d, ActivityRepository.update_existing_task 0 d c)
       (without_sync_time t) l) l
  = foldl (λ c d, ActivityRepository.update_existing_task 0 d c)
      (without_sync_time t) l.
Proof.
  rewrite (foldl_update_fields l t).
  match goal with
  | |- foldl _ ?r _ = _ =>
      change r with (without_sync_time r); rewrite (foldl_update_fields l r)
  end.
  unfold without_sync_time.
  cbn [task_id task_person_id task_notion_task_id task_task_title
       task_project_name task_completed_at task_last_status_change
       task_notion_metadata].
  f_equal.
  - apply (foldl_overwrite_idem
             (λ d, truthy_str (ActivityRepository.td_task_title d))
             ActivityRepository.td_task_title).
  - apply (foldl_overwrite_idem (λ _, true) ActivityRepository.td_project_name).
  - apply (foldl_overwrite_idem (λ _, true) ActivityRepository.td_completed_at).
  - apply (foldl_overwrite_idem
             (λ d, bool_decide
                     (is_Some (ActivityRepository.td_last_status_change d)))
             ActivityRepository.td_last_status_change).
  - apply foldl_fill_idem.
Qed.

(** One dict of the loop of [bulk_create_tasks], on a ledger with one row per
    Notion task: a new row is appended, or the one existing row is
    refreshed in place. *)
Lemma bulk_create_tasks_one (now : Z) (d : ActivityRepository.task_dict)
    (s : Session) (created : list TaskActivity) :
  one_row_per_task (task_activities s) →
  ((ActivityRepository.td_notion_task_id d
      ∉ task_notion_task_id <$> task_activities s) ∧
   ActivityRepository.bulk_create_tasks_from now [d] s created
   = Ok (created ++ [(ActivityRepository.create_task_activity s now d).1],
         (ActivityRepository.create_task_activity s now d).2))
  ∨ (∃ existing,
       filter (λ t, task_notion_task_id t
                    = ActivityRepository.td_notion_task_id d)
         (task_activities s) = [existing] ∧
       ActivityRepository.bulk_create_tasks_from now [d] s created
       = Ok (created,
             set_task_activities
               (replace_if
                  (λ t, task_notion_task_id t
                        = ActivityRepository.td_notion_task_id d)
                  (ActivityRepository.update_existing_task now d existing)
                  <$> task_activities s) s)).
Proof.
  intros Hinv.
  pose proof (filter_key_NoDup task_notion_task_id
                (ActivityRepository.td_notion_task_id d)
                (task_activities s) Hinv) as Hone.
  cbn [ActivityRepository.bulk_create_tasks_from].
  unfold ActivityRepository.get_task_by_notion_id.
  destruct (filter _ (task_activities s)) as [|existing [|other rest]]
    eqn:Hfound; simpl in Hone; [| |lia].
  - left. split; [|done]. by apply filter_key_present.
  - right. by exists existing.
Qed.

Lemma bulk_create_tasks_from_rows (now : Z)
    (tasks : list ActivityRepository.task_dict) (s : Session)
    (created : list TaskActivity) :
  one_row_per_task (task_activities s) →
  ∃ new s1,
    ActivityRepository.bulk_create_tasks_from now tasks s created
    = Ok (created ++ new, s1) ∧
    one_row_per_task (task_activities s1) ∧
    persons s1 = persons s ∧
    conversation_activities s1 = conversation_activities s ∧
    activity_summaries s1 = activity_summaries s ∧
    length (task_activities s1)
    = (length (task_activities s) + length new)%nat ∧
    (∀ d, d ∈ tasks →
          ActivityRepository.td_notion_task_id d
            ∈ task_notion_task_id <$> task_activities s1) ∧
    (∀ r, r ∈ task_activities s1 →
          ∃ t0, without_sync_time r
                = foldl (λ c d, ActivityRepository.update_existing_task 0 d c)
                    (without_sync_time t0)
                    (filter (λ d, ActivityRepository.td_notion_task_id d
                                  = task_notion_task_id r) tasks)).
Proof.
  revert s created. induction tasks as [|d tasks IH] using rev_ind;
    intros s created Hinv.
  - exists [], s. rewrite app_nil_r. do 5 (split; [done|]).
    split; [simpl; lia|]. split; [by intros d Hd%elem_of_nil|].
    intros r _. by exists r.
  - rewrite bulk_create_tasks_from_app.
    destruct (IH s created Hinv)
      as (new & s1 & -> & Hinv1 & Hp & Hc & Hs & Hlen & Hall & Hrows).
    cbn [mbind result_bind fst snd].
    destruct (bulk_create_tasks_one now d s1 (created ++ new) Hinv1)
      as [[Habsent ->]|(existing & Hfound & ->)].
    + (* a new row *)
      cbn [ActivityRepository.create_task_activity fst snd].
      set (activity := {| task_id := _ |}).
      eexists (new ++ [activity]), _. rewrite app_assoc. split; [done|].
      cbn [task_activities set_task_activities persons
           conversation_activities activity_summaries].
      split.
      { unfold one_row_per_task. rewrite fmap_app. apply NoDup_app.
        split; [done|]. split; [|apply NoDup_singleton].
        intros nid Hin Hnew%list_elem_of_singleton. by subst nid. }
      do 3 (split; [done|]).
      split; [rewrite !length_app, Hlen; simpl; lia|]. split.
      { intros d' [Hd'|Hd'%list_elem_of_singleton]%elem_of_app;
          rewrite fmap_app; apply elem_of_app; [left; by apply Hall|right].
        subst d'. by apply list_elem_of_singleton. }
      intros r [Hr|Hr%list_elem_of_singleton]%elem_of_app; [|subst r].
      * destruct (Hrows r Hr) as (t0 & Ht0). exists t0.
        rewrite filter_app, filter_cons_False, filter_nil, app_nil_r; [done|].
        intros Hd. apply Habsent. rewrite Hd.
        apply list_elem_of_fmap. by exists r.
      * exists activity.
        rewrite filter_app, filter_cons_True, filter_nil by done.
        rewrite (filter_none _ tasks).
        { simpl. symmetry. subst activity.
          apply (update_fixes_created 0 now d s1). }
        intros d' Hd' Heq. simpl in Heq. apply Habsent. rewrite <- Heq.
        by apply Hall.
    + (* the existing row is refreshed *)
      exists new. eexists. split; [done|].
      cbn [task_activities set_task_activities persons
           conversation_activities activity_summaries].
      assert (He : task_notion_task_id existing
                   = ActivityRepository.td_notion_task_id d)
        by exact (existing_id d existing _ Hfound).
      split.
      { unfold one_row_per_task.
        by rewrite (update_keeps_ids now d existing _ Hfound). }
      do 3 (split; [done|]). split; [by rewrite length_fmap|]. split.
      { intros d' Hd'. rewrite (update_keeps_ids now d existing _ Hfound).
        apply elem_of_app in Hd' as [Hd'|Hd'%list_elem_of_singleton];
          [by apply Hall|subst d'].
        rewrite <- He. apply list_elem_of_fmap. exists existing.
        split; [done|].
        assert (existing ∈ filter
                  (λ t, task_notion_task_id t
                        = ActivityRepository.td_notion_task_id d)
                  (task_activities s1)) as Hin by (rewrite Hfound; left).
        by apply list_elem_of_filter in Hin as [_ ?]. }
      intros r' (r & Hr' & Hr)%list_elem_of_fmap. subst r'.
      destruct (Hrows r Hr) as (t0 & Ht0). exists t0.
      destruct (decide (task_notion_task_id r
                        = ActivityRepository.td_notion_task_id d)) as [Hk|Hk].
      * assert (r = existing) as ->.
        { assert (r ∈ filter
                    (λ t, task_notion_task_id t
                          = ActivityRepository.td_notion_task_id d)
                    (task_activities s1)) as Hin
            by (by apply list_elem_of_filter).
          rewrite Hfound in Hin. by apply list_elem_of_singleton in Hin. }
        rewrite (replace_hit _ _ existing Hk).
        cbn [ActivityRepository.update_existing_task task_notion_task_id].
        rewrite filter_app, filter_cons_True, filter_nil by done.
        rewrite foldl_app. simpl. rewrite <- Ht0. done.
      * rewrite (replace_miss _ _ r Hk).
        rewrite filter_app, filter_cons_False, filter_nil, app_nil_r by done.
        done.
Qed.

(** A batch whose tasks all have a row already: nothing is created and every
    row is refreshed by the dicts that name its task. *)
Lemma bulk_create_tasks_from_present (now : Z)
    (tasks : list ActivityRepository.task_dict) (s : Session)
    (created : list TaskActivity) :
  one_row_per_task (task_activities s) →
  (∀ d, d ∈ tasks →
        ActivityRepository.td_notion_task_id d
          ∈ task_notion_task_id <$> task_activities s) →
  ∃ s2,
    ActivityRepository.bulk_create_tasks_from now tasks s created
    = Ok (created, s2) ∧
    persons s2 = persons s ∧
    conversation_activities s2 = conversation_activities s ∧
    activity_summaries s2 = activity_summaries s ∧
    without_sync_time <$> task_activities s2
    = (λ r, foldl (λ c d, ActivityRepository.update_existing_task 0 d c)
              (without_sync_time r)
              (filter (λ d, ActivityRepository.td_notion_task_id d
                            = task_notion_task_id r) tasks))
        <$> task_activities s.
Proof.
  revert s. induction tasks as [|d tasks IH]; intros s Hinv Hall.
  - exists s. do 4 (split; [done|]). apply list_fmap_ext. by intros i r _.
  - change (d :: tasks) with ([d] ++ tasks) at 1.
    rewrite bulk_create_tasks_from_app.
    destruct (bulk_create_tasks_one now d s created Hinv)
      as [[Habsent _]|(existing & Hfound & ->)].
    { destruct Habsent. apply Hall. left. }
    cbn [mbind result_bind fst snd].
    set (s1 := set_task_activities _ s).
    destruct (IH s1) as (s2 & -> & Hp & Hc & Hs & Hrows).
    { unfold one_row_per_task, s1. cbn [task_activities set_task_activities].
      by rewrite (update_keeps_ids now d existing _ Hfound). }
    { intros d' Hd'. unfold s1. cbn [task_activities set_task_activities].
      rewrite (update_keeps_ids now d existing _ Hfound).
      apply Hall. by right. }
    exists s2. split; [done|]. do 3 (split; [done|]).
    rewrite Hrows. unfold s1. cbn [task_activities set_task_activities].
    rewrite <- list_fmap_compose. apply list_fmap_ext. intros i r Hir.
    apply list_elem_of_lookup_2 in Hir. simpl.
    destruct (decide (task_notion_task_id r
                      = ActivityRepository.td_notion_task_id d)) as [Hk|Hk].
    + assert (r = existing) as ->.
      { assert (r ∈ filter
                  (λ t, task_notion_task_id t
                        = ActivityRepository.td_notion_task_id d)
                  (task_activities s)) as Hin
          by (by apply list_elem_of_filter).
        rewrite Hfound in Hin. by apply list_elem_of_singleton in Hin. }
      rewrite (replace_hit _ _ existing Hk).
      cbn [ActivityRepository.update_existing_task task_notion_task_id].
      by rewrite filter_cons_True by done.
    + rewrite (replace_miss _ _ r Hk).
      by rewrite filter_cons_False by done.
Qed.

(** X10. [bulk_create_tasks] is idempotent on a ledger with one row per
    Notion task: a run creates one row per created activity and leaves every
    task of the batch with a row; running the same batch again, at any later
    time, creates nothing and leaves every row as it was, apart from the
    [last_synced_at] stamp. *)
Theorem bulk_create_tasks_idempotent (s : Session) (now now' : Z)
    (tasks : list ActivityRepository.task_dict) :
  one_row_per_task (task_activities s) →
  ∃ created s1 s2,
    ActivityRepository.bulk_create_tasks s now tasks = Ok (created, s1) ∧
    length (task_activities s1)
    = (length (task_activities s) + length created)%nat ∧
    (∀ d, d ∈ tasks →
          ActivityRepository.td_notion_task_id d
            ∈ task_notion_task_id <$> task_activities s1) ∧
    ActivityRepository.bulk_create_tasks s1 now' tasks = Ok ([], s2) ∧
    without_sync_time <$> task_activities s2
    = without_sync_time <$> task_activities s1 ∧
    persons s2 = persons s ∧
    conversation_activities s2 = conversation_activities s ∧
    activity_summaries s2 = activity_summaries s.
Proof.
  intros Hinv. unfold ActivityRepository.bulk_create_tasks.
  destruct (bulk_create_tasks_from_rows now tasks s [] Hinv)
    as (created & s1 & Hrun & Hinv1 & Hp & Hc & Hs & Hlen & Hall & Hrows).
  destruct (bulk_create_tasks_from_present now' tasks s1 [] Hinv1 Hall)
    as (s2 & Hrun2 & Hp2 & Hc2 & Hs2 & Hrows2).
  exists created, s1, s2. split; [done|]. do 3 (split; [done|]).
  split; [|split; [|split]; congruence].
  rewrite Hrows2. apply list_fmap_ext. intros i r Hir.
  apply list_elem_of_lookup_2 in Hir.
  destruct (Hrows r Hir) as (t0 & Ht0).
  rewrite Ht0 at 1 2. simpl. apply foldl_update_idem.
Qed.

Lemma bulk_create_tasks_idempotent_witness :
  ∃ created s1 s2,
    ActivityRepository.bulk_create_tasks mixed_session 10 rerun_batch
    = Ok (created, s1) ∧
    length (task_activities s1)
    = (length (task_activities mixed_session) + length created)%nat ∧
    (∀ d, d ∈ rerun_batch →
          ActivityRepository.td_notion_task_id d
            ∈ task_notion_task_id <$> task_activities s1) ∧
    ActivityRepository.bulk_create_tasks s1 20 rerun_batch = Ok ([], s2) ∧
    without_sync_time <$> task_activities s2
    = without_sync_time <$> task_activities s1 ∧
    persons s2 = persons mixed_session ∧
    conversation_activities s2 = conversation_activities mixed_session ∧
    activity_summaries s2 = activity_summaries mixed_session.
Proof.
  apply (bulk_create_tasks_idempotent mixed_session 10 20 rerun_batch).
  apply NoDup_nil_2.
Defined.

(** ** The cache refresh tasks *)

(** *** Todos of several members *)

Section todos_facts.
Variable fromisoformat_date : string → option Z.

Local Abbreviation add_member_todos :=
  (NotionCacheTasks.add_member_todos fromisoformat_date).
Local Abbreviation for_members :=
  (NotionCacheTasks.for_members fromisoformat_date).

Lemma add_member_todos_spec (member_name : string) (todos : list NotionTodo)
    (todos_dict : list CachedNotionTodo) :
  NoDup (todo_todo_id <$> todos_dict) →
  ∃ new,
    add_member_todos member_name todos todos_dict = todos_dict ++ new ∧
    NoDup (todo_todo_id <$> (todos_dict ++ new)) ∧
    (∀ id, id ∈ todo_todo_id <$> (todos_dict ++ new)
           ↔ id ∈ todo_todo_id <$> todos_dict ∨ id ∈ ntd_id <$> todos) ∧
    (∀ row, row ∈ new →
       todo_member_name row = member_name ∧
       ∃ todo, todo ∈ todos ∧ ntd_id todo = todo_todo_id row ∧
               todo_task_name row = ntd_name todo ∧
               todo_status row = ntd_status todo ∧
               todo_url row = ntd_url todo).
Proof.
  revert todos_dict. induction todos as [|todo todos IH]; intros acc Hnd.
  - exists []. rewrite app_nil_r. split; [done|]. split; [done|]. split.
    + intros id. split; [by left|by intros [?|?%elem_of_nil]].
    + by intros row Hrow%elem_of_nil.
  - cbn [NotionCacheTasks.add_member_todos]. case_bool_decide as Hseen.
    + destruct (IH acc Hnd) as (new & -> & Hnd' & Hids & Hrows).
      exists new. split; [done|]. split; [done|]. split.
      * intros id. rewrite Hids, fmap_cons, elem_of_cons. split.
        -- intros [?|?]; [by left|right; by right].
        -- intros [?|[->|?]]; [by left|by left|by right].
      * intros row Hrow. destruct (Hrows row Hrow) as (Hname & t & Ht & Hrest).
        split; [done|]. exists t. split; [by right|done].
    + set (cached_todo := {| todo_todo_id := ntd_id todo |}).
      destruct (IH (acc ++ [cached_todo])) as (new & -> & Hnd' & Hids & Hrows).
      { rewrite fmap_app. apply NoDup_app. split; [done|].
        split; [|apply NoDup_singleton].
        intros id Hid Hnew%list_elem_of_singleton. by subst id. }
      exists (cached_todo :: new). rewrite <- app_assoc in *. simpl in *.
      split; [done|]. split; [done|]. split.
      * intros id.
        rewrite Hids, !fmap_app, !fmap_cons, !elem_of_app, !elem_of_cons,
          fmap_nil, elem_of_nil.
        unfold cached_todo. simpl. tauto.
      * intros row [->|Hrow]%elem_of_cons.
        -- split; [done|]. exists todo. split; [left|done].
        -- destruct (Hrows row Hrow) as (Hname & t & Ht & Hrest).
           split; [done|]. exists t. split; [by right|done].
Qed.

Lemma for_members_spec (members : list MemberWithTodos) (db : CacheDB)
    (todos_dict : list CachedNotionTodo) :
  NoDup (todo_todo_id <$> todos_dict) →
  ∃ new,
    (for_members members db todos_dict).2 = todos_dict ++ new ∧
    NoDup (todo_todo_id <$> (todos_dict ++ new)) ∧
    (∀ id, id ∈ todo_todo_id <$> (todos_dict ++ new)
           ↔ id ∈ todo_todo_id <$> todos_dict
             ∨ ∃ m, m ∈ members ∧ id ∈ ntd_id <$> mwt_todos m) ∧
    (∀ row, row ∈ new →
       ∃ pre m post todo,
         members = pre ++ m :: post ∧
         (∀ m', m' ∈ pre → todo_todo_id row ∉ ntd_id <$> mwt_todos m') ∧
         todo ∈ mwt_todos m ∧ ntd_id todo = todo_todo_id row ∧
         todo_member_name row = tm_member_name (mwt_member m) ∧
         todo_task_name row = ntd_name todo ∧
         todo_status row = ntd_status todo ∧
         todo_url row = ntd_url todo).
Proof.
  revert db todos_dict.
  induction members as [|m members IH]; intros db acc Hnd.
  - exists []. rewrite app_nil_r. split; [done|]. split; [done|]. split.
    + intros id. split; [by left|]. intros [?|(m & Hm%elem_of_nil & _)]; done.
    + by intros row Hrow%elem_of_nil.
  - cbn [NotionCacheTasks.for_members].
    destruct (add_member_todos_spec (tm_member_name (mwt_member m))
                (mwt_todos m) acc Hnd) as (new1 & -> & Hnd1 & Hids1 & Hrows1).
    destruct (IH (CacheRepository.get_or_create_team_member db (mwt_member m))
                (acc ++ new1) Hnd1) as (new2 & -> & Hnd2 & Hids2 & Hrows2).
    exists (new1 ++ new2). rewrite <- app_assoc in *.
    split; [done|]. split; [done|]. split.
    + intros id. rewrite Hids2, Hids1. split.
      * intros [[Hacc|Hm]|(m' & Hm' & Hid)]; [by left|right..].
        -- exists m. split; [left|done].
        -- exists m'. split; [by right|done].
      * intros [Hacc|(m' & [->|Hm']%elem_of_cons & Hid)].
        -- left. by left.
        -- left. by right.
        -- right. by exists m'.
    + intros row [Hrow|Hrow]%elem_of_app.
      * destruct (Hrows1 row Hrow) as (Hname & todo & Htodo & Hid & Hrest).
        exists [], m, members, todo. split; [done|].
        split; [by intros m' Hm'%elem_of_nil|]. done.
      * destruct (Hrows2 row Hrow)
          as (pre & m' & post & todo & -> & Hfirst & Htodo & Hid & Hrest).
        exists (m :: pre), m', post, todo. split; [done|]. split; [|done].
        intros m'' [->|Hm'']%elem_of_cons; [|by apply Hfirst].
        intros Hin.
        assert (todo_todo_id row ∈ todo_todo_id <$> (acc ++ new1)) as Hseen
          by (apply Hids1; by right).
        rewrite app_assoc, fmap_app in Hnd2.
        apply NoDup_app in Hnd2 as (_ & Hdisj & _).
        apply (Hdisj _ Hseen). apply list_elem_of_fmap. by exists row.
Qed.

End todos_facts.

(** X11. The todos that [update_todos_cache] collects from the members'
    boards: no todo id occurs twice, the ids are exactly the ids of the
    fetched todos of all members, and a todo that several members list is
    cached once, for the first member of the response that lists it, with
    that member's name. *)
Theorem for_members_todos_distinct (fromisoformat_date : string → option Z)
    (members : list MemberWithTodos) (db : CacheDB) :
  let cached_todos :=
    (NotionCacheTasks.for_members fromisoformat_date members db []).2 in
  NoDup (todo_todo_id <$> cached_todos) ∧
  (∀ id, id ∈ todo_todo_id <$> cached_todos
         ↔ ∃ m, m ∈ members ∧ id ∈ ntd_id <$> mwt_todos m) ∧
  (∀ row, row ∈ cached_todos →
     ∃ pre m post todo,
       members = pre ++ m :: post ∧
       (∀ m', m' ∈ pre → todo_todo_id row ∉ ntd_id <$> mwt_todos m') ∧
       todo ∈ mwt_todos m ∧ ntd_id todo = todo_todo_id row ∧
       todo_member_name row = tm_member_name (mwt_member m) ∧
       todo_task_name row = ntd_name todo ∧
       todo_status row = ntd_status todo ∧
       todo_url row = ntd_url todo).
Proof.
  intros cached_todos.
  destruct (for_members_spec fromisoformat_date members db [])
    as (new & Hrun & Hnd & Hids & Hrows); [apply NoDup_nil_2|].
  subst cached_todos. rewrite Hrun. simpl in *.
  split; [done|]. split; [|done].
  intros id. rewrite Hids. split; [|by right].
  by intros [Hnil%elem_of_nil|Hm].
Qed.

(** *** Outcome of a refresh *)

Lemma get_or_create_team_member_keeps (db : CacheDB) (member : CachedTeamMember) :
  let db' := CacheRepository.get_or_create_team_member db member in
  cache_metadata db' = cache_metadata db ∧
  cached_notion_projects db' = cached_notion_projects db ∧
  cached_notion_tasks db' = cached_notion_tasks db ∧
  cached_notion_todos db' = cached_notion_todos db.
Proof.
  unfold CacheRepository.get_or_create_team_member. by destruct (filter _ _).
Qed.

Lemma for_members_keeps (fromisoformat_date : string → option Z)
    (members : list MemberWithTodos) (db : CacheDB)
    (todos_dict : list CachedNotionTodo) :
  let r := NotionCacheTasks.for_members fromisoformat_date members db
             todos_dict in
  cache_metadata r.1 = cache_metadata db ∧
  cached_notion_projects r.1 = cached_notion_projects db ∧
  cached_notion_tasks r.1 = cached_notion_tasks db ∧
  cached_notion_todos r.1 = cached_notion_todos db.
Proof.
  revert db todos_dict. induction members as [|m members IH];
    intros db acc; [done|].
  cbn [NotionCacheTasks.for_members].
  destruct (IH (CacheRepository.get_or_create_team_member db (mwt_member m))
              (NotionCacheTasks.add_member_todos fromisoformat_date
                 (tm_member_name (mwt_member m)) (mwt_todos m) acc))
    as (Hm & Hp & Ht & Hd).
  destruct (get_or_create_team_member_keeps db (mwt_member m))
    as (Hm' & Hp' & Ht' & Hd').
  cbv zeta in *. repeat split; congruence.
Qed.

Lemma for_members_todos_any_db (fromisoformat_date : string → option Z)
    (members : list MemberWithTodos) (db db' : CacheDB)
    (todos_dict : list CachedNotionTodo) :
  (NotionCacheTasks.for_members fromisoformat_date members db todos_dict).2
  = (NotionCacheTasks.for_members fromisoformat_date members db' todos_dict).2.
Proof.
  revert db db' todos_dict. induction members as [|m members IH];
    intros db db' acc; [done|].
  cbn [NotionCacheTasks.for_members]. apply IH.
Qed.

(** What the [try] block leaves when the fetch-and-replace part returns. *)
Lemma finish_refresh_returns (clk : clock) (cache_type : string)
    (body : CacheDB → result Z * CacheDB) (db1 db2 : CacheDB) (total : Z) :
  body db1 = (Ok total, db2) →
  let r := NotionCacheTasks.finish_refresh clk cache_type body db1 in
  r.1 = Success total (end_time clk - start_time clk) ∧
  cache_metadata r.2 !! cache_type
  = Some {| meta_last_updated := utcnow clk;
            meta_is_updating := false;
            meta_total_records := total;
            meta_update_duration_seconds :=
              Some (end_time clk - start_time clk);
            meta_error_message := None |} ∧
  cached_notion_projects r.2 = cached_notion_projects db2 ∧
  cached_notion_tasks r.2 = cached_notion_tasks db2 ∧
  cached_notion_todos r.2 = cached_notion_todos db2.
Proof.
  intros Hbody. unfold NotionCacheTasks.finish_refresh. rewrite Hbody.
  cbn [fst snd]. split; [done|]. split; [|done].
  unfold CacheRepository.update_cache_metadata. simpl.
  rewrite lookup_insert_eq.
  by destruct (CacheRepository.get_cache_metadata db2 cache_type).
Qed.

(** X12. A projects, tasks or todos refresh that passes the guard and whose
    fetch and bulk insert both return: it reports success with the number of
    cached records, the cache table of its type holds exactly the rows built
    from the fetched snapshot (no row of the old snapshot is left) and that
    number of rows, and the type's metadata has [is_updating = false], no
    error message, the record count, the duration and the time of the
    update. *)
Theorem successful_refresh_outcome
    (fromisoformat_date : string → option Z) (clk : clock)
    (ct : guarded_cache_type) (inp : refresh_inputs) (db : CacheDB) :
  NotionCacheTasks.already_updating db (cache_type_name ct) = false →
  failure_of ct inp = None →
  let r := run_refresh fromisoformat_date clk ct inp db in
  ∃ total,
    r.1 = Success total (end_time clk - start_time clk) ∧
    CacheRepository.get_cache_metadata r.2 (cache_type_name ct)
    = Some {| meta_last_updated := utcnow clk;
              meta_is_updating := false;
              meta_total_records := total;
              meta_update_duration_seconds :=
                Some (end_time clk - start_time clk);
              meta_error_message := None |} ∧
    match ct with
    | Projects =>
        ∃ projects,
          fetched_projects inp = Ok projects ∧
          cached_notion_projects r.2
          = NotionCacheTasks.cached_project_of <$> projects ∧
          total = Z.of_nat (length projects)
    | Tasks =>
        ∃ tasks,
          fetched_tasks inp = Ok tasks ∧
          cached_notion_tasks r.2
          = NotionCacheTasks.cached_task_of fromisoformat_date <$> tasks ∧
          total = Z.of_nat (length tasks)
    | Todos =>
        ∃ members,
          fetched_todos inp = Ok members ∧
          cached_notion_todos r.2
          = (NotionCacheTasks.for_members fromisoformat_date members db []).2 ∧
          total = Z.of_nat (length (cached_notion_todos r.2))
    end.
Proof.
  intros Hguard Hfail.
  destruct ct; simpl in Hguard, Hfail |- *;
    unfold NotionCacheTasks.update_projects_cache,
      NotionCacheTasks.update_tasks_cache,
      NotionCacheTasks.update_todos_cache,
      NotionCacheTasks.guarded_refresh,
      NotionCacheTasks.refresh_after_guard,
      CacheRepository.get_cache_metadata;
    rewrite Hguard.
  - set (db1 := CacheRepository.set_cache_updating _ db "projects" true).
    destruct (fetched_projects inp) as [projects|e]; [|done].
    edestruct (finish_refresh_returns clk "projects"
                 (NotionCacheTasks.replace_projects (Ok projects)
                    (insert_error inp)) db1)
      as (Hres & Hmeta & Hp & _).
    { unfold NotionCacheTasks.replace_projects. by rewrite Hfail. }
    eexists. split; [exact Hres|]. split; [exact Hmeta|].
    exists projects. split; [done|]. rewrite Hp. simpl.
    by rewrite length_fmap.
  - set (db1 := CacheRepository.set_cache_updating _ db "tasks" true).
    destruct (fetched_tasks inp) as [tasks|e]; [|done].
    edestruct (finish_refresh_returns clk "tasks"
                 (NotionCacheTasks.replace_tasks fromisoformat_date (Ok tasks)
                    (insert_error inp)) db1)
      as (Hres & Hmeta & _ & Ht & _).
    { unfold NotionCacheTasks.replace_tasks. by rewrite Hfail. }
    eexists. split; [exact Hres|]. split; [exact Hmeta|].
    exists tasks. split; [done|]. rewrite Ht. simpl.
    by rewrite length_fmap.
  - set (db1 := CacheRepository.set_cache_updating _ db "todos" true).
    destruct (fetched_todos inp) as [members|e]; [|done].
    edestruct (finish_refresh_returns clk "todos"
                 (NotionCacheTasks.replace_todos fromisoformat_date (Ok members)
                    (insert_error inp)) db1)
      as (Hres & Hmeta & _ & _ & Hd).
    { unfold NotionCacheTasks.replace_todos. by rewrite Hfail. }
    eexists. split; [exact Hres|]. split; [exact Hmeta|].
    exists members. split; [done|]. rewrite Hd.
    cbn [CacheRepository.bulk_insert_todos cached_notion_todos set_cached_todos].
    destruct (for_members_keeps fromisoformat_date members
                (CacheRepository.clear_todos_cache db1) [])
      as (_ & _ & _ & Hold).
    cbv zeta in Hold. rewrite Hold. simpl.
    by rewrite (for_members_todos_any_db fromisoformat_date members db
                  (CacheRepository.clear_todos_cache db1)).
Qed.

Lemma successful_refresh_outcome_witness :
  let inp := {| fetched_projects := Ok [new_project];
                fetched_tasks := Ok [];
                fetched_todos := Ok [];
                insert_error := None |} in
  let r := run_refresh no_dates example_clock Projects inp idle_db in
  ∃ total,
    r.1 = Success total (end_time example_clock - start_time example_clock) ∧
    CacheRepository.get_cache_metadata r.2 (cache_type_name Projects)
    = Some {| meta_last_updated := utcnow example_clock;
              meta_is_updating := false;
              meta_total_records := total;
              meta_update_duration_seconds :=
                Some (end_time example_clock - start_time example_clock);
              meta_error_message := None |} ∧
    ∃ projects,
      fetched_projects inp = Ok projects ∧
      cached_notion_projects r.2
      = NotionCacheTasks.cached_project_of <$> projects ∧
      total = Z.of_nat (length projects).
Proof.
  apply (successful_refresh_outcome no_dates example_clock Projects
           {| fetched_projects := Ok [new_project];
              fetched_tasks := Ok [];
              fetched_todos := Ok [];
              insert_error := None |} idle_db); reflexivity.
Defined.

(** X13. A projects, tasks or todos refresh, whatever its outcome (skipped,
    success or failure), touches only its own cache type: the metadata rows
    of every other cache type and the cached rows of the other two types are
    the same before and after, and only the todos refresh writes team
    members. *)
Theorem refresh_touches_own_type
    (fromisoformat_date : string → option Z) (clk : clock)
    (ct : guarded_cache_type) (inp : refresh_inputs) (db : CacheDB) :
  let r := run_refresh fromisoformat_date clk ct inp db in
  (∀ cache_type, cache_type ≠ cache_type_name ct →
     CacheRepository.get_cache_metadata r.2 cache_type
     = CacheRepository.get_cache_metadata db cache_type) ∧
  (∀ ct', ct' ≠ ct → same_rows ct' db r.2) ∧
  (ct ≠ Todos → cached_team_members r.2 = cached_team_members db).
Proof.
  assert (Hfinish : ∀ cache_type body db1,
            let r := NotionCacheTasks.finish_refresh clk cache_type body db1 in
            (∀ other, other ≠ cache_type →
               cache_metadata r.2 !! other
               = cache_metadata (body db1).2 !! other) ∧
            cached_notion_projects r.2 = cached_notion_projects (body db1).2 ∧
            cached_notion_tasks r.2 = cached_notion_tasks (body db1).2 ∧
            cached_notion_todos r.2 = cached_notion_todos (body db1).2 ∧
            cached_team_members r.2 = cached_team_members (body db1).2).
  { intros cache_type body db1. unfold NotionCacheTasks.finish_refresh.
    destruct (body db1) as [[total|exc] db2]; simpl;
      (split; [|done]); intros other Hother;
      by rewrite lookup_insert_ne. }
  assert (Hmark : ∀ cache_type,
            let db1 := CacheRepository.set_cache_updating (utcnow clk) db
                         cache_type true in
            (∀ other, other ≠ cache_type →
               cache_metadata db1 !! other = cache_metadata db !! other) ∧
            cached_notion_projects db1 = cached_notion_projects db ∧
            cached_notion_tasks db1 = cached_notion_tasks db ∧
            cached_notion_todos db1 = cached_notion_todos db ∧
            cached_team_members db1 = cached_team_members db).
  { intros cache_type. simpl. split; [|done]. intros other Hother.
    by rewrite lookup_insert_ne. }
  unfold run_refresh, NotionCacheTasks.update_projects_cache,
    NotionCacheTasks.update_tasks_cache, NotionCacheTasks.update_todos_cache,
    NotionCacheTasks.guarded_refresh, NotionCacheTasks.refresh_after_guard,
    CacheRepository.get_cache_metadata.
  destruct ct; cbn [cache_type_name].
  - destruct (NotionCacheTasks.already_updating db "projects").
    { split; [done|]. split; [|done]. by intros []. }
    destruct (Hmark "projects") as (Hm1 & Hp1 & Ht1 & Hd1 & Hn1).
    edestruct (Hfinish "projects") as (Hm2 & Hp2 & Ht2 & Hd2 & Hn2).
    cbv zeta in *.
    assert (Hbody : ∀ db1,
              let db2 := (NotionCacheTasks.replace_projects
                            (fetched_projects inp) (insert_error inp) db1).2 in
              cache_metadata db2 = cache_metadata db1 ∧
              cached_notion_tasks db2 = cached_notion_tasks db1 ∧
              cached_notion_todos db2 = cached_notion_todos db1 ∧
              cached_team_members db2 = cached_team_members db1).
    { intros db1. unfold NotionCacheTasks.replace_projects.
      by destruct (fetched_projects inp), (insert_error inp). }
    edestruct Hbody as (Hm3 & Ht3 & Hd3 & Hn3). cbv zeta in *.
    split; [|split].
    + intros other Hother. rewrite Hm2, Hm3, Hm1 by done. done.
    + intros [] Hne; simpl; [done| |]; congruence.
    + intros _. congruence.
  - destruct (NotionCacheTasks.already_updating db "tasks").
    { split; [done|]. split; [|done]. by intros []. }
    destruct (Hmark "tasks") as (Hm1 & Hp1 & Ht1 & Hd1 & Hn1).
    edestruct (Hfinish "tasks") as (Hm2 & Hp2 & Ht2 & Hd2 & Hn2).
    cbv zeta in *.
    assert (Hbody : ∀ db1,
              let db2 := (NotionCacheTasks.replace_tasks fromisoformat_date
                            (fetched_tasks inp) (insert_error inp) db1).2 in
              cache_metadata db2 = cache_metadata db1 ∧
              cached_notion_projects db2 = cached_notion_projects db1 ∧
              cached_notion_todos db2 = cached_notion_todos db1 ∧
              cached_team_members db2 = cached_team_members db1).
    { intros db1. unfold NotionCacheTasks.replace_tasks.
      by destruct (fetched_tasks inp), (insert_error inp). }
    edestruct Hbody as (Hm3 & Hp3 & Hd3 & Hn3). cbv zeta in *.
    split; [|split].
    + intros other Hother. rewrite Hm2, Hm3, Hm1 by done. done.
    + intros [] Hne; simpl; [|done|]; congruence.
    + intros _. congruence.
  - destruct (NotionCacheTasks.already_updating db "todos").
    { split; [done|]. split; [|done]. by intros []. }
    destruct (Hmark "todos") as (Hm1 & Hp1 & Ht1 & Hd1 & Hn1).
    edestruct (Hfinish "todos") as (Hm2 & Hp2 & Ht2 & Hd2 & Hn2).
    cbv zeta in *.
    assert (Hbody : ∀ db1,
              let db2 := (NotionCacheTasks.replace_todos fromisoformat_date
                            (fetched_todos inp) (insert_error inp) db1).2 in
              cache_metadata db2 = cache_metadata db1 ∧
              cached_notion_projects db2 = cached_notion_projects db1 ∧
              cached_notion_tasks db2 = cached_notion_tasks db1).
    { intros db1. unfold NotionCacheTasks.replace_todos.
      destruct (fetched_todos inp) as [members|e]; [|done].
      destruct (for_members_keeps fromisoformat_date members
                  (CacheRepository.clear_todos_cache db1) [])
        as (Hm & Hp & Ht & _).
      cbv zeta in *. by destruct (insert_error inp). }
    edestruct Hbody as (Hm3 & Hp3 & Ht3). cbv zeta in *.
    split; [|split].
    + intros other Hother. rewrite Hm2, Hm3, Hm1 by done. done.
    + intros [] Hne; simpl; [| |done]; congruence.
    + by intros [].
Qed.

(** *** Freshness of a cache *)




(** ** The scale of the heatmap *)

(** The days in the score map lie in the window of the query. *)
Lemma activity_map_in_window (s : Session) (pid a b d v : Z) :
  ActivityStatsService.activity_map_of
    (ActivityRepository.get_summaries_for_person s pid a b) !! d = Some v →
  a ≤ d ≤ b.
Proof.
  intros Hd.
  destruct (decide (a ≤ d ≤ b)) as [|Hout]; [done|].
  unfold ActivityStatsService.activity_map_of in Hd.
  rewrite activity_map_fold_absent, lookup_empty in Hd; [done|].
  intros r Hr Hdate.
  apply get_summaries_for_person_elem in Hr as (_ & _ & Hlo & Hhi).
  apply datetime_date_mono in Hlo, Hhi.
  rewrite datetime_date_combine_min in Hlo, Hhi. lia.
Qed.

Lemma heatmap_level_range (count mx : Z) :
  0 ≤ ActivityStatsService.heatmap_level count mx ≤ 4.
Proof.
  unfold ActivityStatsService.heatmap_level. repeat case_decide; lia.
Qed.

Lemma heatmap_level_mono (c c' mx : Z) :
  0 ≤ c ≤ c' →
  ActivityStatsService.heatmap_level c mx
  ≤ ActivityStatsService.heatmap_level c' mx.
Proof.
  unfold ActivityStatsService.heatmap_level. repeat case_decide; lia.
Qed.

(** X15. The heatmap's scale is relative to the busiest day of the window:
    when some day of the window is active, [max_activity] is the highest
    count among the returned points, a day with that count has level 4,
    every level lies between 0 and 4, and of two days the one with the
    higher count never has the lower level. *)
Theorem get_heatmap_busiest_day (s : Session) (pid days today : Z) :
  let r := ActivityStatsService.get_heatmap s pid days today in
  0 < ActivityStatsService.hm_active_days r →
  (∃ p, p ∈ ActivityStatsService.hm_data r ∧
        ActivityStatsService.hd_count p
        = ActivityStatsService.hm_max_activity r ∧
        ActivityStatsService.hd_level p = 4) ∧
  (∀ p, p ∈ ActivityStatsService.hm_data r →
        ActivityStatsService.hd_count p
        ≤ ActivityStatsService.hm_max_activity r ∧
        0 ≤ ActivityStatsService.hd_level p ≤ 4) ∧
  (∀ p q, p ∈ ActivityStatsService.hm_data r →
          q ∈ ActivityStatsService.hm_data r →
          0 ≤ ActivityStatsService.hd_count p
            ≤ ActivityStatsService.hd_count q →
          ActivityStatsService.hd_level p ≤ ActivityStatsService.hd_level q).
Proof.
  intros r Hactive.
  destruct (get_heatmap_data s pid days today) as (Hdata & Hdays & Hmax).
  fold r in Hdata, Hdays, Hmax. cbv zeta in Hdata, Hmax.
  set (m := ActivityStatsService.activity_map_of _) in Hdata, Hmax.
  set (mx := ActivityStatsService.hm_max_activity r) in *.
  (* an active day: the map is not empty *)
  assert (∃ d c, m !! d = Some c ∧ 0 < c) as (d1 & c1 & Hd1 & Hc1).
  { rewrite Hdays in Hactive.
    destruct (filter _ (ActivityStatsService.hm_data r)) as [|p ps] eqn:Hf;
      [simpl in Hactive; lia|].
    assert (p ∈ filter (λ p, ActivityStatsService.hd_count p > 0)
                  (ActivityStatsService.hm_data r)) as Hp
      by (rewrite Hf; left).
    apply list_elem_of_filter in Hp as [Hpos Hp].
    rewrite Hdata in Hp. apply list_elem_of_fmap in Hp as (d & -> & _).
    unfold heatmap_point in Hpos. simpl in Hpos.
    destruct (m !! d) as [c|] eqn:Hd; simpl in Hpos; [|lia].
    exists d, c. split; [done|lia]. }
  assert (m ≠ ∅) as Hne by (intros Hm; by rewrite Hm, lookup_empty in Hd1).
  destruct (max_activity_of_nonempty m Hne) as ((d0 & Hd0) & Hle).
  rewrite <- Hmax in Hd0, Hle.
  assert (0 < mx) as Hpos by (specialize (Hle d1 c1 Hd1); lia).
  split; [|split].
  - exists (heatmap_point m mx d0). split; [|split].
    + rewrite Hdata. apply list_elem_of_fmap. exists d0. split; [done|].
      apply activity_map_in_window in Hd0. apply elem_of_seqZ. lia.
    + unfold heatmap_point. simpl. by rewrite Hd0.
    + unfold heatmap_point. simpl. rewrite Hd0. simpl.
      unfold ActivityStatsService.heatmap_level.
      rewrite decide_False, decide_True by lia. done.
  - intros p Hp. rewrite Hdata in Hp.
    apply list_elem_of_fmap in Hp as (d & -> & _).
    unfold heatmap_point. simpl. split; [|apply heatmap_level_range].
    destruct (m !! d) as [c|] eqn:Hd; simpl; [by eapply Hle|lia].
  - intros p q Hp Hq Hcount. rewrite Hdata in Hp, Hq.
    apply list_elem_of_fmap in Hp as (dp & -> & _).
    apply list_elem_of_fmap in Hq as (dq & -> & _).
    unfold heatmap_point in *. simpl in *. by apply heatmap_level_mono.
Qed.

Lemma get_heatmap_busiest_day_witness :
  let r := ActivityStatsService.get_heatmap mixed_session 1 7 9 in
  (∃ p, p ∈ ActivityStatsService.hm_data r ∧
        ActivityStatsService.hd_count p
        = ActivityStatsService.hm_max_activity r ∧
        ActivityStatsService.hd_level p = 4) ∧
  (∀ p, p ∈ ActivityStatsService.hm_data r →
        ActivityStatsService.hd_count p
        ≤ ActivityStatsService.hm_max_activity r ∧
        0 ≤ ActivityStatsService.hd_level p ≤ 4) ∧
  (∀ p q, p ∈ ActivityStatsService.hm_data r →
          q ∈ ActivityStatsService.hm_data r →
          0 ≤ ActivityStatsService.hd_count p
            ≤ ActivityStatsService.hd_count q →
          ActivityStatsService.hd_level p ≤ ActivityStatsService.hd_level q).
Proof.
  apply (get_heatmap_busiest_day mixed_session 1 7 9).
  vm_compute. reflexivity.
Defined.

(** ** Statistics of a period *)

Lemma one_row_per_day_NoDup (rows : list ActivitySummary) :
  one_row_per_day rows → NoDup rows.
Proof.
  induction rows as [|x rows IH]; intros Hinv; [constructor|].
  constructor.
  - intros Hin.
    specialize (Hinv (sum_person_id x) (datetime_date (sum_date x))).
    unfold summaries_for in Hinv. rewrite filter_cons_True in Hinv by done.
    assert (x ∈ filter (summary_key (sum_person_id x)
                          (datetime_date (sum_date x))) rows) as Hx
      by (by apply list_elem_of_filter).
    destruct (filter _ rows); [by apply elem_of_nil in Hx|simpl in Hinv; lia].
  - apply IH. intros pid d. specialize (Hinv pid d).
    unfold summaries_for in *. rewrite filter_cons in Hinv.
    destruct (decide (summary_key pid d x)); simpl in Hinv; lia.
Qed.

Lemma StronglySorted_seqZ (a n : Z) : StronglySorted Z.le (seqZ a n).
Proof.
  destruct (decide (n ≤ 0)) as [|Hpos]; [rewrite seqZ_nil by done; constructor|].
  replace n with (Z.of_nat (Z.to_nat n)) by lia.
  generalize (Z.to_nat n). clear. intros k. revert a.
  induction k as [|k IH]; intros a; [constructor|].
  rewrite seqZ_cons by lia.
  replace (Z.pred (Z.of_nat (S k))) with (Z.of_nat k) by lia.
  constructor; [apply IH|].
  apply Forall_seqZ. lia.
Qed.

(** Two lists of summary rows in the order of [date] that hold the same rows,
    no two of them with the same [date], are the same list. *)
Lemma sorted_by_date_unique (l1 l2 : list ActivitySummary) :
  l1 ≡ₚ l2 →
  StronglySorted ActivityRepository.by_date l1 →
  StronglySorted ActivityRepository.by_date l2 →
  NoDup (sum_date <$> l1) →
  l1 = l2.
Proof.
  revert l2. induction l1 as [|x l1 IH]; intros l2 Hperm Hs1 Hs2 Hnd.
  - by apply Permutation_nil_l in Hperm.
  - destruct l2 as [|y l2]; [by apply Permutation_nil_r in Hperm|].
    apply StronglySorted_inv in Hs1 as [Hs1 Hx].
    apply StronglySorted_inv in Hs2 as [Hs2 Hy].
    rewrite fmap_cons in Hnd. apply NoDup_cons in Hnd as [Hxd Hnd].
    rewrite Forall_forall in Hx, Hy.
    assert (x = y) as <-.
    { assert (x ∈ y :: l2) as Hx2 by (rewrite <- Hperm; left).
      assert (y ∈ x :: l1) as Hy1 by (rewrite Hperm; left).
      apply elem_of_cons in Hx2 as [|Hx2]; [done|].
      apply elem_of_cons in Hy1 as [|Hy1]; [done|].
      specialize (Hx y Hy1). specialize (Hy x Hx2).
      unfold ActivityRepository.by_date in Hx, Hy.
      destruct Hxd. apply list_elem_of_fmap. exists y. split; [lia|done]. }
    f_equal. apply IH; [by eapply Permutation_cons_inv|done..].
Qed.

(** After a bulk aggregation over the days [a] to [b], the summaries of a
    fetched person in that range are the rows the ledger determines, one per
    day. *)
Lemma get_summaries_after_bulk_aggregate (s : Session) (a b : Z) (p : Person) :
  one_row_per_day (activity_summaries s) →
  p ∈ (PersonRepository.get_all s 0 10000).1 →
  ActivityRepository.get_summaries_for_person
    (ActivityStatsService.bulk_aggregate_daily_activities s a b).1.1
    (person_id p) a b
  = expected_summary s (person_id p) <$> seqZ a (b + 1 - a).
Proof.
  intros Hinv Hp.
  destruct (while_days_all_succeed (PersonRepository.get_all s 0 10000).1
              a b s 0 [] Hinv) as (Hinv' & _ & _ & _ & _ & Hrows & _).
  cbv zeta in Hinv', Hrows.
  change (ActivityStatsService.while_days ActivityStatsService.try_aggregate
            (PersonRepository.get_all s 0 10000).1 a b s 0 [])
    with (ActivityStatsService.bulk_aggregate_daily_activities s a b)
    in Hinv', Hrows.
  set (s' := (ActivityStatsService.bulk_aggregate_daily_activities s a b).1.1)
    in *.
  unfold ActivityRepository.get_summaries_for_person.
  set (found := filter _ (activity_summaries s')).
  assert (Hsorted : StronglySorted ActivityRepository.by_date
                      (expected_summary s (person_id p) <$> seqZ a (b + 1 - a))).
  { apply (StronglySorted_fmap _ Z.le); [|apply StronglySorted_seqZ].
    intros x y Hxy. unfold ActivityRepository.by_date, expected_summary,
      combine_min, MICROSECONDS_PER_DAY. simpl. lia. }
  assert (Hdates : NoDup (sum_date <$> found)).
  { apply NoDup_fmap_2_strong.
    - intros x y Hx Hy Hdate.
      apply list_elem_of_filter in Hx as [(Hpx & Hlo & Hhi) Hx].
      apply list_elem_of_filter in Hy as [(Hpy & _ & _) Hy].
      apply datetime_date_mono in Hlo, Hhi.
      rewrite datetime_date_combine_min in Hlo, Hhi.
      pose proof (Hrows p (datetime_date (sum_date x)) Hp ltac:(lia)) as Hone.
      assert (x ∈ summaries_for (person_id p) (datetime_date (sum_date x))
                    (activity_summaries s')) as Hx'
        by (by apply list_elem_of_filter).
      assert (y ∈ summaries_for (person_id p) (datetime_date (sum_date x))
                    (activity_summaries s')) as Hy'
        by (apply list_elem_of_filter; split; [split; congruence|done]).
      rewrite Hone in Hx', Hy'.
      apply list_elem_of_singleton in Hx', Hy'. congruence.
    - apply NoDup_filter. by apply one_row_per_day_NoDup. }
  apply sorted_by_date_unique.
  - rewrite merge_sort_Permutation. apply NoDup_Permutation.
    + eapply NoDup_fmap_1, Hdates.
    + apply (NoDup_fmap_1 sum_date). rewrite <- list_fmap_compose.
      apply NoDup_fmap_2; [|apply NoDup_seqZ].
      intros x y Hxy. unfold expected_summary, combine_min,
        MICROSECONDS_PER_DAY in Hxy. simpl in Hxy. lia.
    + intros x. split.
      * intros [(Hpx & Hlo & Hhi) Hx]%list_elem_of_filter.
        apply datetime_date_mono in Hlo, Hhi.
        rewrite datetime_date_combine_min in Hlo, Hhi.
        pose proof (Hrows p (datetime_date (sum_date x)) Hp ltac:(lia)) as Hone.
        assert (x ∈ summaries_for (person_id p) (datetime_date (sum_date x))
                      (activity_summaries s')) as Hx'
          by (by apply list_elem_of_filter).
        rewrite Hone in Hx'. apply list_elem_of_singleton in Hx'.
        apply list_elem_of_fmap. exists (datetime_date (sum_date x)).
        split; [done|]. apply elem_of_seqZ. lia.
      * intros (d & -> & Hd%elem_of_seqZ)%list_elem_of_fmap.
        assert (expected_summary s (person_id p) d
                ∈ summaries_for (person_id p) d (activity_summaries s')) as Hin
          by (rewrite (Hrows p d Hp) by lia; left).
        apply list_elem_of_filter in Hin as [_ Hin].
        apply list_elem_of_filter. split; [|done].
        unfold expected_summary, combine_min, MICROSECONDS_PER_DAY. simpl.
        split; [done|]. lia.
  - apply StronglySorted_merge_sort;
      [apply by_date_transitive|apply by_date_total].
  - exact Hsorted.
  - rewrite merge_sort_Permutation. exact Hdates.
Qed.

Lemma sum_snoc (xs : list Z) (x : Z) :
  ActivityStatsService.sum (xs ++ [x]) = ActivityStatsService.sum xs + x.
Proof. unfold ActivityStatsService.sum. by rewrite foldl_app. Qed.

(** The events of the days [a], [a + 1], ..., counted day by day, are the
    events of the whole range. *)
Lemma sum_day_counts {A : Type} (P : A → Prop) `{!∀ x, Decision (P x)}
    (t : A → Z) (l : list A) (a : Z) (n : nat) :
  ActivityStatsService.sum
    ((λ d, Z.of_nat (length (filter (λ x, P x ∧ in_day d (t x)) l)))
       <$> seqZ a (Z.of_nat n))
  = Z.of_nat (length (filter
      (λ x, P x ∧ combine_min a ≤ t x < combine_min (a + Z.of_nat n)) l)).
Proof.
  induction n as [|n IH].
  - simpl. symmetry. rewrite (filter_none _ l); [done|].
    intros x _ [_ Hx]. unfold combine_min in Hx.
    replace (a + Z.of_nat 0) with a in Hx by lia. lia.
  - rewrite seqZ_S, fmap_app, fmap_cons, fmap_nil, sum_snoc, IH.
    clear IH. induction l as [|x l IHl]; [done|].
    rewrite !filter_cons.
    assert (Hsplit :
      (P x ∧ combine_min a ≤ t x < combine_min (a + Z.of_nat (S n)))
      ↔ (P x ∧ combine_min a ≤ t x < combine_min (a + Z.of_nat n))
        ∨ (P x ∧ in_day (a + Z.of_nat n) (t x))).
    { unfold in_day, combine_min, MICROSECONDS_PER_DAY. split.
      - intros [HP Hr].
        destruct (decide (t x < (a + Z.of_nat n) * 86400000000));
          [left|right]; (split; [done|lia]).
      - intros [[HP Hr]|[HP Hr]]; (split; [done|lia]). }
    assert (Hdisj :
      ¬ ((P x ∧ combine_min a ≤ t x < combine_min (a + Z.of_nat n))
         ∧ (P x ∧ in_day (a + Z.of_nat n) (t x)))).
    { unfold in_day, combine_min, MICROSECONDS_PER_DAY. lia. }
    repeat case_decide; simpl; try lia; tauto.
Qed.

Lemma sum_scores (conversations tasks : Z → Z) (days : list Z) :
  ActivityStatsService.sum ((λ d, conversations d + 2 * tasks d) <$> days)
  = ActivityStatsService.sum (conversations <$> days)
    + 2 * ActivityStatsService.sum (tasks <$> days).
Proof.
  induction days as [|d days IH] using rev_ind; [done|].
  rewrite !fmap_app, !fmap_cons, !fmap_nil, !sum_snoc, IH. lia.
Qed.

(** X16. Reading the statistics of a period after it was aggregated: on a
    summary table with at most one row per (person, day), after
    [bulk_aggregate_daily_activities] over the days [a] to [b] the
    statistics of a fetched person for that custom range have one entry per
    day in the daily breakdown, in the order of the days, with that day's
    counts; the totals are the numbers of the person's conversations and
    completed tasks whose timestamps lie in those days, and the total score
    is conversations + 2 * tasks. *)
Theorem get_person_stats_after_bulk_aggregate (s : Session) (a b : Z)
    (p : Person) (period : ActivityStatsService.PeriodType)
    (period_range : Z * Z) :
  one_row_per_day (activity_summaries s) →
  p ∈ (PersonRepository.get_all s 0 10000).1 →
  let s' := (ActivityStatsService.bulk_aggregate_daily_activities s a b).1.1 in
  let r := ActivityStatsService.get_person_stats s' (person_id p) period
             period_range (Some a) (Some b) in
  ActivityStatsService.asr_start_date r = a ∧
  ActivityStatsService.asr_end_date r = b ∧
  ActivityStatsService.asr_daily_breakdown r
  = expected_daily_stats s (person_id p) <$> seqZ a (b + 1 - a) ∧
  ActivityStatsService.asr_total_conversations r
  = conversation_events_between s (person_id p) a b ∧
  ActivityStatsService.asr_total_tasks_completed r
  = task_completion_events_between s (person_id p) a b ∧
  ActivityStatsService.asr_total_activity_score r
  = conversation_events_between s (person_id p) a b
    + 2 * task_completion_events_between s (person_id p) a b.
Proof.
  intros Hinv Hp s' r.
  pose proof (get_summaries_after_bulk_aggregate s a b p Hinv Hp) as Hsum.
  fold s' in Hsum.
  unfold r, ActivityStatsService.get_person_stats.
  cbn [fst snd ActivityStatsService.asr_start_date
       ActivityStatsService.asr_end_date
       ActivityStatsService.asr_daily_breakdown
       ActivityStatsService.asr_total_conversations
       ActivityStatsService.asr_total_tasks_completed
       ActivityStatsService.asr_total_activity_score].
  rewrite Hsum, <- !list_fmap_compose.
  assert (Hconv :
    ActivityStatsService.sum
      (sum_conversations_created ∘ expected_summary s (person_id p)
         <$> seqZ a (b + 1 - a))
    = conversation_events_between s (person_id p) a b).
  { unfold conversation_events_between.
    destruct (decide (b + 1 - a ≤ 0)) as [Hle|Hpos].
    - rewrite seqZ_nil by done. simpl. rewrite filter_none; [done|].
      intros x _ [_ Hx]. unfold combine_min, MICROSECONDS_PER_DAY in Hx. lia.
    - replace (combine_min (b + 1))
        with (combine_min (a + Z.of_nat (Z.to_nat (b + 1 - a))))
        by (f_equal; lia).
      rewrite <- (sum_day_counts (λ c, conv_person_id c = person_id p)
                    conv_created_at).
      by replace (Z.of_nat (Z.to_nat (b + 1 - a))) with (b + 1 - a) by lia. }
  assert (Htask :
    ActivityStatsService.sum
      (sum_tasks_completed ∘ expected_summary s (person_id p)
         <$> seqZ a (b + 1 - a))
    = task_completion_events_between s (person_id p) a b).
  { unfold task_completion_events_between.
    destruct (decide (b + 1 - a ≤ 0)) as [Hle|Hpos].
    - rewrite seqZ_nil by done. simpl. rewrite filter_none; [done|].
      intros x _ [_ Hx]. unfold combine_min, MICROSECONDS_PER_DAY in Hx. lia.
    - replace (combine_min (b + 1))
        with (combine_min (a + Z.of_nat (Z.to_nat (b + 1 - a))))
        by (f_equal; lia).
      rewrite <- (sum_day_counts (λ t, task_person_id t = person_id p)
                    task_completed_at).
      by replace (Z.of_nat (Z.to_nat (b + 1 - a))) with (b + 1 - a) by lia. }
  split; [done|]. split; [done|]. split.
  { apply list_fmap_ext. intros i d _. simpl.
    unfold expected_daily_stats. f_equal. apply datetime_date_combine_min. }
  split; [exact Hconv|]. split; [exact Htask|].
  rewrite <- Hconv, <- Htask.
  apply (sum_scores (conversation_events_on s (person_id p))
           (task_completion_events_on s (person_id p))).
Qed.

Lemma get_person_stats_after_bulk_aggregate_witness :
  let p := mkPerson 1 "n-1" "aida" None None in
  let a := example_day - 1 in
  let b := example_day + 1 in
  let s' := (ActivityStatsService.bulk_aggregate_daily_activities
               example_session a b).1.1 in
  let r := ActivityStatsService.get_person_stats s' (person_id p)
             ActivityStatsService.MONTHLY (0, 0) (Some a) (Some b) in
  ActivityStatsService.asr_start_date r = a ∧
  ActivityStatsService.asr_end_date r = b ∧
  ActivityStatsService.asr_daily_breakdown r
  = expected_daily_stats example_session (person_id p) <$> seqZ a (b + 1 - a) ∧
  ActivityStatsService.asr_total_conversations r
  = conversation_events_between example_session (person_id p) a b ∧
  ActivityStatsService.asr_total_tasks_completed r
  = task_completion_events_between example_session (person_id p) a b ∧
  ActivityStatsService.asr_total_activity_score r
  = conversation_events_between example_session (person_id p) a b
    + 2 * task_completion_events_between example_session (person_id p) a b.
Proof.
  apply (get_person_stats_after_bulk_aggregate example_session
           (example_day - 1) (example_day + 1)
           (mkPerson 1 "n-1" "aida" None None)
           ActivityStatsService.MONTHLY (0, 0)).
  - intros pid d. vm_compute. lia.
  - vm_compute. left.
Defined.

(** *** Team members written by the todos refresh *)

Lemma get_or_create_team_member_spec (db : CacheDB) (member : CachedTeamMember) :
  NoDup (tm_member_name <$> cached_team_members db) →
  let db' := CacheRepository.get_or_create_team_member db member in
  NoDup (tm_member_name <$> cached_team_members db') ∧
  member ∈ cached_team_members db' ∧
  (∀ row, row ∈ cached_team_members db' →
          row = member
          ∨ (row ∈ cached_team_members db ∧
             tm_member_name row ≠ tm_member_name member)) ∧
  (∀ row, row ∈ cached_team_members db →
          tm_member_name row ∈ tm_member_name <$> cached_team_members db').
Proof.
  intros Hnd. unfold CacheRepository.get_or_create_team_member.
  destruct (filter _ (cached_team_members db)) as [|existing rest] eqn:Hfound;
    simpl.
  - (* a new member *)
    assert (Hnew : tm_member_name member
                   ∉ tm_member_name <$> cached_team_members db)
      by (by apply filter_key_present).
    split; [|split; [|split]].
    + rewrite fmap_app. apply NoDup_app. split; [done|].
      split; [|apply NoDup_singleton].
      intros name Hname Hmember%list_elem_of_singleton. by subst name.
    + apply elem_of_app. right. left.
    + intros row [Hrow|Hrow%list_elem_of_singleton]%elem_of_app; [|by left].
      right. split; [done|]. intros Hname. apply Hnew. rewrite <- Hname.
      apply list_elem_of_fmap. by exists row.
    + intros row Hrow. rewrite fmap_app. apply elem_of_app. left.
      apply list_elem_of_fmap. by exists row.
  - (* the member of that name is overwritten *)
    assert (Hnames :
      tm_member_name
        <$> (replace_if (λ m, tm_member_name m = tm_member_name member) member
               <$> cached_team_members db)
      = tm_member_name <$> cached_team_members db).
    { rewrite <- list_fmap_compose. apply list_fmap_ext. intros i row _.
      simpl. unfold replace_if.
      by destruct (decide (tm_member_name row = tm_member_name member)). }
    split; [by rewrite Hnames|]. split; [|split].
    + assert (existing ∈ filter
                (λ m, tm_member_name m = tm_member_name member)
                (cached_team_members db)) as Hin by (rewrite Hfound; left).
      apply list_elem_of_filter in Hin as [Hname Hin].
      apply list_elem_of_fmap. exists existing.
      split; [|done]. by rewrite (replace_hit _ _ existing Hname).
    + intros row' (row & -> & Hrow)%list_elem_of_fmap. unfold replace_if.
      destruct (decide (tm_member_name row = tm_member_name member));
        [by left|by right].
    + intros row Hrow. rewrite Hnames. apply list_elem_of_fmap. by exists row.
Qed.

(** X17. The team members after the loop of [update_todos_cache] over the
    fetched members, on a table with distinct member names: the names stay
    distinct, no member of the table is ever removed (a member the response
    no longer lists keeps its row unchanged), every fetched member has a
    row, and the row of a fetched name holds the fields of the last fetched
    member of that name. *)
Theorem for_members_team_members (fromisoformat_date : string → option Z)
    (members : list MemberWithTodos) (db : CacheDB)
    (todos_dict : list CachedNotionTodo) :
  NoDup (tm_member_name <$> cached_team_members db) →
  let db' := (NotionCacheTasks.for_members fromisoformat_date members db
                todos_dict).1 in
  NoDup (tm_member_name <$> cached_team_members db') ∧
  (∀ row, row ∈ cached_team_members db →
          tm_member_name row ∈ tm_member_name <$> cached_team_members db') ∧
  (∀ mw, mw ∈ members →
         tm_member_name (mwt_member mw)
           ∈ tm_member_name <$> cached_team_members db') ∧
  (∀ row, row ∈ cached_team_members db' →
     (row ∈ cached_team_members db ∧
      ∀ mw, mw ∈ members →
            tm_member_name (mwt_member mw) ≠ tm_member_name row)
     ∨ (∃ pre mw post,
          members = pre ++ mw :: post ∧ row = mwt_member mw ∧
          ∀ mw', mw' ∈ post →
                 tm_member_name (mwt_member mw') ≠ tm_member_name row)).
Proof.
  revert db todos_dict.
  induction members as [|m members IH]; intros db acc Hnd.
  - simpl. split; [done|]. split.
    { intros row Hrow. apply list_elem_of_fmap. by exists row. }
    split; [by intros mw Hmw%elem_of_nil|].
    intros row Hrow. left. split; [done|]. by intros mw Hmw%elem_of_nil.
  - cbn [NotionCacheTasks.for_members].
    destruct (get_or_create_team_member_spec db (mwt_member m) Hnd)
      as (Hnd1 & Hm1 & Hrows1 & Hkeep1).
    cbv zeta in Hnd1, Hm1, Hrows1, Hkeep1.
    set (db1 := CacheRepository.get_or_create_team_member db (mwt_member m))
      in *.
    destruct (IH db1
                (NotionCacheTasks.add_member_todos fromisoformat_date
                   (tm_member_name (mwt_member m)) (mwt_todos m) acc) Hnd1)
      as (Hnd' & Hkeep & Hfetched & Hrows).
    cbv zeta in Hnd', Hkeep, Hfetched, Hrows.
    set (db' := (NotionCacheTasks.for_members fromisoformat_date members db1
                   _).1) in *.
    assert (Hkeep_name : ∀ name,
              name ∈ tm_member_name <$> cached_team_members db1 →
              name ∈ tm_member_name <$> cached_team_members db').
    { intros name (row & -> & Hrow)%list_elem_of_fmap. by apply Hkeep. }
    split; [done|]. split; [|split].
    + intros row Hrow. by apply Hkeep_name, Hkeep1.
    + intros mw [->|Hmw]%elem_of_cons; [|by apply Hfetched].
      apply Hkeep_name, list_elem_of_fmap. by exists (mwt_member m).
    + intros row Hrow.
      destruct (Hrows row Hrow)
        as [[Hrow1 Hnot]|(pre & mw & post & -> & -> & Hlast)].
      * destruct (Hrows1 row Hrow1) as [->|[Hrow0 Hname]].
        -- right. exists [], m, members. split; [done|]. split; [done|].
           exact Hnot.
        -- left. split; [done|].
           intros mw [->|Hmw]%elem_of_cons; [congruence|by apply Hnot].
      * right. exists (m :: pre), mw, post. by split.
Qed.

Lemma for_members_team_members_witness :
  let aida := mkCachedTeamMember "aida" (Some "engineer") None None None in
  let bolat := mkCachedTeamMember "bolat" None None None None in
  let aida' := mkCachedTeamMember "aida" (Some "lead") None None None in
  let db := set_cached_team_members [aida; bolat] idle_db in
  let members := [mkMemberWithTodos aida' []] in
  let db' := (NotionCacheTasks.for_members no_dates members db []).1 in
  NoDup (tm_member_name <$> cached_team_members db') ∧
  (∀ row, row ∈ cached_team_members db →
          tm_member_name row ∈ tm_member_name <$> cached_team_members db') ∧
  (∀ mw, mw ∈ members →
         tm_member_name (mwt_member mw)
           ∈ tm_member_name <$> cached_team_members db') ∧
  (∀ row, row ∈ cached_team_members db' →
     (row ∈ cached_team_members db ∧
      ∀ mw, mw ∈ members →
            tm_member_name (mwt_member mw) ≠ tm_member_name row)
     ∨ (∃ pre mw post,
          members = pre ++ mw :: post ∧ row = mwt_member mw ∧
          ∀ mw', mw' ∈ post →
                 tm_member_name (mwt_member mw') ≠ tm_member_name row)).
Proof.
  apply (for_members_team_members no_dates
           [mkMemberWithTodos
              (mkCachedTeamMember "aida" (Some "lead") None None None) []]
           (set_cached_team_members
              [mkCachedTeamMember "aida" (Some "engineer") None None None;
               mkCachedTeamMember "bolat" None None None None] idle_db) []).
  apply (bool_decide_unpack _). vm_compute. reflexivity.
Defined.

(** ** Leaderboard *)

Lemma ranked_rows (rank : Z) (rows : list ActivityRepository.leaderboard_row) :
  row_of_entry <$> ActivityRepository.ranked rank rows = rows ∧
  ActivityRepository.le_rank <$> ActivityRepository.ranked rank rows
  = seqZ rank (Z.of_nat (length rows)).
Proof.
  revert rank. induction rows as [|row rows IH]; intros rank; [done|].
  destruct (IH (rank + 1)) as [Hrows Hranks].
  cbn [ActivityRepository.ranked length]. rewrite !fmap_cons, Hrows, Hranks.
  split; [by destruct row|].
  rewrite (seqZ_cons rank) by lia. simpl. f_equal. f_equal; lia.
Qed.

Lemma StronglySorted_fmap_inv {A B : Type} (f : A → B) (R : relation B)
    (l : list A) :
  StronglySorted R (f <$> l) → StronglySorted (λ x y, R (f x) (f y)) l.
Proof.
  induction l as [|x l IH]; intros Hs; [constructor|].
  rewrite fmap_cons in Hs. apply StronglySorted_inv in Hs as [Hs Hx].
  constructor; [by apply IH|].
  apply Forall_forall. intros y Hy.
  apply (proj1 (Forall_forall _ _) Hx).
  apply list_elem_of_fmap. by exists y.
Qed.

Lemma sum_cons (x : Z) (xs : list Z) :
  ActivityStatsService.sum (x :: xs) = x + ActivityStatsService.sum xs.
Proof.
  induction xs as [|y xs IH] using rev_ind; [unfold ActivityStatsService.sum; simpl; lia|].
  rewrite app_comm_cons, !sum_snoc, IH. lia.
Qed.

Lemma sum_Permutation (xs ys : list Z) :
  xs ≡ₚ ys → foldr Z.add 0 xs = ActivityStatsService.sum ys.
Proof.
  induction 1 as [|x xs ys _ IH|x y xs|xs ys zs _ IH1 Hperm IH2].
  - done.
  - rewrite sum_cons. simpl. lia.
  - rewrite !sum_cons. simpl.
    assert (foldr Z.add 0 xs = ActivityStatsService.sum xs) as ->; [|lia].
    induction xs as [|z xs IH]; [done|]. rewrite sum_cons. simpl. lia.
  - rewrite IH1. rewrite <- IH2.
    clear. induction ys as [|z ys IH]; [done|]. rewrite sum_cons. simpl. lia.
Qed.

Lemma by_total_score_desc_transitive :
  Transitive ActivityRepository.by_total_score_desc.
Proof. intros a b c. unfold ActivityRepository.by_total_score_desc. lia. Qed.

Lemma by_total_score_desc_total :
  Total ActivityRepository.by_total_score_desc.
Proof. intros a b. unfold ActivityRepository.by_total_score_desc. lia. Qed.

(** A grouped row carries the totals that [get_person_stats] reports for the
    person and the range. *)
Lemma leaderboard_group_stats (s : Session) (a b : Z) (p : Person)
    (row : ActivityRepository.leaderboard_row)
    (period : ActivityStatsService.PeriodType) (period_range : Z * Z) :
  ActivityRepository.leaderboard_group s a b p = Some row →
  let stats := ActivityStatsService.get_person_stats s (person_id p) period
                 period_range (Some a) (Some b) in
  ActivityRepository.summaries_in_range s a b p ≠ [] ∧
  ActivityRepository.lr_id row = person_id p ∧
  ActivityRepository.lr_username row = person_username p ∧
  ActivityRepository.lr_total_conversations row
  = ActivityStatsService.asr_total_conversations stats ∧
  ActivityRepository.lr_total_tasks row
  = ActivityStatsService.asr_total_tasks_completed stats ∧
  ActivityRepository.lr_total_score row
  = ActivityStatsService.asr_total_activity_score stats.
Proof.
  unfold ActivityRepository.leaderboard_group.
  destruct (ActivityRepository.summaries_in_range s a b p) as [|r rows] eqn:Hr;
    [done|].
  intros [= <-]. split; [done|]. split; [done|]. split; [done|].
  unfold ActivityStatsService.get_person_stats,
    ActivityRepository.get_summaries_for_person.
  cbn [fst snd ActivityStatsService.asr_total_conversations
       ActivityStatsService.asr_total_tasks_completed
       ActivityStatsService.asr_total_activity_score
       ActivityRepository.lr_total_conversations
       ActivityRepository.lr_total_tasks ActivityRepository.lr_total_score].
  change (filter _ (activity_summaries s))
    with (ActivityRepository.summaries_in_range s a b p).
  rewrite Hr.
  pose proof (merge_sort_Permutation ActivityRepository.by_date (r :: rows))
    as Hperm.
  split; [|split].
  - rewrite <- (sum_Permutation (sum_conversations_created <$> r :: rows))
      by (symmetry; by apply fmap_Permutation).
    reflexivity.
  - rewrite <- (sum_Permutation (sum_tasks_completed <$> r :: rows))
      by (symmetry; by apply fmap_Permutation).
    reflexivity.
  - rewrite <- (sum_Permutation (sum_total_activity_score <$> r :: rows))
      by (symmetry; by apply fmap_Permutation).
    reflexivity.
Qed.

(** X18. The leaderboard of a range, for [limit >= 0]: at most [limit]
    entries, ranked 1, 2, ... in that order with non-increasing total score;
    every entry is a person with a summary in the range and carries the
    totals that [get_person_stats] reports for that person and range; a
    person with a summary in the range who is not listed has a total score
    no higher than any listed entry, and then the list is full; persons
    with distinct ids are listed at most once. *)
Theorem get_leaderboard_ranking (s : Session) (a b limit : Z)
    (period : ActivityStatsService.PeriodType) (period_range : Z * Z) :
  0 ≤ limit →
  let lb := ActivityRepository.get_leaderboard s a b limit in
  let stats p := ActivityStatsService.get_person_stats s (person_id p) period
                   period_range (Some a) (Some b) in
  Z.of_nat (length lb) ≤ limit ∧
  ActivityRepository.le_rank <$> lb = seqZ 1 (Z.of_nat (length lb)) ∧
  StronglySorted
    (λ x y, ActivityRepository.le_total_activity_score y
            ≤ ActivityRepository.le_total_activity_score x) lb ∧
  (∀ e, e ∈ lb →
     ∃ p, p ∈ persons s ∧
          ActivityRepository.summaries_in_range s a b p ≠ [] ∧
          ActivityRepository.le_person_id e = person_id p ∧
          ActivityRepository.le_username e = person_username p ∧
          ActivityRepository.le_conversations_created e
          = ActivityStatsService.asr_total_conversations (stats p) ∧
          ActivityRepository.le_tasks_completed e
          = ActivityStatsService.asr_total_tasks_completed (stats p) ∧
          ActivityRepository.le_total_activity_score e
          = ActivityStatsService.asr_total_activity_score (stats p)) ∧
  (∀ p, p ∈ persons s →
        ActivityRepository.summaries_in_range s a b p ≠ [] →
        (∃ e, e ∈ lb ∧ ActivityRepository.le_person_id e = person_id p ∧
              ActivityRepository.le_username e = person_username p)
        ∨ (Z.of_nat (length lb) = limit ∧
           ∀ e, e ∈ lb →
                ActivityStatsService.asr_total_activity_score (stats p)
                ≤ ActivityRepository.le_total_activity_score e)) ∧
  (NoDup (person_id <$> persons s) →
   NoDup (ActivityRepository.le_person_id <$> lb)).
Proof.
  intros Hlimit lb stats.
  set (groups := omap (ActivityRepository.leaderboard_group s a b) (persons s)).
  set (sorted := merge_sort ActivityRepository.by_total_score_desc groups).
  set (rows := take (Z.to_nat limit) sorted).
  destruct (ranked_rows 1 rows) as [Hrows Hranks].
  change (ActivityRepository.ranked 1 rows) with lb in Hrows, Hranks.
  assert (Hlen : length lb = length rows)
    by (rewrite <- Hrows; by rewrite length_fmap).
  assert (Hsorted : StronglySorted ActivityRepository.by_total_score_desc sorted)
    by (apply StronglySorted_merge_sort;
        [apply by_total_score_desc_transitive|apply by_total_score_desc_total]).
  assert (Hperm : sorted ≡ₚ groups) by apply merge_sort_Permutation.
  assert (Hsplit : sorted = rows ++ drop (Z.to_nat limit) sorted)
    by (symmetry; apply take_drop).
  assert (Hentry : ∀ e, e ∈ lb → row_of_entry e ∈ groups).
  { intros e He. rewrite <- Hperm, Hsplit. apply elem_of_app. left.
    rewrite <- Hrows. apply list_elem_of_fmap. by exists e. }
  split; [|split; [|split; [|split; [|split]]]].
  - rewrite Hlen. unfold rows. rewrite length_take. lia.
  - by rewrite Hlen.
  - apply (StronglySorted_fmap_inv row_of_entry
             ActivityRepository.by_total_score_desc).
    rewrite Hrows. rewrite Hsplit in Hsorted.
    by apply StronglySorted_app_1_l in Hsorted.
  - intros e He. apply Hentry in He.
    apply list_elem_of_omap in He as (p & Hp & Hgroup).
    destruct (leaderboard_group_stats s a b p _ period period_range Hgroup)
      as (Hsome & Hid & Hname & Hc & Ht & Hs).
    exists p. by repeat split.
  - intros p Hp Hsome.
    destruct (ActivityRepository.leaderboard_group s a b p) as [row|] eqn:Hgroup.
    2:{ unfold ActivityRepository.leaderboard_group in Hgroup.
        by destruct (ActivityRepository.summaries_in_range s a b p). }
    destruct (leaderboard_group_stats s a b p row period period_range Hgroup)
      as (_ & Hid & Hname & _ & _ & Hscore).
    assert (row ∈ sorted) as Hin.
    { rewrite Hperm. apply list_elem_of_omap. by exists p. }
    rewrite Hsplit in Hin. apply elem_of_app in Hin as [Hin|Hin].
    + left. rewrite <- Hrows in Hin.
      apply list_elem_of_fmap in Hin as (e & -> & He).
      exists e. by split.
    + right. split.
      * rewrite Hlen. unfold rows. rewrite length_take.
        assert (drop (Z.to_nat limit) sorted ≠ []) as Hne
          by (intros Hnil; rewrite Hnil in Hin; by apply elem_of_nil in Hin).
        destruct (decide (length sorted ≤ Z.to_nat limit)%nat) as [Hle|];
          [by rewrite drop_ge in Hne|lia].
      * intros e He. fold (stats p) in Hscore. rewrite <- Hscore.
        rewrite Hsplit in Hsorted.
        apply (StronglySorted_app_1_elem_of _ _ _ (row_of_entry e) row Hsorted);
          [|done].
        rewrite <- Hrows. apply list_elem_of_fmap. by exists e.
  - intros Hnd.
    assert (NoDup (ActivityRepository.lr_id <$> groups)) as Hgroups.
    { unfold groups. clear -Hnd.
      induction (persons s) as [|p ps IH]; [constructor|].
      rewrite fmap_cons in Hnd. apply NoDup_cons in Hnd as [Hp Hnd].
      simpl.
      destruct (ActivityRepository.leaderboard_group s a b p) as [row|]
        eqn:Hgroup; [|by apply IH].
      rewrite fmap_cons. constructor; [|by apply IH].
      intros (row' & Hid & Hin)%list_elem_of_fmap.
      apply list_elem_of_omap in Hin as (q & Hq & Hgroup').
      apply Hp. apply list_elem_of_fmap. exists q. split; [|done].
      unfold ActivityRepository.leaderboard_group in Hgroup, Hgroup'.
      destruct (ActivityRepository.summaries_in_range s a b p); [done|].
      destruct (ActivityRepository.summaries_in_range s a b q); [done|].
      injection Hgroup as <-. injection Hgroup' as <-. done. }
    change (ActivityRepository.le_person_id <$> lb)
      with ((ActivityRepository.lr_id ∘ row_of_entry) <$> lb).
    rewrite list_fmap_compose, Hrows.
    assert (rows `sublist_of` sorted) as Hsub by apply sublist_take.
    apply (sublist_NoDup (ActivityRepository.lr_id <$> rows)
             (ActivityRepository.lr_id <$> sorted));
      [by rewrite Hperm|by apply fmap_sublist].
Qed.

Lemma get_leaderboard_ranking_witness :
  let lb := ActivityRepository.get_leaderboard podium_session 5 9 1 in
  let stats p :=
    ActivityStatsService.get_person_stats podium_session (person_id p)
      ActivityStatsService.WEEKLY (0, 0) (Some 5) (Some 9) in
  Z.of_nat (length lb) ≤ 1 ∧
  ActivityRepository.le_rank <$> lb = seqZ 1 (Z.of_nat (length lb)) ∧
  StronglySorted
    (λ x y, ActivityRepository.le_total_activity_score y
            ≤ ActivityRepository.le_total_activity_score x) lb ∧
  (∀ e, e ∈ lb →
     ∃ p, p ∈ persons podium_session ∧
          ActivityRepository.summaries_in_range podium_session 5 9 p ≠ [] ∧
          ActivityRepository.le_person_id e = person_id p ∧
          ActivityRepository.le_username e = person_username p ∧
          ActivityRepository.le_conversations_created e
          = ActivityStatsService.asr_total_conversations (stats p) ∧
          ActivityRepository.le_tasks_completed e
          = ActivityStatsService.asr_total_tasks_completed (stats p) ∧
          ActivityRepository.le_total_activity_score e
          = ActivityStatsService.asr_total_activity_score (stats p)) ∧
  (∀ p, p ∈ persons podium_session →
        ActivityRepository.summaries_in_range podium_session 5 9 p ≠ [] →
        (∃ e, e ∈ lb ∧ ActivityRepository.le_person_id e = person_id p ∧
              ActivityRepository.le_username e = person_username p)
        ∨ (Z.of_nat (length lb) = 1 ∧
           ∀ e, e ∈ lb →
                ActivityStatsService.asr_total_activity_score (stats p)
                ≤ ActivityRepository.le_total_activity_score e)) ∧
  (NoDup (person_id <$> persons podium_session) →
   NoDup (ActivityRepository.le_person_id <$> lb)).
Proof.
  apply (get_leaderboard_ranking podium_session 5 9 1
           ActivityStatsService.WEEKLY (0, 0)). lia.
Defined.

(** *** The [is_updating] flag over several runs *)




(** *** The activities task *)


